(** * planning-benchmarks: the benchmark orchestration core of
    [benchmark_pddl.py], embedded in Rocq.

    The Python functions are translated one by one and keep their names:
    [is_problem_file], [read_domain_name_from_file],
    [find_domain_file_for_problem], [find_problem_files], [run_benchmark],
    [problem_sort_key] and the part of [main] that walks the corpus and
    writes the CSV file.

    Conventions of the embedding.
    - A Python [str] is a [string]; a character is a code point below 256.
    - The file system, the planner process, the wall clock and the
      settings of the interpreter are outside the program: they are
      oracles (records of functions) the translated functions are
      parameterised by.
    - A Python exception that escapes a function is a value [Raise e] of
      the result type [exc]; a [try/except Exception: pass] is the total
      function that maps the failure to the fall-through value. *)

From Stdlib Require Import Bool Arith List Ascii String ZArith QArith Lia.
From Stdlib Require Import DecimalString.
From Stdlib Require Import Sorting.Sorted Sorting.Permutation.
Import ListNotations.

Local Open Scope string_scope.
Local Open Scope list_scope.

Set Implicit Arguments.

(* ================================================================== *)
(** * Python strings *)

Module PyStr.

Definition code (c : ascii) : N := N_of_ascii c.

(** [str.isspace] on one character, which is also what [\s] matches in a
    [str] pattern and what [str.strip()] removes. *)
Definition isspace (c : ascii) : bool :=
  let n := code c in
  (((9 <=? n) && (n <=? 13)) || ((28 <=? n) && (n <=? 32))
   || (n =? 133) || (n =? 160))%N.

(** [\d] below code point 256: the ten ASCII digits. *)
Definition isdigit (c : ascii) : bool :=
  let n := code c in ((48 <=? n) && (n <=? 57))%N.

Fixpoint startswith (p s : string) : bool :=
  match p, s with
  | EmptyString, _ => true
  | String a p', String b s' => Ascii.eqb a b && startswith p' s'
  | String _ _, EmptyString => false
  end.

(** [needle in s]. *)
Fixpoint contains (needle s : string) : bool :=
  startswith needle s
  || match s with
     | EmptyString => false
     | String _ s' => contains needle s'
     end.

(** [s[:n]]. *)
Fixpoint take (n : nat) (s : string) : string :=
  match n, s with
  | S n', String c s' => String c (take n' s')
  | _, _ => EmptyString
  end.

Fixpoint lstrip (s : string) : string :=
  match s with
  | String c s' => if isspace c then lstrip s' else s
  | EmptyString => EmptyString
  end.

Fixpoint rstrip (s : string) : string :=
  match s with
  | EmptyString => EmptyString
  | String c s' =>
      match rstrip s' with
      | EmptyString => if isspace c then EmptyString else String c EmptyString
      | r => String c r
      end
  end.

(** [s.strip()]. *)
Definition strip (s : string) : string := rstrip (lstrip s).

(** [s.replace(old, "")] for a non-empty [old]: occurrences are removed
    from left to right, without overlap.  [skip] counts the characters of
    an occurrence still to be dropped. *)
Fixpoint remove_from (old : string) (skip : nat) (s : string) : string :=
  match s with
  | EmptyString => EmptyString
  | String c s' =>
      match skip with
      | S k => remove_from old k s'
      | O => if startswith old s
             then remove_from old (String.length old - 1) s'
             else String c (remove_from old 0 s')
      end
  end.

Definition remove_all (old s : string) : string := remove_from old 0 s.

(** Truth value of a [str]. *)
Definition truthy (s : string) : bool :=
  match s with EmptyString => false | _ => true end.

(** [int(s)] for a string of decimal digits. *)
Definition digit_value (c : ascii) : Z := Z.of_N (code c) - 48.

Fixpoint int_from (acc : Z) (s : string) : Z :=
  match s with
  | EmptyString => acc
  | String c s' => int_from (10 * acc + digit_value c) s'
  end.

Definition int (s : string) : Z := int_from 0 s.

(** [str(n)] for a natural number. *)
Definition str_of_nat (n : nat) : string :=
  NilZero.string_of_uint (Nat.to_uint n).

(** [int(s)] as the interpreter performs it on a string of decimal
    digits.  [max_str_digits] is [sys.get_int_max_str_digits()]: 4300
    unless it was set otherwise, 0 where the check is switched off or the
    interpreter has none.  A string of more digits than that, leading
    zeros counted, is refused with [ValueError]; strings of at most 640
    digits are never refused.  [inl] holds [str(e)] of the exception. *)
Definition int_checked (max_str_digits : nat) (s : string) : string + Z :=
  let digits := String.length s in
  if ((0 <? max_str_digits) && (max_str_digits <? digits)
      && (640 <? digits))%nat
  then inl ("Exceeds the limit (" ++ str_of_nat max_str_digits
            ++ " digits) for integer string conversion: value has "
            ++ str_of_nat digits
            ++ " digits; use sys.set_int_max_str_digits() to increase the limit"
           )%string
  else inr (int s).

(** [a < b] on [str]: code points, lexicographically. *)
Fixpoint ltb (a b : string) : bool :=
  match a, b with
  | _, EmptyString => false
  | EmptyString, String _ _ => true
  | String x a', String y b' =>
      if (code x <? code y)%N then true
      else if (code y <? code x)%N then false
      else ltb a' b'
  end.

(** [s.endswith(suffix)] *)
Fixpoint endswith (suffix s : string) : bool :=
  String.eqb suffix s
  || match s with
     | EmptyString => false
     | String _ s' => endswith suffix s'
     end.

(** [s.lower()] below code point 256: the letters A to Z and the
    capital letters of Latin-1 move 32 places up. *)
Definition lower_char (c : ascii) : ascii :=
  let n := code c in
  if (((65 <=? n) && (n <=? 90))
      || ((192 <=? n) && (n <=? 222) && negb (n =? 215)))%N
  then ascii_of_N (n + 32) else c.

Fixpoint lower (s : string) : string :=
  match s with
  | EmptyString => EmptyString
  | String c s' => String (lower_char c) (lower s')
  end.

(** [s * n] for a one-character [s]. *)
Fixpoint replicate (n : nat) (c : ascii) : string :=
  match n with
  | O => EmptyString
  | S n' => String c (replicate n' c)
  end.

End PyStr.

(* ================================================================== *)
(** * The fragment of [re] the program uses

    Every pattern of the program is a sequence of literal characters and of
    [+]-repeated one-character classes, one of them a capturing group.
    [match_here] is the backtracking matcher: a [+] is greedy, it first
    tries to take one more character and gives characters back only when
    the rest of the pattern fails.  The result is the text of the group. *)

Module Re.

Inductive item : Type :=
| Lit (c : ascii)                       (* a literal character *)
| Plus (cls : ascii -> bool)            (* cls+ *)
| Group (cls : ascii -> bool).          (* (cls+) *)

Definition regex := list item.

Fixpoint lits (s : string) : regex :=
  match s with
  | EmptyString => []
  | String c s' => Lit c :: lits s'
  end.

Fixpoint match_here (r : regex) : string -> option string :=
  match r with
  | [] => fun _ => Some EmptyString
  | Lit c :: r' =>
      fun s =>
        match s with
        | String d s' => if Ascii.eqb c d then match_here r' s' else None
        | EmptyString => None
        end
  | Plus cls :: r' =>
      fix plus (s : string) : option string :=
        match s with
        | String d s' =>
            if cls d then
              match plus s' with
              | Some g => Some g
              | None => match_here r' s'
              end
            else None
        | EmptyString => None
        end
  | Group cls :: r' =>
      fix plus (s : string) : option string :=
        match s with
        | String d s' =>
            if cls d then
              match plus s' with
              | Some g => Some (String d g)
              | None =>
                  match match_here r' s' with
                  | Some g => Some (String d g)
                  | None => None
                  end
              end
            else None
        | EmptyString => None
        end
  end.

(** [re.search(r, s)]: the match at the leftmost position that has one;
    [None] when there is none, else [group(1)]. *)
Fixpoint search (r : regex) (s : string) : option string :=
  match match_here r s with
  | Some g => Some g
  | None =>
      match s with
      | String _ s' => search r s'
      | EmptyString => None
      end
  end.

(** [re.findall(r, s)] for a pattern that is one group and nothing else,
    so that a match is as long as its group: after a match the scan
    resumes behind it. *)
Fixpoint findall_from (r : regex) (skip : nat) (s : string) : list string :=
  match s with
  | EmptyString => []
  | String _ s' =>
      match skip with
      | S k => findall_from r k s'
      | O =>
          match match_here r s with
          | Some g => g :: findall_from r (String.length g - 1) s'
          | None => findall_from r 0 s'
          end
      end
  end.

Definition findall (r : regex) (s : string) : list string :=
  findall_from r 0 s.

Definition not_rparen (c : ascii) : bool := negb (Ascii.eqb c ")").

(** [r'\(:domain\s+([^)]+)\)'] *)
Definition domain_re : regex :=
  lits "(:domain" ++ [Plus PyStr.isspace; Group not_rparen; Lit ")"].

(** [r"(\d+) Nodes expanded"] *)
Definition nodes_re : regex :=
  Group PyStr.isdigit :: lits " Nodes expanded".

(** [r"Plan length: (\d+)"] *)
Definition length_re : regex :=
  lits "Plan length: " ++ [Group PyStr.isdigit].

(** [r'\d+'] *)
Definition digits_re : regex := [Group PyStr.isdigit].

End Re.

(* ================================================================== *)
(** * [os.path] (posixpath) *)

Module PosixPath.

(** [(p[:i], p[i:])] for [i = p.rfind('/') + 1]. *)
Fixpoint cut (p : string) : string * string :=
  match p with
  | EmptyString => (EmptyString, EmptyString)
  | String c p' =>
      let (h, t) := cut p' in
      if PyStr.truthy h then (String c h, t)
      else if Ascii.eqb c "/" then (String c EmptyString, p')
      else (EmptyString, String c t)
  end.

Fixpoint all_slashes (s : string) : bool :=
  match s with
  | EmptyString => true
  | String c s' => Ascii.eqb c "/" && all_slashes s'
  end.

(** [s.rstrip('/')] *)
Fixpoint rstrip_slash (s : string) : string :=
  match s with
  | EmptyString => EmptyString
  | String c s' =>
      match rstrip_slash s' with
      | EmptyString => if Ascii.eqb c "/" then EmptyString
                       else String c EmptyString
      | r => String c r
      end
  end.

Definition dirname (p : string) : string :=
  let head := fst (cut p) in
  if PyStr.truthy head && negb (all_slashes head)
  then rstrip_slash head else head.

Definition basename (p : string) : string := snd (cut p).

Fixpoint endswith_slash (s : string) : bool :=
  match s with
  | EmptyString => false
  | String c EmptyString => Ascii.eqb c "/"
  | String _ s' => endswith_slash s'
  end.

(** [os.path.join(a, b)] *)
Definition join (a b : string) : string :=
  if PyStr.startswith "/" b then b
  else if negb (PyStr.truthy a) || endswith_slash a then a ++ b
  else a ++ "/" ++ b.

End PosixPath.

(* ================================================================== *)
(** * The file system, as the program observes it

    The files do not change while the program runs: a query has one
    answer, and the last two fields say that the two ways of reading a
    file agree. *)

Record FileSystem : Type := {
  (** [open(p, 'r')] followed by [read()]: the decoded text, or [None]
      when opening, reading or decoding raises. *)
  fs_read : string -> option string;
  (** [open(p, 'r')] followed by [read(n)]: the text it returns, or
      [None] when opening, reading or decoding raises.  A bounded read
      decodes only as many bytes of the file as it needs, so it can
      return where [read()] raises on bytes further on. *)
  fs_read_n : string -> nat -> option string;
  (** [os.path.exists] *)
  fs_exists : string -> bool;
  (** [os.path.isfile] *)
  fs_isfile : string -> bool;
  (** [os.path.isdir] *)
  fs_isdir : string -> bool;
  (** [os.listdir], for a directory that can be listed. *)
  fs_listdir : string -> list string;
  (** [glob.glob], in the order the operating system lists a directory. *)
  fs_glob : string -> list string;
  (** The two reads see the same file: where the whole text can be read,
      [read(n)] returns its first [n] characters. *)
  fs_read_n_whole : forall (p : string) (n : nat) (content : string),
    fs_read p = Some content -> fs_read_n p n = Some (PyStr.take n content);
  (** [read(n)] returns at most [n] characters. *)
  fs_read_n_bound : forall (p : string) (n : nat) (text : string),
    fs_read_n p n = Some text -> (String.length text <= n)%nat
}.

(* ================================================================== *)
(** * File Classifier and Domain Resolver *)

Section Resolver.

Variable fs : FileSystem.

(** [is_problem_file]: the [try] swallows every exception and falls
    through to [return False]. *)
Definition is_problem_file (file_path : string) : bool :=
  match fs_read_n fs file_path 2000 with
  | Some content =>
      PyStr.contains "(:goal" content
      && PyStr.contains "(define" content
      && PyStr.contains "problem" content
  | None => false
  end.

(** [find_problem_files] *)
Definition find_problem_files (directory : string) : list string :=
  filter is_problem_file (fs_glob fs (PosixPath.join directory "*.pddl")).

(** [read_domain_name_from_file]; Python's [None] is [None]. *)
Definition read_domain_name_from_file (file_path : string)
  : option string :=
  match fs_read fs file_path with
  | Some content =>
      match Re.search Re.domain_re content with
      | Some g => Some (PyStr.strip g)
      | None => None
      end
  | None => None
  end.

(** Truth value of a [str] or [None]. *)
Definition truthy_opt (o : option string) : bool :=
  match o with Some s => PyStr.truthy s | None => false end.

Definition opt_eqb (o : option string) (s : string) : bool :=
  match o with Some x => String.eqb x s | None => false end.

(** The [for variant in variants] loop. *)
Fixpoint first_existing (dir : string) (variants : list string)
  : option string :=
  match variants with
  | [] => None
  | variant :: rest =>
      let file_path := PosixPath.join dir (variant ++ ".pddl")%string in
      if fs_exists fs file_path then Some file_path
      else first_existing dir rest
  end.

(** The [for pattern in patterns] loops. *)
Fixpoint first_glob (dir : string) (patterns : list string)
  : option string :=
  match patterns with
  | [] => None
  | pattern :: rest =>
      match fs_glob fs (PosixPath.join dir pattern) with
      | c :: _ => Some c
      | [] => first_glob dir rest
      end
  end.

(** The test inside the structural scan; a file that cannot be read is
    passed over. *)
Definition looks_like_domain (pddl : string) : bool :=
  match fs_read fs pddl with
  | Some content =>
      PyStr.contains ":action" content
      && negb (PyStr.contains "(:goal" content)
  | None => false
  end.

Fixpoint scan_for_domain (problem_file : string) (all_pddls : list string)
  : option string :=
  match all_pddls with
  | [] => None
  | pddl :: rest =>
      if negb (String.eqb pddl problem_file) && fs_isfile fs pddl
         && looks_like_domain pddl
      then Some pddl
      else scan_for_domain problem_file rest
  end.

Definition variants_of (domain_name : option string) : list string :=
  (if truthy_opt domain_name
   then match domain_name with Some n => [n] | None => [] end
   else [])
  ++ (if opt_eqb domain_name "blocksworld" then ["blockworld"]
      else if opt_eqb domain_name "blockworld" then ["blocksworld"]
      else []).

Definition patterns_of (domain_name : option string) (problem_dir : string)
  : list string :=
  let patterns :=
    [ Some "domain.pddl";
      (if truthy_opt domain_name
       then option_map (fun n => (n ++ ".pddl")%string) domain_name else None);
      Some "*domain*.pddl";
      Some "*.domain.pddl";
      Some (PosixPath.basename problem_dir ++ ".pddl")%string ] in
  flat_map (fun p => match p with
                     | Some s => if PyStr.truthy s then [s] else []
                     | None => []
                     end) patterns.

(** [find_domain_file_for_problem]; [None] is Python's [None].  The
    [try] block at its top is, word for word, the body of
    [read_domain_name_from_file]. *)
Definition find_domain_file_for_problem (problem_file : string)
  : option string :=
  let problem_dir := PosixPath.dirname problem_file in
  let domain_name := read_domain_name_from_file problem_file in
  let variants := variants_of domain_name in
  match first_existing problem_dir variants with
  | Some file_path => Some file_path
  | None =>
      let patterns := patterns_of domain_name problem_dir in
      match first_glob problem_dir patterns with
      | Some c => Some c
      | None =>
          let all_pddls := fs_glob fs (PosixPath.join problem_dir "*.pddl") in
          match scan_for_domain problem_file all_pddls with
          | Some pddl => Some pddl
          | None =>
              let parent_dir := PosixPath.dirname problem_dir in
              first_glob parent_dir patterns
          end
      end
  end.

End Resolver.

(* ================================================================== *)
(** * A concrete file system

    A table from absolute paths to nodes, in the order the operating
    system lists them; directories are entries of their own.  Its [glob]
    follows [glob.glob] for patterns whose directory part is literal and
    whose last component uses [*] and [?]: bracket expressions and
    wildcards in the directory part are not interpreted. *)

Module Disk.

Inductive node : Type :=
| Dir
| File (content : string)
| Unreadable                 (* a file whose [open] or [read] raises *)
| Garbled (readable : string).
    (* a file that begins with the text [readable] and goes on with bytes
       that do not decode: [read()] raises, [read(n)] returns while it
       need not go beyond [readable] *)

Definition t := list (string * node).

Fixpoint lookup (d : t) (p : string) : option node :=
  match d with
  | [] => None
  | (q, n) :: d' => if String.eqb q p then Some n else lookup d' p
  end.

Definition exists_ (d : t) (p : string) : bool :=
  match lookup d p with Some _ => true | None => false end.

Definition isfile (d : t) (p : string) : bool :=
  match lookup d p with
  | Some (File _) | Some Unreadable | Some (Garbled _) => true
  | _ => false
  end.

Definition read (d : t) (p : string) : option string :=
  match lookup d p with
  | Some (File c) => Some c
  | _ => None
  end.

Definition read_n (d : t) (p : string) (n : nat) : option string :=
  match lookup d p with
  | Some (File c) => Some (PyStr.take n c)
  | Some (Garbled readable) =>
      if (n <=? String.length readable)%nat
      then Some (PyStr.take n readable) else None
  | _ => None
  end.

Definition isdir (d : t) (p : string) : bool :=
  match lookup d p with
  | Some Dir => true
  | _ => false
  end.

(** [os.listdir] *)
Definition listdir (d : t) (dir : string) : list string :=
  flat_map (fun e : string * node =>
              let name := PosixPath.basename (fst e) in
              if String.eqb (PosixPath.dirname (fst e)) dir
                 && PyStr.truthy name
              then [name] else []) d.

Definition is_magic (c : ascii) : bool :=
  Ascii.eqb c "*" || Ascii.eqb c "?" || Ascii.eqb c "[".

Fixpoint has_magic (s : string) : bool :=
  match s with
  | EmptyString => false
  | String c s' => is_magic c || has_magic s'
  end.

(** [fnmatch.fnmatch] for [*], [?] and literal characters. *)
Fixpoint fnmatch (pat : string) : string -> bool :=
  match pat with
  | EmptyString =>
      fun name => match name with EmptyString => true | _ => false end
  | String p pat' =>
      if Ascii.eqb p "*" then
        fix star (name : string) : bool :=
          fnmatch pat' name
          || match name with
             | String _ name' => star name'
             | EmptyString => false
             end
      else if Ascii.eqb p "?" then
        fun name =>
          match name with
          | String _ name' => fnmatch pat' name'
          | EmptyString => false
          end
      else
        fun name =>
          match name with
          | String c name' => Ascii.eqb p c && fnmatch pat' name'
          | EmptyString => false
          end
  end.

Definition glob (d : t) (pathname : string) : list string :=
  if negb (has_magic pathname) then
    if PyStr.truthy (PosixPath.basename pathname)
    then (if exists_ d pathname then [pathname] else [])
    else (if isdir d (PosixPath.dirname pathname) then [pathname] else [])
  else
    let dirname := PosixPath.dirname pathname in
    let basename := PosixPath.basename pathname in
    if has_magic dirname then []
    else
      map (PosixPath.join dirname)
          (filter (fun name =>
                     (PyStr.startswith "." basename
                      || negb (PyStr.startswith "." name))
                     && fnmatch basename name)
                  (listdir d dirname)).

Definition fs (d : t) : FileSystem.
Proof.
  refine {| fs_read := read d;
            fs_read_n := read_n d;
            fs_exists := exists_ d;
            fs_isfile := isfile d;
            fs_isdir := isdir d;
            fs_listdir := listdir d;
            fs_glob := glob d |}.
  - intros p n content. unfold read, read_n.
    destruct (lookup d p) as [[|c| |readable]|]; try discriminate.
    intros H. injection H as ->. reflexivity.
  - assert (Htake : forall n s, (String.length (PyStr.take n s) <= n)%nat).
    { induction n as [|n IH]; intros [|c s]; simpl; auto with arith. }
    intros p n text. unfold read_n.
    destruct (lookup d p) as [[|c| |readable]|]; try discriminate.
    + intros H. injection H as <-. apply Htake.
    + destruct (n <=? String.length readable)%nat; [|discriminate].
      intros H. injection H as <-. apply Htake.
Defined.

End Disk.

(* ================================================================== *)
(** * Python values, dictionaries and exceptions *)

Inductive pyval : Type :=
| VStr (s : string)
| VBool (b : bool)
| VInt (n : Z)
| VFloat (q : Q).

(** A [dict] with [str] keys, in insertion order. *)
Definition pydict := list (string * pyval).

Fixpoint dict_get (d : pydict) (k : string) : option pyval :=
  match d with
  | [] => None
  | (k', v) :: d' => if String.eqb k' k then Some v else dict_get d' k
  end.

(** [d[k] = v]: an existing key keeps its place. *)
Fixpoint dict_set (d : pydict) (k : string) (v : pyval) : pydict :=
  match d with
  | [] => [(k, v)]
  | (k', v') :: d' =>
      if String.eqb k' k then (k', v) :: d'
      else (k', v') :: dict_set d' k v
  end.

Definition keys (d : pydict) : list string := map fst d.

Inductive exn : Type :=
| NameError (name : string)
| TypeError
| ValueError (wrong_fields : list string)
| ReadError (path : string).
    (* what an [open] or a [read] outside any [try] raises: an [OSError],
       or [UnicodeDecodeError] when the bytes of the file do not decode *)

Inductive exc (A : Type) : Type :=
| Return (a : A)
| Raise (e : exn).

Arguments Return {A} a.
Arguments Raise {A} e.

Definition bind {A B : Type} (m : exc A) (f : A -> exc B) : exc B :=
  match m with
  | Return a => f a
  | Raise e => Raise e
  end.

Notation "x <- m ;; k" := (bind m (fun x => k))
  (at level 61, m at next level, right associativity).

(* ================================================================== *)
(** * Benchmark Runner *)

(** What [subprocess.run(cmd, capture_output=True, text=True, timeout=t)]
    does inside the [try]. *)
Inductive proc_outcome : Type :=
| Completed (stdout stderr : string)
| TimeoutExpired
| Failed (msg : string).         (* any other exception [e]; [str(e)] *)

(** One invocation as the runner observes it. *)
Record observation : Type := {
  obs_outcome : proc_outcome;
  (** [time.time()] in front of the [try]. *)
  obs_start : Q;
  (** The next reading of [time.time()]: the one after [subprocess.run]
      when it returns or runs into the time limit, the one of the last
      [except] clause when it raises another exception. *)
  obs_end : Q;
  (** The reading of the last [except] clause when the exception comes
      from a statement that follows [subprocess.run] in the [try]. *)
  obs_except : Q;
  (** [sys.get_int_max_str_digits()] during the call. *)
  obs_max_str_digits : nat;
  (** [print(f"STDERR: {result.stderr}")]: [None] when it returns,
      [Some (str(e))] when it raises the exception [e]. *)
  obs_print : option string
}.

Definition Exec := list string -> Z -> observation.

(** [x or default] *)
Definition or_default (x : option string) (default : string) : string :=
  match x with
  | Some s => if PyStr.truthy s then s else default
  | None => default
  end.

Definition flag (name : string) (x : option string) : list string :=
  match x with
  | Some s => if PyStr.truthy s then [name; s] else []
  | None => []
  end.

Definition stem (file : string) : string :=
  PyStr.remove_all ".pddl" (PosixPath.basename file).

(** The list [cmd] that [run_benchmark] builds. *)
Definition command_line (domain_file problem_file : string)
    (search heuristic : option string) : list string :=
  ["python"; "-m"; "pyperplan"]
  ++ flag "--search" search
  ++ flag "--heuristic" heuristic
  ++ [domain_file; problem_file].

(** [run_benchmark].  A statement of the [try] block that raises an
    exception of class [Exception] hands over to the last [except]
    clause; the statements that can do so after [subprocess.run] has
    returned are the two calls of [int] and the [print].  What this
    [print] writes is not recorded. *)
Definition run_benchmark (exec : Exec)
    (domain_file problem_file : string) (search heuristic : option string)
    (timeout : Z) : pydict :=
  let cmd := command_line domain_file problem_file search heuristic in
  let obs := exec cmd timeout in
  let start_time := obs_start obs in
  (* [except Exception as e], entered when the clock reads [now] and
     [str(e)] is [msg] *)
  let except_exception (now : Q) (msg : string) : pydict :=
    [ ("domain", VStr (stem domain_file));
      ("problem", VStr (stem problem_file));
      ("search", VStr (or_default search "breadth_first_search"));
      ("heuristic", VStr (or_default heuristic "None"));
      ("success", VBool false);
      ("runtime", VFloat (now - start_time)%Q);
      ("expanded_nodes", VStr ("error: " ++ msg)%string);
      ("plan_length", VStr ("error: " ++ msg)%string) ] in
  match obs_outcome obs with
  | Completed stdout _ =>
      let elapsed := (obs_end obs - start_time)%Q in
      let stats :=
        [ ("domain", VStr (stem domain_file));
          ("problem", VStr (stem problem_file));
          ("search", VStr (or_default search "breadth_first_search"));
          ("heuristic", VStr (or_default heuristic "None"));
          ("success", VBool (PyStr.contains "Goal reached" stdout));
          ("runtime", VFloat elapsed);
          ("expanded_nodes", VInt 0);
          ("plan_length", VInt 0) ] in
      match
        match Re.search Re.nodes_re stdout with
        | Some g =>
            match PyStr.int_checked (obs_max_str_digits obs) g with
            | inr n => inr (dict_set stats "expanded_nodes" (VInt n))
            | inl msg => inl msg
            end
        | None => inr stats
        end
      with
      | inl msg => except_exception (obs_except obs) msg
      | inr stats =>
          match
            match Re.search Re.length_re stdout with
            | Some g =>
                match PyStr.int_checked (obs_max_str_digits obs) g with
                | inr n => inr (dict_set stats "plan_length" (VInt n))
                | inl msg => inl msg
                end
            | None => inr stats
            end
          with
          | inl msg => except_exception (obs_except obs) msg
          | inr stats =>
              match obs_print obs with
              | Some msg => except_exception (obs_except obs) msg
              | None => stats
              end
          end
      end
  | TimeoutExpired =>
      let elapsed := (obs_end obs - start_time)%Q in
      [ ("domain", VStr (stem domain_file));
        ("problem", VStr (stem problem_file));
        ("search", VStr (or_default search "breadth_first_search"));
        ("heuristic", VStr (or_default heuristic "None"));
        ("success", VBool false);
        ("runtime", VFloat elapsed);
        ("expanded_nodes", VStr "timeout");
        ("plan_length", VStr "timeout") ]
  | Failed msg => except_exception (obs_end obs) msg
  end.

(** The columns of the dataset. *)
Definition FIELDS : list string :=
  ["domain"; "problem"; "search"; "heuristic"; "success"; "runtime";
   "expanded_nodes"; "plan_length"].

(** The three outcome classes of a record, read off its fields. *)
Inductive outcome_class : Type := Normal | TimedOut | InvocationError.

Definition is_int (v : option pyval) : bool :=
  match v with Some (VInt _) => true | _ => false end.

Definition is_str (s : string) (v : option pyval) : bool :=
  match v with Some (VStr x) => String.eqb x s | _ => false end.

Definition is_error_tag (v : option pyval) : bool :=
  match v with Some (VStr x) => PyStr.startswith "error: " x | _ => false end.

Definition is_false (v : option pyval) : bool :=
  match v with Some (VBool false) => true | _ => false end.

Definition in_class (r : pydict) (c : outcome_class) : bool :=
  let nodes := dict_get r "expanded_nodes" in
  let len := dict_get r "plan_length" in
  match c with
  | Normal => is_int nodes && is_int len
  | TimedOut =>
      is_false (dict_get r "success")
      && is_str "timeout" nodes && is_str "timeout" len
  | InvocationError =>
      is_false (dict_get r "success")
      && is_error_tag nodes && is_error_tag len
  end.

Definition classes_of (r : pydict) : list outcome_class :=
  filter (in_class r) [Normal; TimedOut; InvocationError].

(** What the three branches return, spelled out for the statements. *)

(** [str(e)] of the exception that [int] raises on the group of a match,
    if there is a match and [int] raises on it. *)
Definition int_failure (max_str_digits : nat) (m : option string)
  : option string :=
  match m with
  | Some g =>
      match PyStr.int_checked max_str_digits g with
      | inl msg => Some msg
      | inr _ => None
      end
  | None => None
  end.

(** [str(e)] of the first exception that a statement of the [try] block
    raises once [subprocess.run] has returned with [stdout]; [None] when
    the block runs to its [return]. *)
Definition raised_after_run (obs : observation) (stdout : string)
  : option string :=
  match int_failure (obs_max_str_digits obs)
                    (Re.search Re.nodes_re stdout) with
  | Some msg => Some msg
  | None =>
      match int_failure (obs_max_str_digits obs)
                        (Re.search Re.length_re stdout) with
      | Some msg => Some msg
      | None => obs_print obs
      end
  end.

(** The number a match stands for; 0 without a match. *)
Definition figure (m : option string) : Z :=
  match m with Some g => PyStr.int g | None => 0%Z end.

Definition record_of (domain_file problem_file : string)
    (search heuristic : option string) (success : bool) (runtime : Q)
    (expanded_nodes plan_length : pyval) : pydict :=
  [ ("domain", VStr (stem domain_file));
    ("problem", VStr (stem problem_file));
    ("search", VStr (or_default search "breadth_first_search"));
    ("heuristic", VStr (or_default heuristic "None"));
    ("success", VBool success);
    ("runtime", VFloat runtime);
    ("expanded_nodes", expanded_nodes);
    ("plan_length", plan_length) ].

(** The class of the record a call returns, told from what the call
    observes: a process that completed gives a normal record unless a
    later statement of the [try] block raises. *)
Definition class_of_observation (obs : observation) : outcome_class :=
  match obs_outcome obs with
  | Completed stdout _ =>
      match raised_after_run obs stdout with
      | None => Normal
      | Some _ => InvocationError
      end
  | TimeoutExpired => TimedOut
  | Failed _ => InvocationError
  end.

(** The reading of the clock that a call subtracts the first one from. *)
Definition last_reading (obs : observation) : Q :=
  match obs_outcome obs with
  | Completed stdout _ =>
      match raised_after_run obs stdout with
      | None => obs_end obs
      | Some _ => obs_except obs
      end
  | TimeoutExpired | Failed _ => obs_end obs
  end.

(* ================================================================== *)
(** * Result Sink: [csv.DictWriter] as [main] uses it

    [DictWriter(f, fieldnames=results[0].keys())] keeps the library's
    defaults [restval=''] and [extrasaction='raise']. *)

Module Csv.

Definition row := list pyval.

(** The file after the [with] block: a header line and the data rows. *)
Record file : Type := { header : list string; rows : list row }.

Definition mem (k : string) (l : list string) : bool :=
  existsb (String.eqb k) l.

(** [rowdict.keys() - self.fieldnames] *)
Definition wrong_fields (fieldnames : list string) (rowdict : pydict)
  : list string :=
  filter (fun k => negb (mem k fieldnames)) (keys rowdict).

(** [rowdict.get(key, self.restval)] *)
Definition cell (rowdict : pydict) (key : string) : pyval :=
  match dict_get rowdict key with
  | Some v => v
  | None => VStr ""
  end.

(** [DictWriter._dict_to_list] *)
Definition dict_to_list (fieldnames : list string) (rowdict : pydict)
  : exc row :=
  match wrong_fields fieldnames rowdict with
  | [] => Return (map (cell rowdict) fieldnames)
  | wrong => Raise (ValueError wrong)
  end.

(** [writerows]: the rows are converted and written one after the other,
    so the rows before an offending record are already in the file when
    the exception leaves the call. *)
Fixpoint writerows (fieldnames : list string) (written : list row)
    (rowdicts : list pydict) : list row * option exn :=
  match rowdicts with
  | [] => (written, None)
  | r :: rest =>
      match dict_to_list fieldnames r with
      | Return cells => writerows fieldnames (written ++ [cells]) rest
      | Raise e => (written, Some e)
      end
  end.

(** The [if results:] block of [main] up to the end of the [with]:
    [None] when there is nothing to write, else the file and the
    exception that aborted the writing, if any. *)
Definition write_results (results : list pydict)
  : option (file * option exn) :=
  match results with
  | [] => None
  | first :: _ =>
      let fieldnames := keys first in
      let (written, e) := writerows fieldnames [] results in
      Some ({| header := fieldnames; rows := written |}, e)
  end.

End Csv.

(* ================================================================== *)
(** * Corpus Walker: the loops of [main] *)

Module Walker.

Inductive sort_key : Type :=
| KInt (n : Z)
| KStr (s : string).

(** [problem_sort_key] *)
Definition problem_sort_key (path : string) : sort_key :=
  let filename := PosixPath.basename path in
  match Re.findall Re.digits_re filename with
  | n :: _ => KInt (PyStr.int n)
  | [] => KStr filename
  end.

(** [a < b] on keys: an [int] and a [str] do not compare. *)
Definition key_lt (a b : sort_key) : exc bool :=
  match a, b with
  | KInt x, KInt y => Return (x <? y)%Z
  | KStr x, KStr y => Return (PyStr.ltb x y)
  | _, _ => Raise TypeError
  end.

(** [list.sort(key=...)] is stable and compares keys with [<] only.  It
    is rendered as an insertion sort: an element goes in front of the
    first one it is smaller than.  An exception of a comparison leaves
    the sort. *)
Fixpoint insert_by (x : sort_key * string)
    (sorted : list (sort_key * string))
  : exc (list (sort_key * string)) :=
  match sorted with
  | [] => Return [x]
  | y :: ys =>
      lt <- key_lt (fst x) (fst y) ;;
      if lt : bool then Return (x :: y :: ys)
      else (r <- insert_by x ys ;; Return (y :: r))
  end.

Fixpoint sort_from (sorted : list (sort_key * string))
    (todo : list (sort_key * string))
  : exc (list (sort_key * string)) :=
  match todo with
  | [] => Return sorted
  | x :: rest => s <- insert_by x sorted ;; sort_from s rest
  end.

Definition sort_problem_files (problem_files : list string)
  : exc (list string) :=
  s <- sort_from [] (map (fun p => (problem_sort_key p, p)) problem_files) ;;
  Return (map snd s).

(** [l[:n]] for an [int] [n] of either sign. *)
Definition slice_to (A : Type) (n : Z) (l : list A) : list A :=
  if (0 <=? n)%Z then firstn (Z.to_nat n) l
  else firstn (List.length l - Z.to_nat (- n)) l.

(** The command line. *)
Record config : Type := {
  benchmark_dir : string;
  domains : list string;       (* [[]] stands for the default [None] *)
  searches : list string;
  heuristics : list string;
  timeout : Z;
  max_problems : Z;
  test_invalid : bool;
  debug : bool
}.

(** The lines [main] prints, with the values they show. *)
Inductive event : Type :=
| EvNotADirectory (benchmark_dir : string)
| EvProcessing (domain_name : string)
| EvNoProblems (domain_dir : string)
| EvNoDomainFile (problem : string)
| EvRequiresDomain (domain_name : option string)
| EvBenchmarking (domain_name : option string)
| EvProblem (problem : string)
| EvDomainFile (domain_file : string)
| EvStatedDomain (stated_domain : string)
| EvRunning (search heuristic : string)
| EvResult (stats : pydict).

(** The variables of [main] that live across iterations, the console,
    and the number of planner invocations made so far. *)
Record state : Type := {
  results : list pydict;
  domain_name : option string;
  console : list event;
  calls : nat
}.

Definition init : state :=
  {| results := []; domain_name := None; console := []; calls := 0 |}.

Definition print (st : state) (evs : list event) : state :=
  {| results := results st; domain_name := domain_name st;
     console := console st ++ evs; calls := calls st |}.

Definition set_domain_name (st : state) (n : option string) : state :=
  {| results := results st; domain_name := n;
     console := console st; calls := calls st |}.

Section Walk.

Variable fs : FileSystem.
(** The planner at its [n]-th invocation. *)
Variable planner : nat -> Exec.
Variable args : config.

(** The body of [for heuristic in args.heuristics]. *)
Definition run_combination (domain_file problem_file search : string)
    (st : state) (heuristic : string) : state :=
  if negb (test_invalid args)
     && (String.eqb heuristic "blind" && negb (String.eqb search "astar"))
  then st
  else
    let st := print st [EvRunning search heuristic] in
    let stats :=
      run_benchmark (planner (calls st)) domain_file problem_file
                    (Some search) (Some heuristic) (timeout args) in
    {| results := results st ++ [stats];
       domain_name := domain_name st;
       console := console st ++ [EvResult stats];
       calls := S (calls st) |}.

(** [for search in args.searches: for heuristic in args.heuristics] *)
Definition run_combinations (domain_file problem_file : string)
    (st : state) : state :=
  fold_left
    (fun st search =>
       fold_left (run_combination domain_file problem_file search)
                 (heuristics args) st)
    (searches args) st.

(** The [if args.debug:] block; its [open] has no [try] around it. *)
Definition debug_block (problem_file : string) (st : state) : exc state :=
  if debug args then
    match fs_read fs problem_file with
    | None => Raise (ReadError problem_file)
    | Some content =>
        match Re.search Re.domain_re content with
        | Some g => Return (print st [EvStatedDomain (PyStr.strip g)])
        | None => Return st
        end
    end
  else Return st.

(** The body of [for problem_file in problem_files].  In the branch
    for an unresolved problem the condition of the inner [if] reads
    [problem_dir], a name that [main] never binds: once the left
    operand of [and] holds, evaluating the right one raises
    [NameError], so the statements under that [if] are never run. *)
Definition process_problem (st : state) (problem_file : string)
  : exc state :=
  let domain_file := find_domain_file_for_problem fs problem_file in
  if negb (truthy_opt domain_file) then
    let st := set_domain_name st
                (read_domain_name_from_file fs problem_file) in
    if opt_eqb (domain_name st) "blocksworld"
    then Raise (NameError "problem_dir")
    else
      let st := print st [EvNoDomainFile (PosixPath.basename problem_file)] in
      let st := set_domain_name st
                  (read_domain_name_from_file fs problem_file) in
      Return (print st [EvRequiresDomain (domain_name st)])
  else
    let domain_file :=
      match domain_file with Some f => f | None => EmptyString end in
    let st := print st [EvBenchmarking (domain_name st);
                        EvProblem (PosixPath.basename problem_file);
                        EvDomainFile (PosixPath.basename domain_file)] in
    st <- debug_block problem_file st ;;
    Return (run_combinations domain_file problem_file st).

Fixpoint process_problems (st : state) (problem_files : list string)
  : exc state :=
  match problem_files with
  | [] => Return st
  | problem_file :: rest =>
      st <- process_problem st problem_file ;;
      process_problems st rest
  end.

(** The body of [for domain_dir in domain_dirs]. *)
Definition process_domain_dir (st : state) (domain_dir : string)
  : exc state :=
  let st := set_domain_name st (Some (PosixPath.basename domain_dir)) in
  let st := print st [EvProcessing (PosixPath.basename domain_dir)] in
  let problem_files := find_problem_files fs domain_dir in
  match problem_files with
  | [] => Return (print st [EvNoProblems domain_dir])
  | _ :: _ =>
      problem_files <- sort_problem_files problem_files ;;
      let problem_files := slice_to (max_problems args) problem_files in
      process_problems st problem_files
  end.

(** [results = []] and the loop over [domain_dirs]. *)
Fixpoint walk_from (st : state) (domain_dirs : list string) : exc state :=
  match domain_dirs with
  | [] => Return st
  | domain_dir :: rest =>
      st <- process_domain_dir st domain_dir ;;
      walk_from st rest
  end.

Definition walk (domain_dirs : list string) : exc state :=
  walk_from init domain_dirs.

(** The walk followed by the writing of the CSV file; the summary that
    is printed once the file is closed is left out. *)
Definition walk_and_write (domain_dirs : list string)
  : exc (state * option Csv.file) :=
  st <- walk domain_dirs ;;
  match Csv.write_results (results st) with
  | None => Return (st, None)
  | Some (f, None) => Return (st, Some f)
  | Some (_, Some e) => Raise e
  end.

(** The choice of [domain_dirs]: the directory itself when it holds a
    [.pddl] file, else its subdirectories that are not hidden, filtered by
    [--domains] when that is given. *)
Definition has_pddl_file (dir : string) : bool :=
  existsb (fun f => fs_isfile fs (PosixPath.join dir f)
                    && PyStr.endswith ".pddl" f)
          (fs_listdir fs dir).

Definition matches_filter (d : string) : bool :=
  existsb (fun domain =>
             PyStr.contains (PyStr.lower domain)
                            (PyStr.lower (PosixPath.basename d)))
          (domains args).

Definition domain_dirs_of (dir : string) : list string :=
  if has_pddl_file dir then [dir]
  else
    let domain_dirs :=
      map (PosixPath.join dir)
          (filter (fun d => fs_isdir fs (PosixPath.join dir d)
                            && negb (PyStr.startswith "." d))
                  (fs_listdir fs dir)) in
    match domains args with
    | [] => domain_dirs
    | _ :: _ => filter matches_filter domain_dirs
    end.

(** [main], from the parsed arguments to the written file. *)
Definition main : exc (state * option Csv.file) :=
  if fs_isdir fs (benchmark_dir args)
  then walk_and_write (domain_dirs_of (benchmark_dir args))
  else Return (print init [EvNotADirectory (benchmark_dir args)], None).

End Walk.

End Walker.


(* ================================================================== *)
(** * Vocabulary of the statements and concrete corpora *)

(** [needle] occurs in [s] as a substring. *)
Definition occurs_in (needle s : string) : Prop :=
  exists pre post : string, s = (pre ++ needle ++ post)%string.




(** Texts of PDDL files. *)
Definition problem_text (name domain : string) : string :=
  ("(define (problem " ++ name ++ ") (:domain " ++ domain
   ++ ") (:objects a b) (:init (clear a)) (:goal (on a b)))")%string.

Definition domain_text (domain : string) : string :=
  ("(define (domain " ++ domain
   ++ ") (:predicates (on ?x ?y)) (:action stack :parameters (?x ?y)))")%string.

(** A problem file that is followed by bytes which do not decode, next
    to a file that cannot be opened. *)
Definition garbled_disk : Disk.t :=
  [ ("/bench", Disk.Dir);
    ("/bench/bw", Disk.Dir);
    ("/bench/bw/domain.pddl", Disk.File (domain_text "bw"));
    ("/bench/bw/pb1.pddl",
     Disk.Garbled
       (problem_text "p1" "bw" ++ PyStr.replicate 2000 ";")%string);
    ("/bench/bw/pb2.pddl", Disk.Unreadable) ].

(** A corpus of two domain directories.  The only file of [bw] is a
    problem that declares [blocksworld]; [gripper] is complete. *)
Definition lone_problem_disk : Disk.t :=
  [ ("/bench", Disk.Dir);
    ("/bench/bw", Disk.Dir);
    ("/bench/bw/pb1.pddl", Disk.File (problem_text "p1" "blocksworld"));
    ("/bench/gripper", Disk.Dir);
    ("/bench/gripper/domain.pddl", Disk.File (domain_text "gripper"));
    ("/bench/gripper/pb1.pddl", Disk.File (problem_text "g1" "gripper")) ].

(** The same corpus with a problem that declares another domain. *)
Definition lone_other_disk : Disk.t :=
  [ ("/bench", Disk.Dir);
    ("/bench/bw", Disk.Dir);
    ("/bench/bw/pb1.pddl", Disk.File (problem_text "p1" "blocks"));
    ("/bench/gripper", Disk.Dir);
    ("/bench/gripper/domain.pddl", Disk.File (domain_text "gripper"));
    ("/bench/gripper/pb1.pddl", Disk.File (problem_text "g1" "gripper")) ].

(** The domain file lies one level up, under the synonym of the declared
    name. *)
Definition parent_synonym_disk : Disk.t :=
  [ ("/bench", Disk.Dir);
    ("/bench/blockworld.pddl", Disk.File (domain_text "blockworld"));
    ("/bench/bw", Disk.Dir);
    ("/bench/bw/pb1.pddl", Disk.File (problem_text "p1" "blocksworld")) ].

(** The domain file lies one level up, under the declared name. *)
Definition parent_declared_disk : Disk.t :=
  [ ("/bench", Disk.Dir);
    ("/bench/blocksworld.pddl", Disk.File (domain_text "blocksworld"));
    ("/bench/bw", Disk.Dir);
    ("/bench/bw/pb1.pddl", Disk.File (problem_text "p1" "blocksworld")) ].

(** The two directions of the synonym pair, domain file next to the
    problem. *)
Definition blockworld_disk : Disk.t :=
  [ ("/bench", Disk.Dir);
    ("/bench/bw", Disk.Dir);
    ("/bench/bw/blockworld.pddl", Disk.File (domain_text "blockworld"));
    ("/bench/bw/pb1.pddl", Disk.File (problem_text "p1" "blocksworld")) ].

Definition blocksworld_disk : Disk.t :=
  [ ("/bench", Disk.Dir);
    ("/bench/bw", Disk.Dir);
    ("/bench/bw/blocksworld.pddl", Disk.File (domain_text "blocksworld"));
    ("/bench/bw/pb1.pddl", Disk.File (problem_text "p1" "blockworld")) ].


(** A problem file named after its directory, and one whose name
    contains the word domain; neither directory has a domain file. *)
Definition self_match_disk : Disk.t :=
  [ ("/bench", Disk.Dir);
    ("/bench/gripper", Disk.Dir);
    ("/bench/gripper/gripper.pddl",
     Disk.File (problem_text "g1" "gripper-strips"));
    ("/bench/rovers", Disk.Dir);
    ("/bench/rovers/subdomain1.pddl",
     Disk.File (problem_text "r1" "rover")) ].

(** Problem files with and without digits in their names. *)
Definition numbered_disk : Disk.t :=
  [ ("/bench", Disk.Dir);
    ("/bench/bw", Disk.Dir);
    ("/bench/bw/domain.pddl", Disk.File (domain_text "bw"));
    ("/bench/bw/pb2.pddl", Disk.File (problem_text "p2" "bw"));
    ("/bench/bw/pb10.pddl", Disk.File (problem_text "p10" "bw"));
    ("/bench/bw/pb1.pddl", Disk.File (problem_text "p1" "bw")) ].

Definition mixed_names_disk : Disk.t :=
  [ ("/bench", Disk.Dir);
    ("/bench/bw", Disk.Dir);
    ("/bench/bw/domain.pddl", Disk.File (domain_text "bw"));
    ("/bench/bw/pb1.pddl", Disk.File (problem_text "p1" "bw"));
    ("/bench/bw/prob.pddl", Disk.File (problem_text "p" "bw")) ].

(** A planner that reaches the goal at once, and a command line. *)
Definition quick_planner : nat -> Exec :=
  fun _ _ _ =>
    {| obs_outcome :=
         Completed "Goal reached. 42 Nodes expanded
Plan length: 7" "";
       obs_start := 10; obs_end := 11; obs_except := 11;
       obs_max_str_digits := 4300; obs_print := None |}.

(** The same planner on a machine whose clock is set back by two seconds
    while the planner runs. *)
Definition clock_set_back_planner : nat -> Exec :=
  fun _ _ _ =>
    {| obs_outcome :=
         Completed "Goal reached. 42 Nodes expanded
Plan length: 7" "";
       obs_start := 10; obs_end := 9; obs_except := 9;
       obs_max_str_digits := 4300; obs_print := None |}.

(** A planner that prints a plan length of 4301 digits, on an interpreter
    with the default limit. *)
Definition long_figure_planner : nat -> Exec :=
  fun _ _ _ =>
    {| obs_outcome :=
         Completed ("Goal reached. 42 Nodes expanded
Plan length: " ++ PyStr.replicate 4301 "1")%string "";
       obs_start := 10; obs_end := 11; obs_except := 12;
       obs_max_str_digits := 4300; obs_print := None |}.

(** A planner whose standard error cannot be printed on the console. *)
Definition unprintable_planner : nat -> Exec :=
  fun _ _ _ =>
    {| obs_outcome :=
         Completed "Goal reached. 42 Nodes expanded
Plan length: 7" "warning";
       obs_start := 10; obs_end := 11; obs_except := 12;
       obs_max_str_digits := 4300;
       obs_print := Some "[Errno 32] Broken pipe" |}.

Definition default_args : Walker.config :=
  {| Walker.benchmark_dir := "/bench";
     Walker.domains := [];
     Walker.searches := ["astar"; "gbf"];
     Walker.heuristics := ["hmax"; "hadd"; "hff"; "blind"];
     Walker.timeout := 5;
     Walker.max_problems := 10;
     Walker.test_invalid := false;
     Walker.debug := false |}.

(** The known spelling variants of a domain name, in both directions. *)
Inductive synonym_pair : string -> string -> Prop :=
| blocksworld_blockworld : synonym_pair "blocksworld" "blockworld"
| blockworld_blocksworld : synonym_pair "blockworld" "blocksworld".

(** A name as a declaration spells it: not empty, without white space and
    without a closing parenthesis. *)
Fixpoint name_chars (s : string) : bool :=
  match s with
  | EmptyString => true
  | String c s' => negb (PyStr.isspace c) && Re.not_rparen c && name_chars s'
  end.

Definition is_name (s : string) : bool := PyStr.truthy s && name_chars s.

Fixpoint all_space (s : string) : bool :=
  match s with
  | EmptyString => true
  | String c s' => PyStr.isspace c && all_space s'
  end.

(** The text has no opening parenthesis followed by a colon. *)
Fixpoint no_keyword (s : string) : bool :=
  match s with
  | String c s' => negb (PyStr.startswith "(:" s) && no_keyword s'
  | EmptyString => true
  end.

(** A record that some invocation of the runner returned. *)
Definition from_runner (r : pydict) : Prop :=
  exists (exec : Exec) (domain_file problem_file : string)
         (search heuristic : option string) (timeout : Z),
    r = run_benchmark exec domain_file problem_file search heuristic timeout.

(** The record has no key outside [fieldnames]. *)
Definition no_extra_field (fieldnames : list string) (r : pydict) : bool :=
  forallb (fun k => Csv.mem k fieldnames) (keys r).

(** The row of a record: one cell per column, the empty string where the
    record lacks the field. *)
Definition row_of (fieldnames : list string) (r : pydict) : Csv.row :=
  map (Csv.cell r) fieldnames.

Fixpoint take_while (A : Type) (f : A -> bool) (l : list A) : list A :=
  match l with
  | x :: l' => if f x then x :: take_while f l' else []
  | [] => []
  end.

Fixpoint drop_while (A : Type) (f : A -> bool) (l : list A) : list A :=
  match l with
  | x :: l' => if f x then drop_while f l' else l
  | [] => []
  end.

(** Records for the sink: a complete one, one that lacks [plan_length]
    and one with a field of its own. *)
Definition full_record : pydict :=
  [ ("domain", VStr "domain"); ("problem", VStr "pb1");
    ("search", VStr "astar"); ("heuristic", VStr "hmax");
    ("success", VBool true); ("runtime", VFloat 1);
    ("expanded_nodes", VInt 42); ("plan_length", VInt 7) ].

Definition short_record : pydict :=
  [ ("domain", VStr "domain"); ("problem", VStr "pb2");
    ("search", VStr "astar"); ("heuristic", VStr "hmax");
    ("success", VBool false); ("runtime", VFloat 5);
    ("expanded_nodes", VStr "timeout") ].

Definition long_record : pydict :=
  [ ("domain", VStr "domain"); ("problem", VStr "pb3");
    ("search", VStr "astar"); ("heuristic", VStr "hmax");
    ("success", VBool true); ("runtime", VFloat 2);
    ("expanded_nodes", VInt 9); ("plan_length", VInt 3);
    ("memory", VInt 512) ].

(** The sort key is a number. *)
Definition key_is_int (k : Walker.sort_key) : bool :=
  match k with Walker.KInt _ => true | Walker.KStr _ => false end.

(** [a] may stand in front of [b]: [b < a] is false. *)
Definition key_le (a b : Walker.sort_key * string) : Prop :=
  Walker.key_lt (fst b) (fst a) = Return false.

Definition with_key (p : string) : Walker.sort_key * string :=
  (Walker.problem_sort_key p, p).

(** All keys of the list are numbers ([b] true) or all are names. *)
Definition kind (b : bool) (l : list (Walker.sort_key * string)) : Prop :=
  Forall (fun p => key_is_int (fst p) = b) l.

(** Every record the walk has collected came from the runner. *)
Definition collected (st : Walker.state) : Prop :=
  Forall from_runner (Walker.results st).

(** The exception is not the schema error of the sink. *)
Definition not_schema_error (e : exn) : Prop :=
  match e with ValueError _ => False | _ => True end.

(** The file that holds the given records under the eight columns. *)
Definition dataset_of (results : list pydict) : option Csv.file :=
  match results with
  | [] => None
  | _ :: _ => Some {| Csv.header := FIELDS;
                      Csv.rows := map (row_of FIELDS) results |}
  end.

(* ================================================================== *)
(** * Vocabulary of the further properties *)

Unset Implicit Arguments.

(** Every character of the text satisfies the test. *)
Fixpoint all_chars (P : ascii -> bool) (s : string) : bool :=
  match s with
  | EmptyString => true
  | String c s' => P c && all_chars P s'
  end.

Definition not_digit (c : ascii) : bool := negb (PyStr.isdigit c).

Definition not_slash (c : ascii) : bool := negb (Ascii.eqb c "/").

Definition not_dot (c : ascii) : bool := negb (Ascii.eqb c ".").

(** The text does not begin with a digit. *)
Definition no_digit_ahead (s : string) : bool :=
  match s with
  | EmptyString => true
  | String c _ => negb (PyStr.isdigit c)
  end.

(** The rest of a pattern contributes nothing to the group. *)
Definition no_capture (r : Re.regex) : Prop :=
  forall (s g : string), Re.match_here r s = Some g -> g = EmptyString.

(** The text does not begin with white space. *)
Definition no_leading_space (s : string) : bool :=
  match s with
  | EmptyString => true
  | String c _ => negb (PyStr.isspace c)
  end.

(** The last character of the text is a digit. *)
Fixpoint ends_with_digit (s : string) : bool :=
  match s with
  | EmptyString => false
  | String c EmptyString => PyStr.isdigit c
  | String _ s' => ends_with_digit s'
  end.

(** A planner that gives up without printing a figure, one that runs
    into the time limit and one that cannot be started. *)
Definition silent_planner : nat -> Exec :=
  fun _ _ _ =>
    {| obs_outcome := Completed "No solution could be found" "";
       obs_start := 10; obs_end := 12; obs_except := 12;
       obs_max_str_digits := 4300; obs_print := None |}.

Definition slow_planner : nat -> Exec :=
  fun _ _ _ =>
    {| obs_outcome := TimeoutExpired;
       obs_start := 10; obs_end := 15; obs_except := 15;
       obs_max_str_digits := 4300; obs_print := None |}.

Definition missing_planner : nat -> Exec :=
  fun _ _ _ =>
    {| obs_outcome := Failed "[Errno 2] No such file or directory: 'python'";
       obs_start := 10; obs_end := 10; obs_except := 10;
       obs_max_str_digits := 4300; obs_print := None |}.

Definition not_P (c : ascii) : bool := negb (Ascii.eqb c "P").

(** A planner whose log lines begin with a time stamp. *)
Definition logging_planner : nat -> Exec :=
  fun _ _ _ =>
    {| obs_outcome :=
         Completed "2024-05-01 10:00:01,123 INFO     Goal reached. Start extraction of solution.
2024-05-01 10:00:01,124 INFO     1042 Nodes expanded
2024-05-01 10:00:01,125 INFO     Plan length: 17
" "";
       obs_start := 10; obs_end := 11; obs_except := 11;
       obs_max_str_digits := 4300; obs_print := None |}.

(** The combination is run: it is not the pair of [blind] with a search
    other than [astar], unless [--test-invalid] is given. *)
Definition valid_combination (args : Walker.config)
    (search heuristic : string) : bool :=
  Walker.test_invalid args
  || negb (String.eqb heuristic "blind" && negb (String.eqb search "astar")).

(** The combinations that are run, in the order of the two loops. *)
Definition combinations (args : Walker.config) : list (string * string) :=
  filter (fun p => valid_combination args (fst p) (snd p))
         (list_prod (Walker.searches args) (Walker.heuristics args)).

Definition labels_of (r : pydict) : option pyval * option pyval :=
  (dict_get r "search", dict_get r "heuristic").

Definition label_pair (p : string * string) : option pyval * option pyval :=
  (Some (VStr (or_default (Some (fst p)) "breadth_first_search")),
   Some (VStr (or_default (Some (snd p)) "None"))).

(** The body of the two loops on a pair. *)
Definition run_pair (planner : nat -> Exec) (args : Walker.config)
    (domain_file problem_file : string) (st : Walker.state)
    (p : string * string) : Walker.state :=
  Walker.run_combination planner args domain_file problem_file
                         (fst p) st (snd p).

(** A record of a valid combination on the given pair of files. *)
Definition ran_with (planner : nat -> Exec) (args : Walker.config)
    (domain_file problem_file : string) (r : pydict) : Prop :=
  exists (n : nat) (search heuristic : string),
    valid_combination args search heuristic = true
    /\ r = run_benchmark (planner n) domain_file problem_file
                         (Some search) (Some heuristic)
                         (Walker.timeout args).

(** The two lines printed for an unresolved problem. *)
Definition diagnostic (fs : FileSystem) (problem_file : string)
  : list Walker.event :=
  [ Walker.EvNoDomainFile (PosixPath.basename problem_file);
    Walker.EvRequiresDomain (read_domain_name_from_file fs problem_file) ].

(** [heuristic] is [blind] only together with the search [astar]. *)
Definition blind_with_astar (r : pydict) : Prop :=
  dict_get r "heuristic" = Some (VStr "blind") ->
  dict_get r "search" = Some (VStr "astar").

(** A record of a valid combination on some pair of files. *)
Definition ran (planner : nat -> Exec) (args : Walker.config)
    (r : pydict) : Prop :=
  exists domain_file problem_file,
    ran_with planner args domain_file problem_file r.


Definition debug_args : Walker.config :=
  {| Walker.benchmark_dir := "/bench";
     Walker.domains := [];
     Walker.searches := ["astar"; "gbf"];
     Walker.heuristics := ["hmax"; "hadd"; "hff"; "blind"];
     Walker.timeout := 5;
     Walker.max_problems := 10;
     Walker.test_invalid := false;
     Walker.debug := true |}.

(** The file has the number [n] as its sort key. *)
Definition has_number (n : Z) (p : string) : bool :=
  match Walker.problem_sort_key p with
  | Walker.KInt m => (m =? n)%Z
  | Walker.KStr _ => false
  end.

Definition key_has_number (n : Z) (q : Walker.sort_key * string) : bool :=
  match fst q with
  | Walker.KInt m => (m =? n)%Z
  | Walker.KStr _ => false
  end.

(** A corpus with a hidden directory, a plain file and two domain
    directories under its root, and the command line that selects one of
    the two by a name in capitals. *)
Definition tree_disk : Disk.t :=
  [ ("/bench", Disk.Dir);
    ("/bench/.git", Disk.Dir);
    ("/bench/README", Disk.File "benchmarks");
    ("/bench/Gripper", Disk.Dir);
    ("/bench/Gripper/domain.pddl", Disk.File (domain_text "gripper"));
    ("/bench/Gripper/pb1.pddl", Disk.File (problem_text "g1" "gripper"));
    ("/bench/bw", Disk.Dir);
    ("/bench/bw/domain.pddl", Disk.File (domain_text "bw"));
    ("/bench/bw/pb1.pddl", Disk.File (problem_text "p1" "bw")) ].

Definition filtered_args : Walker.config :=
  {| Walker.benchmark_dir := "/bench";
     Walker.domains := ["GRIP"];
     Walker.searches := ["astar"];
     Walker.heuristics := ["hmax"];
     Walker.timeout := 5;
     Walker.max_problems := 10;
     Walker.test_invalid := false;
     Walker.debug := false |}.

(* ------------------------------------------------------------------ *)
(** The summary that [main] prints once the file is written, on records
    of the shape the runner gives them.  Sums and quotients of floats are
    taken exactly, as rationals; the quotient of two [int]s raises
    [OverflowError] where Python has no [float] for it; the layout of the
    printed line is left out. *)

Module Summary.

(** The fields of a record that the summary reads. *)
Record run : Type := {
  search : string;
  heuristic : string;
  success : bool;
  runtime : Q;
  plan_length : Z + string       (* an [int], or a sentinel text *)
}.

(** The record seen as a [run]; [None] when a field is missing or is not
    of the runner's type. *)
Definition view (r : pydict) : option run :=
  match dict_get r "search", dict_get r "heuristic", dict_get r "success",
        dict_get r "runtime", dict_get r "plan_length" with
  | Some (VStr s), Some (VStr h), Some (VBool b), Some (VFloat q),
    Some (VInt n) =>
      Some {| search := s; heuristic := h; success := b; runtime := q;
              plan_length := inl n |}
  | Some (VStr s), Some (VStr h), Some (VBool b), Some (VFloat q),
    Some (VStr t) =>
      Some {| search := s; heuristic := h; success := b; runtime := q;
              plan_length := inr t |}
  | _, _, _, _, _ => None
  end.

Fixpoint views (results : list pydict) : option (list run) :=
  match results with
  | [] => Some []
  | r :: rest =>
      match view r, views rest with
      | Some v, Some vs => Some (v :: vs)
      | _, _ => None
      end
  end.

(** [key = (r["search"], r["heuristic"])] *)
Definition key (r : run) : string * string := (search r, heuristic r).

Definition key_eqb (a b : string * string) : bool :=
  String.eqb (fst a) (fst b) && String.eqb (snd a) (snd b).

(** [by_search_heuristic[key].append(r)] on a dictionary that keeps the
    order in which its keys came. *)
Fixpoint append_to (k : string * string) (r : run)
    (groups : list ((string * string) * list run))
  : list ((string * string) * list run) :=
  match groups with
  | [] => [(k, [r])]
  | (k', runs) :: rest =>
      if key_eqb k' k then (k', runs ++ [r]) :: rest
      else (k', runs) :: append_to k r rest
  end.

Definition by_search_heuristic (results : list run)
  : list ((string * string) * list run) :=
  fold_left (fun groups r => append_to (key r) r groups) results [].

(** One printed line: [None] stands for [inf] in the runtime and for
    ['N/A'] in the plan length. *)
Record line : Type := {
  l_search : string;
  l_heuristic : string;
  l_success_rate : Q;
  l_avg_runtime : option Q;
  l_avg_plan_length : option Q
}.

Definition of_nat (n : nat) : Q := inject_Z (Z.of_nat n).

(** [sum(...)] *)
Definition sumQ (l : list Q) : Q := fold_left Qplus l 0.

Definition sumZ (l : list Z) : Z := fold_left Z.add l 0%Z.

Definition int_lengths (runs : list run) : list Z :=
  flat_map (fun r => match plan_length r with
                     | inl n => [n]
                     | inr _ => []
                     end) runs.

(** The least magnitude of a quotient of two [int]s that rounds to no
    [float]: [a / b] raises [OverflowError] from there on. *)
Definition float_limit : Z := (2 ^ 1024 - 2 ^ 970)%Z.

Definition overflows (q : Q) : bool :=
  Qle_bool (inject_Z float_limit) q || Qle_bool q (inject_Z (- float_limit)).

(** The body of the loop over the groups, up to its [print]; [None]
    when [sum(plan_lengths) / len(plan_lengths)] raises
    [OverflowError]. *)
Definition line_of (g : (string * string) * list run) : option line :=
  let runs := snd g in
  let success_rate :=
    match runs with
    | [] => 0
    | _ :: _ => of_nat (List.length (filter success runs))
                / of_nat (List.length runs)
    end in
  let successful := filter success runs in
  let avg_runtime :=
    match successful with
    | [] => None
    | _ :: _ => Some (sumQ (map runtime successful)
                      / of_nat (List.length successful))
    end in
  let plan_lengths := int_lengths successful in
  match
    match plan_lengths with
    | [] => Some None
    | _ :: _ =>
        let quotient := inject_Z (sumZ plan_lengths)
                        / of_nat (List.length plan_lengths) in
        if overflows quotient then None else Some (Some quotient)
    end
  with
  | None => None
  | Some avg_plan_length =>
      Some {| l_search := fst (fst g); l_heuristic := snd (fst g);
              l_success_rate := success_rate;
              l_avg_runtime := avg_runtime;
              l_avg_plan_length := avg_plan_length |}
  end.

(** The loop over the groups: the lines it prints, and whether it is
    left by [OverflowError]. *)
Fixpoint print_lines (groups : list ((string * string) * list run))
  : list line * bool :=
  match groups with
  | [] => ([], false)
  | g :: rest =>
      match line_of g with
      | None => ([], true)
      | Some l => let (ls, raised) := print_lines rest in (l :: ls, raised)
      end
  end.

Definition summary (results : list run) : list line * bool :=
  print_lines (by_search_heuristic results).

(** The keys of a list in the order of their first occurrence. *)
Fixpoint firsts (l : list (string * string)) : list (string * string) :=
  match l with
  | [] => []
  | k :: l' => k :: filter (fun k' => negb (key_eqb k k')) (firsts l')
  end.

Definition has_key (k : string * string) (r : run) : bool :=
  key_eqb (key r) k.

Definition key_in (k : string * string) (l : list (string * string)) : bool :=
  existsb (key_eqb k) l.

(** The group of a key: the key and its records, in their order. *)
Definition group_of (results : list run) (k : string * string)
  : (string * string) * list run :=
  (k, filter (has_key k) results).

(** A successful run has an [int] as its plan length. *)
Definition success_has_length (r : run) : Prop :=
  success r = true -> exists n, plan_length r = inl n.

(** A plan length that is an [int] lies within the range of [float]. *)
Definition length_in_float_range (r : run) : Prop :=
  forall n, plan_length r = inl n -> (- float_limit < n < float_limit)%Z.

End Summary.

(** What holds of every line of the summary. *)
Definition line_is_sound (l : Summary.line) : Prop :=
  (0 <= Summary.l_success_rate l /\ Summary.l_success_rate l <= 1)
  /\ (Summary.l_avg_runtime l = None <-> Summary.l_success_rate l == 0)
  /\ (Summary.l_avg_plan_length l = None <-> Summary.l_avg_runtime l = None).

(* ------------------------------------------------------------------ *)
(** [benchmark-visualizer.py]: the colours of [plot_runtime_by_domain].
    A combination is the text [search + '_' + heuristic]. *)

Module Visualizer.

(** The body of [for combo in unique_combos]: the value stored in
    [colors[combo]]. *)
Definition colour_of (combo : string) : string :=
  if PyStr.startswith "astar" combo then
    if PyStr.contains "hmax" combo then "#E63946"
    else if PyStr.contains "hadd" combo then "#F4A582"
    else if PyStr.contains "hff" combo then "#D6604D"
    else "#B2182B"
  else
    if PyStr.contains "hmax" combo then "#1D7A8C"
    else if PyStr.contains "hadd" combo then "#4393C3"
    else if PyStr.contains "hff" combo then "#2166AC"
    else "#053061".

(** The dictionary [colors] after the loop, for combinations that are
    distinct. *)
Definition colours (unique_combos : list string) : list (string * string) :=
  map (fun combo => (combo, colour_of combo)) unique_combos.

Definition red_tones : list string :=
  ["#E63946"; "#F4A582"; "#D6604D"; "#B2182B"].

Definition blue_tones : list string :=
  ["#1D7A8C"; "#4393C3"; "#2166AC"; "#053061"].

End Visualizer.


Set Implicit Arguments.

(* ================================================================== *)
(** * Facts about strings *)

Unset Implicit Arguments.

Lemma startswith_iff (p s : string) :
  PyStr.startswith p s = true <-> exists post, s = (p ++ post)%string.
Proof.
  revert s; induction p as [|a p IH]; intros s; simpl.
  - split; [intros _; now exists s | reflexivity].
  - destruct s as [|b s]; simpl.
    + split; [discriminate | intros [post H]; discriminate].
    + rewrite andb_true_iff, Ascii.eqb_eq, IH. split.
      * intros [-> [post ->]]. now exists post.
      * intros [post H]. injection H as -> ->.
        split; [reflexivity | now exists post].
Qed.

Lemma contains_iff (needle s : string) :
  PyStr.contains needle s = true <-> occurs_in needle s.
Proof.
  unfold occurs_in.
  induction s as [|c s IH]; simpl; rewrite orb_true_iff, startswith_iff.
  - split.
    + intros [[post H] | H]; [|discriminate].
      exists EmptyString, post. exact H.
    + intros [[|a pre] [post H]]; [left; now exists post | discriminate].
  - rewrite IH. split.
    + intros [[post H] | [pre [post H]]].
      * exists EmptyString, post. exact H.
      * exists (String c pre), post. simpl. now rewrite H.
    + intros [[|a pre] [post H]].
      * left. now exists post.
      * right. simpl in H. injection H as _ H. now exists pre, post.
Qed.

Lemma take_prefix (n : nat) (s : string) :
  exists rest, s = (PyStr.take n s ++ rest)%string.
Proof.
  revert s; induction n as [|n IH]; intros s.
  - exists s. reflexivity.
  - destruct s as [|c s]; simpl.
    + now exists EmptyString.
    + destruct (IH s) as [rest H]. exists rest. now rewrite <- H.
Qed.


Lemma replicate_length (n : nat) (c : ascii) :
  String.length (PyStr.replicate n c) = n.
Proof. induction n; simpl; auto. Qed.

(** The library functions on sample inputs. *)
Example posixpath_samples :
  PosixPath.dirname "/bench/bw/pb1.pddl" = "/bench/bw"
  /\ PosixPath.dirname "/pb1.pddl" = "/"
  /\ PosixPath.dirname "pb1.pddl" = ""
  /\ PosixPath.dirname "a//b" = "a"
  /\ PosixPath.basename "/bench/bw/pb1.pddl" = "pb1.pddl"
  /\ PosixPath.basename "/bench/bw/" = ""
  /\ PosixPath.join "/bench/bw" "x.pddl" = "/bench/bw/x.pddl"
  /\ PosixPath.join "/bench/" "x.pddl" = "/bench/x.pddl"
  /\ PosixPath.join "" "x.pddl" = "x.pddl"
  /\ PosixPath.join "/bench" "/x.pddl" = "/x.pddl".
Proof. repeat split; reflexivity. Qed.

Example str_samples :
  PyStr.strip "  ab c
" = "ab c"
  /\ PyStr.remove_all ".pddl" "a.pddl.pd.pddldl.pddl" = "a.pddl"
  /\ PyStr.int "0042" = 42%Z
  /\ PyStr.ltb "pb10" "pb2" = true
  /\ PyStr.lower "Blocks-WORLD" = "blocks-world"
  /\ PyStr.endswith ".pddl" "a.pddl" = true
  /\ PyStr.endswith ".pddl" "a.pddlx" = false.
Proof. repeat split; reflexivity. Qed.

Example re_samples :
  Re.search Re.domain_re "(define (problem p) (:domain  blocks world ))"
  = Some "blocks world "
  /\ Re.search Re.domain_re "(:domain )(:domain  )" = Some " "
  /\ Re.search Re.domain_re "(:domain x" = None
  /\ Re.search Re.nodes_re "a 12 Nodes 1234 Nodes expanded" = Some "1234"
  /\ Re.search Re.length_re "Plan length: x Plan length: 77a" = Some "77"
  /\ Re.findall Re.digits_re "pb10-3.pddl" = ["10"; "3"]
  /\ Re.findall Re.digits_re "prob.pddl" = [].
Proof. repeat split; reflexivity. Qed.

Example glob_samples :
  fs_glob (Disk.fs numbered_disk) "/bench/bw/*.pddl"
  = ["/bench/bw/domain.pddl"; "/bench/bw/pb2.pddl"; "/bench/bw/pb10.pddl";
     "/bench/bw/pb1.pddl"]
  /\ fs_glob (Disk.fs numbered_disk) "/bench/bw/*domain*.pddl"
     = ["/bench/bw/domain.pddl"]
  /\ fs_glob (Disk.fs numbered_disk) "/bench/bw/*.domain.pddl" = []
  /\ fs_glob (Disk.fs numbered_disk) "/bench/bw/bw.pddl" = []
  /\ fs_glob (Disk.fs numbered_disk) "/bench/*.pddl" = [].
Proof. repeat split; reflexivity. Qed.

(* ================================================================== *)
(** * Facts about the matcher *)

Module ReFacts.
Import Re.

Lemma match_lit (c d : ascii) (r : regex) (s : string) :
  match_here (Lit c :: r) (String d s)
  = if Ascii.eqb c d then match_here r s else None.
Proof. reflexivity. Qed.

Lemma match_plus (cls : ascii -> bool) (r : regex) (d : ascii) (s : string) :
  match_here (Plus cls :: r) (String d s)
  = if cls d then
      match match_here (Plus cls :: r) s with
      | Some g => Some g
      | None => match_here r s
      end
    else None.
Proof. reflexivity. Qed.

Lemma match_group (cls : ascii -> bool) (r : regex) (d : ascii) (s : string) :
  match_here (Group cls :: r) (String d s)
  = if cls d then
      match match_here (Group cls :: r) s with
      | Some g => Some (String d g)
      | None =>
          match match_here r s with
          | Some g => Some (String d g)
          | None => None
          end
      end
    else None.
Proof. reflexivity. Qed.

Lemma match_lits_prefix (p : string) (r : regex) (s : string) :
  match_here (lits p ++ r) (p ++ s) = match_here r s.
Proof.
  induction p as [|c p IH]; simpl; [reflexivity|].
  now rewrite Ascii.eqb_refl.
Qed.

(** A greedy [\s+] in front of a text that does not begin with white
    space takes the whole run of white space. *)
Lemma plus_takes_run (r : regex) (ws rest g : string) :
  ws <> EmptyString -> all_space ws = true ->
  match_here (Plus PyStr.isspace :: r) rest = None ->
  match_here r rest = Some g ->
  match_here (Plus PyStr.isspace :: r) (ws ++ rest) = Some g.
Proof.
  intros Hne Hws Hstop Hrest.
  induction ws as [|c ws IH]; [contradiction|].
  simpl in Hws. apply andb_true_iff in Hws as [Hc Hws].
  change ((String c ws ++ rest)%string) with (String c (ws ++ rest)).
  rewrite match_plus, Hc.
  destruct ws as [|c' ws].
  - change (("" ++ rest)%string) with rest. now rewrite Hstop.
  - rewrite IH; [reflexivity | discriminate | exact Hws].
Qed.

(** The group [[^)]+] in front of the closing parenthesis takes a name
    whole. *)
Lemma group_takes_name (X post : string) :
  X <> EmptyString -> name_chars X = true ->
  match_here [Group not_rparen; Lit ")"] (X ++ ")" ++ post) = Some X.
Proof.
  intros Hne Hname. induction X as [|c X IH]; [contradiction|].
  simpl in Hname. apply andb_true_iff in Hname as [Hc Hname].
  apply andb_true_iff in Hc as [_ Hc].
  change ((String c X ++ ")" ++ post)%string)
    with (String c (X ++ ")" ++ post)).
  rewrite match_group, Hc.
  destruct X as [|c' X].
  - reflexivity.
  - rewrite IH; [reflexivity | discriminate | exact Hname].
Qed.

Lemma plus_stops_at_name (r : regex) (X rest : string) :
  X <> EmptyString -> name_chars X = true ->
  match_here (Plus PyStr.isspace :: r) (X ++ rest) = None.
Proof.
  intros Hne Hname. destruct X as [|c X]; [contradiction|].
  simpl in Hname. apply andb_true_iff in Hname as [Hc _].
  apply andb_true_iff in Hc as [Hc _]. apply negb_true_iff in Hc.
  change ((String c X ++ rest)%string) with (String c (X ++ rest)).
  now rewrite match_plus, Hc.
Qed.

(** The pattern matches a declaration where it starts, and the group is
    the declared name. *)
Lemma match_declaration (ws X post : string) :
  ws <> EmptyString -> all_space ws = true -> is_name X = true ->
  match_here domain_re ("(:domain" ++ ws ++ X ++ ")" ++ post) = Some X.
Proof.
  intros Hne Hws HX. unfold is_name in HX.
  apply andb_true_iff in HX as [HX Hname].
  assert (HXne : X <> EmptyString) by (destruct X; discriminate).
  unfold domain_re. rewrite match_lits_prefix.
  apply plus_takes_run; auto.
  - now apply plus_stops_at_name.
  - now apply group_takes_name.
Qed.

(** No match starts inside a text without ["(:"], so the search reaches
    what follows it. *)
Lemma search_skips (pre decl : string) :
  no_keyword pre = true ->
  PyStr.startswith "(" decl = true ->
  search domain_re (pre ++ decl) = search domain_re decl.
Proof.
  intros Hpre Hdecl. induction pre as [|c pre IH]; [reflexivity|].
  cbn [no_keyword] in Hpre. apply andb_true_iff in Hpre as [Hc Hpre].
  apply negb_true_iff in Hc.
  change ((String c pre ++ decl)%string) with (String c (pre ++ decl)).
  cbn [search].
  assert (Hnone : match_here domain_re (String c (pre ++ decl)) = None).
  { unfold domain_re. cbn [lits app]. rewrite match_lit.
    destruct (Ascii.eqb "(" c) eqn:E; [|reflexivity].
    apply Ascii.eqb_eq in E. subst c.
    destruct pre as [|c2 pre].
    - destruct decl as [|d decl]; [discriminate|].
      cbn [PyStr.startswith] in Hdecl. rewrite andb_true_r in Hdecl.
      apply Ascii.eqb_eq in Hdecl. subst d. reflexivity.
    - change ((String c2 pre ++ decl)%string) with (String c2 (pre ++ decl)).
      rewrite match_lit. cbn [PyStr.startswith] in Hc.
      rewrite Ascii.eqb_refl, andb_true_r in Hc. cbn [andb] in Hc.
      now rewrite Hc. }
  rewrite Hnone. now apply IH.
Qed.

Lemma rstrip_name (X : string) :
  name_chars X = true -> PyStr.rstrip X = X.
Proof.
  induction X as [|c X IH]; [reflexivity|].
  simpl. intros H. apply andb_true_iff in H as [Hc H].
  apply andb_true_iff in Hc as [Hc _]. apply negb_true_iff in Hc.
  rewrite (IH H). destruct X; [now rewrite Hc | reflexivity].
Qed.

Lemma strip_name (X : string) :
  name_chars X = true -> PyStr.strip X = X.
Proof.
  intros H. unfold PyStr.strip.
  assert (HL : PyStr.lstrip X = X).
  { destruct X as [|c X]; [reflexivity|]. simpl in *.
    apply andb_true_iff in H as [Hc _].
    apply andb_true_iff in Hc as [Hc _]. apply negb_true_iff in Hc.
    now rewrite Hc. }
  rewrite HL. now apply rstrip_name.
Qed.

End ReFacts.

(** A problem file whose text reaches its domain declaration without
    another keyword in front of it declares the name written there. *)
Lemma declaration_is_read (fs : FileSystem)
    (problem_file pre ws X post : string) :
  fs_read fs problem_file
  = Some (pre ++ "(:domain" ++ ws ++ X ++ ")" ++ post)%string ->
  no_keyword pre = true ->
  ws <> EmptyString -> all_space ws = true -> is_name X = true ->
  read_domain_name_from_file fs problem_file = Some X.
Proof.
  intros Hread Hpre Hne Hws HX. unfold read_domain_name_from_file.
  rewrite Hread, ReFacts.search_skips by (auto; reflexivity).
  assert (Hm := ReFacts.match_declaration ws X post Hne Hws HX).
  assert (Hs : Re.search Re.domain_re ("(:domain" ++ ws ++ X ++ ")" ++ post)
               = Some X).
  { destruct (("(:domain" ++ ws ++ X ++ ")" ++ post)%string) eqn:E;
      cbn [Re.search]; now rewrite Hm. }
  rewrite Hs. f_equal. apply ReFacts.strip_name.
  unfold is_name in HX. now apply andb_true_iff in HX as [_ HX].
Qed.

(* ================================================================== *)
(** * File Classifier *)




(* ================================================================== *)
(** * Domain Resolver *)

Section ResolverFacts.

Variable fs : FileSystem.



(** The structural scan is the one fallback that leaves the problem file
    out. *)
Lemma scan_for_domain_not_self (problem_file : string) (l : list string)
    (q : string) :
  scan_for_domain fs problem_file l = Some q -> q <> problem_file.
Proof.
  induction l as [|pddl l IH]; simpl; [discriminate|].
  destruct (String.eqb pddl problem_file) eqn:E; simpl.
  - exact IH.
  - destruct (fs_isfile fs pddl && looks_like_domain fs pddl); [|exact IH].
    intros H. injection H as <-. now apply String.eqb_neq.
Qed.

(** What the resolver does once every strategy of the problem's own
    directory has failed: it runs the conventional patterns, and nothing
    else, in the parent directory. *)
Lemma parent_retry_is_patterns_only (problem_file : string) :
  let problem_dir := PosixPath.dirname problem_file in
  let domain_name := read_domain_name_from_file fs problem_file in
  first_existing fs problem_dir (variants_of domain_name) = None ->
  first_glob fs problem_dir (patterns_of domain_name problem_dir) = None ->
  scan_for_domain fs problem_file
    (fs_glob fs (PosixPath.join problem_dir "*.pddl")) = None ->
  find_domain_file_for_problem fs problem_file
  = first_glob fs (PosixPath.dirname problem_dir)
               (patterns_of domain_name problem_dir).
Proof.
  intros problem_dir domain_name H1 H2 H3.
  unfold find_domain_file_for_problem.
  fold problem_dir. fold domain_name. now rewrite H1, H2, H3.
Qed.

End ResolverFacts.



(** C5.  For either direction of the synonym pair: when the problem
    declares [A], [A.pddl] is not in the directory of the problem file
    and [B.pddl] is, the resolver returns the path of [B.pddl]. *)
Theorem C5_synonyms_resolve_both_ways (fs : FileSystem)
    (problem_file A B : string) :
  synonym_pair A B ->
  read_domain_name_from_file fs problem_file = Some A ->
  fs_exists fs (PosixPath.join (PosixPath.dirname problem_file)
                               (A ++ ".pddl")) = false ->
  fs_exists fs (PosixPath.join (PosixPath.dirname problem_file)
                               (B ++ ".pddl")) = true ->
  find_domain_file_for_problem fs problem_file
  = Some (PosixPath.join (PosixPath.dirname problem_file) (B ++ ".pddl")).
Proof.
  intros Hpair Hread HA HB. unfold find_domain_file_for_problem.
  rewrite Hread.
  destruct Hpair; unfold variants_of; simpl; simpl in HA, HB;
    now rewrite HA, HB.
Qed.

Lemma C5_synonyms_resolve_both_ways_witness :
  (read_domain_name_from_file (Disk.fs blockworld_disk) "/bench/bw/pb1.pddl"
   = Some "blocksworld"
   /\ fs_exists (Disk.fs blockworld_disk) "/bench/bw/blocksworld.pddl" = false
   /\ fs_exists (Disk.fs blockworld_disk) "/bench/bw/blockworld.pddl" = true
   /\ find_domain_file_for_problem (Disk.fs blockworld_disk)
        "/bench/bw/pb1.pddl" = Some "/bench/bw/blockworld.pddl")
  /\ (read_domain_name_from_file (Disk.fs blocksworld_disk)
        "/bench/bw/pb1.pddl" = Some "blockworld"
      /\ fs_exists (Disk.fs blocksworld_disk) "/bench/bw/blockworld.pddl"
         = false
      /\ fs_exists (Disk.fs blocksworld_disk) "/bench/bw/blocksworld.pddl"
         = true
      /\ find_domain_file_for_problem (Disk.fs blocksworld_disk)
           "/bench/bw/pb1.pddl" = Some "/bench/bw/blocksworld.pddl").
Proof.
  split.
  - split; [reflexivity|]. split; [reflexivity|]. split; [reflexivity|].
    apply (C5_synonyms_resolve_both_ways (Disk.fs blockworld_disk)
             "/bench/bw/pb1.pddl" "blocksworld" "blockworld"
             blocksworld_blockworld); reflexivity.
  - split; [reflexivity|]. split; [reflexivity|]. split; [reflexivity|].
    apply (C5_synonyms_resolve_both_ways (Disk.fs blocksworld_disk)
             "/bench/bw/pb1.pddl" "blockworld" "blocksworld"
             blockworld_blocksworld); reflexivity.
Defined.

(** C7.  The problem [/bench/bw/pb1.pddl] declares [blocksworld]; its
    directory holds nothing else and [/bench/blockworld.pddl] lies one
    level up.  The resolver returns [None]: the retry in the parent
    directory runs the conventional patterns, which hold the declared
    name but not its synonym.  With the synonym-named file next to the
    problem, or the declared name one level up, it resolves. *)
Theorem C7_parent_retry_misses_synonym :
  find_domain_file_for_problem (Disk.fs parent_synonym_disk)
    "/bench/bw/pb1.pddl" = None
  /\ read_domain_name_from_file (Disk.fs parent_synonym_disk)
       "/bench/bw/pb1.pddl" = Some "blocksworld"
  /\ fs_exists (Disk.fs parent_synonym_disk) "/bench/blockworld.pddl" = true
  /\ find_domain_file_for_problem (Disk.fs parent_declared_disk)
       "/bench/bw/pb1.pddl" = Some "/bench/blocksworld.pddl"
  /\ find_domain_file_for_problem (Disk.fs blockworld_disk)
       "/bench/bw/pb1.pddl" = Some "/bench/bw/blockworld.pddl".
Proof. repeat split; vm_compute; reflexivity. Qed.

(** C10.  The resolver can return the problem file itself.  A problem
    file named after its directory, and one whose name contains the word
    domain, each in a directory without the declared domain file, are
    returned as their own domain file; of all the fallbacks only the
    structural scan leaves the problem file out. *)
Theorem C10_resolver_can_return_the_problem_itself :
  (exists (fs : FileSystem) (problem_file : string),
      is_problem_file fs problem_file = true
      /\ PosixPath.basename problem_file
         = (PosixPath.basename (PosixPath.dirname problem_file)
            ++ ".pddl")%string
      /\ first_existing fs (PosixPath.dirname problem_file)
           (variants_of (read_domain_name_from_file fs problem_file)) = None
      /\ find_domain_file_for_problem fs problem_file = Some problem_file)
  /\ (exists (fs : FileSystem) (problem_file : string),
      is_problem_file fs problem_file = true
      /\ PyStr.contains "domain" (PosixPath.basename problem_file) = true
      /\ first_existing fs (PosixPath.dirname problem_file)
           (variants_of (read_domain_name_from_file fs problem_file)) = None
      /\ find_domain_file_for_problem fs problem_file = Some problem_file)
  /\ (forall (fs : FileSystem) (problem_file : string) (l : list string)
             (q : string),
      scan_for_domain fs problem_file l = Some q -> q <> problem_file).
Proof.
  split; [|split].
  - exists (Disk.fs self_match_disk), "/bench/gripper/gripper.pddl".
    repeat split; vm_compute; reflexivity.
  - exists (Disk.fs self_match_disk), "/bench/rovers/subdomain1.pddl".
    repeat split; vm_compute; reflexivity.
  - intros fs problem_file l q. apply scan_for_domain_not_self.
Qed.

(* ================================================================== *)
(** * Benchmark Runner *)

(** The record of a call, branch by branch. *)
Lemma run_benchmark_eq (exec : Exec) (domain_file problem_file : string)
    (search heuristic : option string) (timeout : Z) :
  let obs :=
    exec (command_line domain_file problem_file search heuristic) timeout in
  run_benchmark exec domain_file problem_file search heuristic timeout
  = match obs_outcome obs with
    | Completed stdout _ =>
        match raised_after_run obs stdout with
        | None =>
            record_of domain_file problem_file search heuristic
              (PyStr.contains "Goal reached" stdout)
              (obs_end obs - obs_start obs)
              (VInt (figure (Re.search Re.nodes_re stdout)))
              (VInt (figure (Re.search Re.length_re stdout)))
        | Some msg =>
            record_of domain_file problem_file search heuristic false
              (obs_except obs - obs_start obs)
              (VStr ("error: " ++ msg)) (VStr ("error: " ++ msg))
        end
    | TimeoutExpired =>
        record_of domain_file problem_file search heuristic false
          (obs_end obs - obs_start obs) (VStr "timeout") (VStr "timeout")
    | Failed msg =>
        record_of domain_file problem_file search heuristic false
          (obs_end obs - obs_start obs)
          (VStr ("error: " ++ msg)) (VStr ("error: " ++ msg))
    end.
Proof.
  intros obs. unfold run_benchmark. fold obs.
  destruct (obs_outcome obs) as [stdout stderr| |msg]; try reflexivity.
  unfold raised_after_run, int_failure, figure.
  destruct (Re.search Re.nodes_re stdout) as [g1|];
    [destruct (PyStr.int_checked (obs_max_str_digits obs) g1) as [m1|n1]
       eqn:E1; [reflexivity|] |];
    (destruct (Re.search Re.length_re stdout) as [g2|];
     [destruct (PyStr.int_checked (obs_max_str_digits obs) g2) as [m2|n2]
        eqn:E2; [reflexivity|] |]);
    destruct (obs_print obs) as [m3|]; try reflexivity;
    unfold PyStr.int_checked in *;
    repeat match goal with
           | H : (if ?c then _ else _) = inr _ |- _ =>
               destruct c; [discriminate | injection H as <-]
           end; reflexivity.
Qed.

Lemma run_benchmark_keys (exec : Exec) (domain_file problem_file : string)
    (search heuristic : option string) (timeout : Z) :
  keys (run_benchmark exec domain_file problem_file search heuristic timeout)
  = FIELDS.
Proof.
  rewrite run_benchmark_eq.
  destruct (obs_outcome _) as [stdout stderr| |msg]; try reflexivity.
  destruct (raised_after_run _ stdout); reflexivity.
Qed.

Lemma elapsed_nonneg (a b : Q) : (a <= b)%Q <-> (0 <= b - a)%Q.
Proof. unfold Qminus. apply Qle_minus_iff. Qed.

(** The classes do not depend on the clock: the record has the class of
    what the call observed, and a record outside the normal class never
    reports success. *)
Lemma run_benchmark_class (exec : Exec)
    (domain_file problem_file : string) (search heuristic : option string)
    (timeout : Z) :
  let obs :=
    exec (command_line domain_file problem_file search heuristic) timeout in
  let r :=
    run_benchmark exec domain_file problem_file search heuristic timeout in
  classes_of r = [class_of_observation obs]
  /\ dict_get r "runtime"
     = Some (VFloat (last_reading obs - obs_start obs))
  /\ (class_of_observation obs <> Normal ->
      dict_get r "success" = Some (VBool false)).
Proof.
  intros obs r. subst r. rewrite run_benchmark_eq. fold obs.
  unfold class_of_observation, last_reading.
  destruct (obs_outcome obs) as [stdout stderr| |msg].
  - destruct (raised_after_run obs stdout) as [msg|].
    + repeat split; reflexivity.
    + split; [destruct (PyStr.contains "Goal reached" stdout); reflexivity|].
      split; [reflexivity|]. intros H. now elim H.
  - repeat split; reflexivity.
  - repeat split; reflexivity.
Qed.

(** Against C3 as stated: when the clock of the machine is set back
    while the planner runs, the record of a successful run has a negative
    runtime. *)
Lemma C3_runtime_negative_after_clock_set_back :
  dict_get (run_benchmark (clock_set_back_planner 0) "/bench/bw/domain.pddl"
              "/bench/bw/pb1.pddl" (Some "astar") (Some "hmax") 5)
           "runtime"
  = Some (VFloat (9 - 10))
  /\ (9 - 10 < 0)%Q
  /\ dict_get (run_benchmark (clock_set_back_planner 0)
                 "/bench/bw/domain.pddl" "/bench/bw/pb1.pddl"
                 (Some "astar") (Some "hmax") 5)
              "success"
     = Some (VBool true).
Proof. repeat split; reflexivity. Qed.

(** C3, as the code has it.  Whatever the planner process does, the
    record [run_benchmark] returns belongs to exactly one outcome class:
    the normal one when the process completed and the rest of the [try]
    block ran through, the timeout class when the process ran into the
    time limit, the error class otherwise.  Its [runtime] is a later
    reading of [time.time()] minus the reading in front of the call: it
    is not negative exactly when the clock did not go back in between.
    A record with [success] true has integers in [expanded_nodes] and
    [plan_length]. *)
Theorem C3_run_benchmark_outcome (exec : Exec)
    (domain_file problem_file : string) (search heuristic : option string)
    (timeout : Z) :
  let obs :=
    exec (command_line domain_file problem_file search heuristic) timeout in
  let r :=
    run_benchmark exec domain_file problem_file search heuristic timeout in
  classes_of r = [class_of_observation obs]
  /\ (exists q, dict_get r "runtime" = Some (VFloat q)
                /\ q = (last_reading obs - obs_start obs)%Q
                /\ ((0 <= q)%Q <-> (obs_start obs <= last_reading obs)%Q))
  /\ (dict_get r "success" = Some (VBool true) ->
      exists n m, dict_get r "expanded_nodes" = Some (VInt n)
                  /\ dict_get r "plan_length" = Some (VInt m)).
Proof.
  intros obs r.
  destruct (run_benchmark_class exec domain_file problem_file search
              heuristic timeout) as [Hc [Ht Hs]].
  fold obs r in Hc, Ht, Hs. split; [exact Hc|]. split.
  - eexists. split; [exact Ht|]. split; [reflexivity|].
    split; apply elapsed_nonneg.
  - intros Htrue. subst r. rewrite run_benchmark_eq in *. fold obs in Htrue |- *.
    destruct (obs_outcome obs) as [stdout stderr| |msg];
      [destruct (raised_after_run obs stdout) as [msg|] | |];
      try discriminate Htrue.
    eexists; eexists; split; reflexivity.
Qed.

(** The scenario of the planner contract: a goal, 42 expanded nodes and a
    plan of length 7. *)
Example run_benchmark_scenario :
  let r := run_benchmark (quick_planner 0) "/bench/bw/domain.pddl"
             "/bench/bw/pb1.pddl" (Some "astar") (Some "hmax") 5 in
  dict_get r "success" = Some (VBool true)
  /\ dict_get r "expanded_nodes" = Some (VInt 42)
  /\ dict_get r "plan_length" = Some (VInt 7)
  /\ dict_get r "domain" = Some (VStr "domain")
  /\ dict_get r "problem" = Some (VStr "pb1").
Proof. repeat split; vm_compute; reflexivity. Qed.

(* ================================================================== *)
(** * Result Sink *)

Section SinkFacts.

Variable fieldnames : list string.

Lemma wrong_fields_nil_iff (r : pydict) :
  Csv.wrong_fields fieldnames r = [] <-> no_extra_field fieldnames r = true.
Proof.
  unfold Csv.wrong_fields, no_extra_field.
  induction (keys r) as [|k l IH]; simpl; [tauto|].
  destruct (Csv.mem k fieldnames); simpl; [exact IH|].
  split; discriminate.
Qed.

Lemma dict_to_list_ok (r : pydict) :
  no_extra_field fieldnames r = true ->
  Csv.dict_to_list fieldnames r = Return (row_of fieldnames r).
Proof.
  intros H. apply wrong_fields_nil_iff in H.
  unfold Csv.dict_to_list. now rewrite H.
Qed.

Lemma dict_to_list_raises (r : pydict) :
  no_extra_field fieldnames r = false ->
  Csv.dict_to_list fieldnames r
  = Raise (ValueError (Csv.wrong_fields fieldnames r)).
Proof.
  intros H. unfold Csv.dict_to_list.
  destruct (Csv.wrong_fields fieldnames r) eqn:E; [|reflexivity].
  apply wrong_fields_nil_iff in E. congruence.
Qed.

(** [writerows] writes the rows of the records in front of the first one
    with a key outside the columns, and stops at that record. *)
Lemma writerows_spec (written : list Csv.row) (rs : list pydict) :
  Csv.writerows fieldnames written rs
  = (written ++ map (row_of fieldnames)
                    (take_while (no_extra_field fieldnames) rs),
     match drop_while (no_extra_field fieldnames) rs with
     | [] => None
     | r :: _ => Some (ValueError (Csv.wrong_fields fieldnames r))
     end).
Proof.
  revert written. induction rs as [|r rs IH]; intros written; simpl.
  - now rewrite app_nil_r.
  - destruct (no_extra_field fieldnames r) eqn:E.
    + rewrite (dict_to_list_ok r E), IH. simpl. now rewrite <- app_assoc.
    + rewrite (dict_to_list_raises r E). simpl. now rewrite app_nil_r.
Qed.

Lemma take_while_all (A : Type) (f : A -> bool) (l : list A) :
  Forall (fun x => f x = true) l ->
  take_while f l = l /\ drop_while f l = [].
Proof.
  induction 1 as [|x l Hx _ [IH1 IH2]]; simpl; [auto|].
  rewrite Hx, IH1, IH2. auto.
Qed.

End SinkFacts.

Lemma mem_In (k : string) (l : list string) :
  Csv.mem k l = true <-> In k l.
Proof.
  unfold Csv.mem. rewrite existsb_exists. split.
  - intros [x [Hx E]]. apply String.eqb_eq in E. now subst.
  - intros H. exists k. split; [exact H | apply String.eqb_refl].
Qed.

Lemma same_keys_no_extra (fieldnames : list string) (r : pydict) :
  keys r = fieldnames -> no_extra_field fieldnames r = true.
Proof.
  intros <-. unfold no_extra_field. apply forallb_forall.
  intros k Hk. now apply mem_In.
Qed.

(** A record that lacks a field has the empty string in its column. *)
Lemma missing_field_cell (r : pydict) (k : string) :
  dict_get r k = None -> Csv.cell r k = VStr "".
Proof. intros H. unfold Csv.cell. now rewrite H. Qed.

(** Against C6 as stated: the second record lacks [plan_length], so its
    field set differs from that of the first, and yet nothing is raised;
    its row is written, with the empty string in the last column. *)
Lemma C6_missing_field_is_written :
  keys short_record <> keys full_record
  /\ Csv.write_results [full_record; short_record]
     = Some ({| Csv.header := FIELDS;
                Csv.rows :=
                  [ [VStr "domain"; VStr "pb1"; VStr "astar"; VStr "hmax";
                     VBool true; VFloat 1; VInt 42; VInt 7];
                    [VStr "domain"; VStr "pb2"; VStr "astar"; VStr "hmax";
                     VBool false; VFloat 5; VStr "timeout"; VStr ""] ] |},
             None).
Proof. split; [discriminate | reflexivity]. Qed.

(** C6, as the code has it.  The columns are the keys of the first
    record, in its order.  The records are written one after the other.
    A record with a key outside the columns aborts the writing with
    [ValueError]: its row and the rows behind it are not written, the
    header and the rows in front of it are.  A record that lacks a field
    does not abort anything: its row is written with the empty string in
    the column of the missing field. *)
Theorem C6_sink_columns_and_extra_fields (first : pydict)
    (rest : list pydict) :
  let results := first :: rest in
  let fieldnames := keys first in
  exists (written : list Csv.row) (e : option exn),
    Csv.write_results results
    = Some ({| Csv.header := fieldnames; Csv.rows := written |}, e)
    /\ written = map (row_of fieldnames)
                     (take_while (no_extra_field fieldnames) results)
    /\ e = match drop_while (no_extra_field fieldnames) results with
           | [] => None
           | r :: _ => Some (ValueError (Csv.wrong_fields fieldnames r))
           end
    /\ (forall (r : pydict) (k : string),
           dict_get r k = None -> Csv.cell r k = VStr "").
Proof.
  intros results fieldnames. subst results fieldnames.
  unfold Csv.write_results. rewrite writerows_spec. simpl app.
  eexists; eexists. split; [reflexivity|].
  split; [reflexivity|]. split; [reflexivity|].
  exact missing_field_cell.
Qed.

(** An extra field aborts the writing behind the rows already written. *)
Example extra_field_aborts :
  Csv.write_results [full_record; long_record; full_record]
  = Some ({| Csv.header := FIELDS;
             Csv.rows := [row_of FIELDS full_record] |},
          Some (ValueError ["memory"])).
Proof. reflexivity. Qed.

(** Records with the same keys are all written. *)
Lemma write_results_homogeneous (first : pydict) (rest : list pydict) :
  Forall (fun r => keys r = keys first) rest ->
  Csv.write_results (first :: rest)
  = Some ({| Csv.header := keys first;
             Csv.rows := map (row_of (keys first)) (first :: rest) |}, None).
Proof.
  intros H. unfold Csv.write_results. rewrite writerows_spec.
  assert (HF : Forall (fun r => no_extra_field (keys first) r = true)
                      (first :: rest)).
  { constructor; [now apply same_keys_no_extra|].
    eapply Forall_impl; [|exact H]. intros r. apply same_keys_no_extra. }
  destruct (take_while_all _ _ _ HF) as [-> ->]. reflexivity.
Qed.

(* ================================================================== *)
(** * Corpus Walker: the order of the problems *)

Module SortFacts.
Import Walker.

Lemma ltb_asym (a b : string) :
  PyStr.ltb a b = true -> PyStr.ltb b a = false.
Proof.
  revert b; induction a as [|x a IH]; intros [|y b]; simpl; auto.
  destruct (N.ltb_spec (PyStr.code x) (PyStr.code y)) as [H|H].
  - intros _. destruct (N.ltb_spec (PyStr.code y) (PyStr.code x)); [lia|].
    reflexivity.
  - destruct (N.ltb_spec (PyStr.code y) (PyStr.code x)); [discriminate|].
    apply IH.
Qed.

Lemma key_lt_asym (a b : sort_key) :
  key_lt a b = Return true -> key_lt b a = Return false.
Proof.
  destruct a as [x|x], b as [y|y]; simpl; try discriminate; intros H;
    injection H as H; f_equal.
  - apply Z.ltb_ge. apply Z.ltb_lt in H. lia.
  - now apply ltb_asym.
Qed.

Lemma key_lt_same_kind (a b : sort_key) :
  key_is_int a = key_is_int b -> exists lt, key_lt a b = Return lt.
Proof.
  destruct a, b; simpl; try discriminate; eauto.
Qed.

Lemma key_lt_other_kind (a b : sort_key) :
  key_is_int a <> key_is_int b -> key_lt a b = Raise TypeError.
Proof.
  destruct a, b; simpl; congruence.
Qed.

(** Among keys of one kind an insertion succeeds, keeps the elements and
    keeps the list sorted. *)
Lemma insert_by_same_kind (b : bool) (x : sort_key * string)
    (sorted : list (sort_key * string)) :
  key_is_int (fst x) = b -> kind b sorted -> Sorted key_le sorted ->
  exists s, insert_by x sorted = Return s
            /\ kind b s /\ Permutation (x :: sorted) s /\ Sorted key_le s
            /\ (forall y, key_le y x -> HdRel key_le y sorted ->
                          HdRel key_le y s)
            /\ s <> [].
Proof.
  intros Hx Hk Hs. induction sorted as [|y ys IH].
  - exists [x]. simpl.
    split; [reflexivity|]. split; [constructor; auto|].
    split; [reflexivity|]. split; [constructor; constructor|].
    split; [intros z Hz _; now constructor | discriminate].
  - simpl. inversion Hk as [|? ? Hy Hys]. inversion Hs as [|? ? Hs' Hhd].
    subst.
    destruct (key_lt_same_kind (fst x) (fst y)) as [lt Hlt]; [congruence|].
    rewrite Hlt. simpl. destruct lt.
    + exists (x :: y :: ys).
      split; [reflexivity|]. split; [constructor; auto|].
      split; [reflexivity|].
      split; [constructor; auto; constructor; now apply key_lt_asym|].
      split; [intros z Hz _; now constructor | discriminate].
    + destruct (IH Hys Hs') as [s [-> [Hks [Hp [Hss [Hh Hne]]]]]].
      simpl. exists (y :: s).
      split; [reflexivity|]. split; [constructor; auto|].
      split; [rewrite perm_swap; now constructor|].
      split; [constructor; auto|].
      split; [|discriminate].
      intros z _ Hz. inversion Hz; subst. now constructor.
Qed.

Lemma sort_from_same_kind (b : bool) (todo sorted : list (sort_key * string)) :
  kind b sorted -> Sorted key_le sorted -> kind b todo ->
  exists s, sort_from sorted todo = Return s
            /\ Permutation (sorted ++ todo) s /\ Sorted key_le s.
Proof.
  revert sorted. induction todo as [|x rest IH]; intros sorted Hk Hs Ht.
  - exists sorted. simpl. rewrite app_nil_r. auto.
  - inversion Ht as [|? ? Hx Hrest]; subst. simpl.
    destruct (insert_by_same_kind _ x sorted eq_refl Hk Hs)
      as [s [-> [Hks [Hp [Hss _]]]]].
    simpl. destruct (IH s Hks Hss Hrest) as [s' [-> [Hp' Hs']]].
    exists s'. repeat split; auto.
    rewrite <- Hp', <- Hp. simpl. symmetry. apply Permutation_middle.
Qed.

(** As soon as a key of the other kind arrives, its first comparison
    raises. *)
Lemma sort_from_other_kind (b : bool) (todo sorted : list (sort_key * string)) :
  sorted <> [] -> kind b sorted -> Sorted key_le sorted ->
  Exists (fun p => key_is_int (fst p) <> b) todo ->
  sort_from sorted todo = Raise TypeError.
Proof.
  revert sorted. induction todo as [|x rest IH]; intros sorted Hne Hk Hs Hex.
  - inversion Hex.
  - simpl. destruct (Bool.bool_dec (key_is_int (fst x)) b) as [Hx|Hx].
    + destruct (insert_by_same_kind _ x sorted Hx Hk Hs)
        as [s [-> [Hks [_ [Hss [_ Hsne]]]]]].
      simpl. apply IH; auto.
      inversion Hex; subst; [contradiction | assumption].
    + destruct sorted as [|y ys]; [contradiction|].
      inversion Hk; subst. simpl.
      rewrite key_lt_other_kind; [reflexivity | congruence].
Qed.

End SortFacts.

(** When every file name has a number, or none has, the sort succeeds
    and returns the files in the order of their keys. *)
Lemma sort_problem_files_same_kind (b : bool) (problem_files : list string) :
  Forall (fun p => key_is_int (Walker.problem_sort_key p) = b) problem_files ->
  exists sorted,
    Walker.sort_problem_files problem_files = Return sorted
    /\ Permutation problem_files sorted
    /\ Sorted key_le (map with_key sorted).
Proof.
  intros H. unfold Walker.sort_problem_files.
  destruct (SortFacts.sort_from_same_kind b
              (map (fun p => (Walker.problem_sort_key p, p)) problem_files) [])
    as [s [-> [Hp Hs]]].
  - constructor.
  - constructor.
  - unfold kind. rewrite Forall_map. exact H.
  - simpl in *. exists (map snd s).
    assert (Hs' : map with_key (map snd s) = s).
    { assert (HF : Forall (fun q => with_key (snd q) = q) s).
      { eapply Permutation_Forall; [exact Hp|].
        rewrite Forall_map. apply Forall_forall. reflexivity. }
      clear - HF. induction HF as [|q s Hq _ IH]; simpl; [reflexivity|].
      now rewrite Hq, IH. }
    split; [reflexivity|]. split.
    + apply (Permutation_map snd) in Hp. rewrite map_map in Hp.
      simpl in Hp. now rewrite map_id in Hp.
    + now rewrite Hs'.
Qed.

(** When one file name has a number and another has none, the sort
    raises [TypeError]. *)
Lemma sort_problem_files_mixed (problem_files : list string) (a b : string) :
  In a problem_files -> In b problem_files ->
  key_is_int (Walker.problem_sort_key a) = true ->
  key_is_int (Walker.problem_sort_key b) = false ->
  Walker.sort_problem_files problem_files = Raise TypeError.
Proof.
  intros Ha Hb Hka Hkb. unfold Walker.sort_problem_files.
  destruct problem_files as [|p rest]; [contradiction|].
  cbn [map Walker.sort_from Walker.insert_by bind].
  rewrite (SortFacts.sort_from_other_kind
             (key_is_int (Walker.problem_sort_key p))); try reflexivity.
  - discriminate.
  - constructor; [reflexivity | constructor].
  - constructor; constructor.
  - rewrite Exists_map. apply Exists_exists.
    destruct (key_is_int (Walker.problem_sort_key p)) eqn:E.
    + exists b. split; [|simpl; congruence].
      destruct Hb as [Hb|Hb]; [congruence | exact Hb].
    + exists a. split; [|simpl; congruence].
      destruct Ha as [Ha|Ha]; [congruence | exact Ha].
Qed.

(** C4.  The files [pb2], [pb10], [pb1] are visited in the order [pb1],
    [pb2], [pb10].  The directory with [pb1.pddl] and [prob.pddl] is not
    walked at all: the key of the first is the number 1, the key of the
    second is its name, sorting the two raises [TypeError], and the
    exception leaves [main]. *)
Theorem C4_sort_raises_on_mixed_names :
  find_problem_files (Disk.fs numbered_disk) "/bench/bw"
  = ["/bench/bw/pb2.pddl"; "/bench/bw/pb10.pddl"; "/bench/bw/pb1.pddl"]
  /\ Walker.sort_problem_files
       ["/bench/bw/pb2.pddl"; "/bench/bw/pb10.pddl"; "/bench/bw/pb1.pddl"]
     = Return
         ["/bench/bw/pb1.pddl"; "/bench/bw/pb2.pddl"; "/bench/bw/pb10.pddl"]
  /\ find_problem_files (Disk.fs mixed_names_disk) "/bench/bw"
     = ["/bench/bw/pb1.pddl"; "/bench/bw/prob.pddl"]
  /\ Walker.problem_sort_key "/bench/bw/pb1.pddl" = Walker.KInt 1
  /\ Walker.problem_sort_key "/bench/bw/prob.pddl" = Walker.KStr "prob.pddl"
  /\ Walker.sort_problem_files ["/bench/bw/pb1.pddl"; "/bench/bw/prob.pddl"]
     = Raise TypeError
  /\ Walker.main (Disk.fs mixed_names_disk) quick_planner default_args
     = Raise TypeError.
Proof. repeat split; vm_compute; reflexivity. Qed.

(* ================================================================== *)
(** * Corpus Walker: unresolved problems and the records it collects *)

Section WalkFacts.

Variable fs : FileSystem.
Variable planner : nat -> Exec.
Variable args : Walker.config.

(** An unresolved problem whose declared domain is not [blocksworld] is
    passed over with two lines of diagnostic, and nothing else changes. *)
Lemma process_problem_skips (st : Walker.state) (problem_file : string) :
  find_domain_file_for_problem fs problem_file = None ->
  read_domain_name_from_file fs problem_file <> Some "blocksworld" ->
  Walker.process_problem fs planner args st problem_file
  = Return
      {| Walker.results := Walker.results st;
         Walker.domain_name := read_domain_name_from_file fs problem_file;
         Walker.console :=
           Walker.console st
           ++ [Walker.EvNoDomainFile (PosixPath.basename problem_file)]
           ++ [Walker.EvRequiresDomain
                 (read_domain_name_from_file fs problem_file)];
         Walker.calls := Walker.calls st |}.
Proof.
  intros Hfind Hname. unfold Walker.process_problem. rewrite Hfind. simpl.
  destruct (opt_eqb (read_domain_name_from_file fs problem_file)
                    "blocksworld") eqn:E.
  - exfalso. apply Hname.
    destruct (read_domain_name_from_file fs problem_file) as [n|];
      [|discriminate]. simpl in E. apply String.eqb_eq in E. now subst.
  - unfold Walker.print. simpl. now rewrite <- app_assoc.
Qed.

(** An unresolved problem that declares [blocksworld] raises. *)
Lemma process_problem_raises (st : Walker.state) (problem_file : string) :
  find_domain_file_for_problem fs problem_file = None ->
  read_domain_name_from_file fs problem_file = Some "blocksworld" ->
  Walker.process_problem fs planner args st problem_file
  = Raise (NameError "problem_dir").
Proof.
  intros Hfind Hname. unfold Walker.process_problem.
  rewrite Hfind. simpl. now rewrite Hname.
Qed.

(** An exception in one problem leaves the loops: the problems and the
    directories behind it are not visited. *)
Lemma process_problems_raise (st : Walker.state) (problem_file : string)
    (rest : list string) (e : exn) :
  Walker.process_problem fs planner args st problem_file = Raise e ->
  Walker.process_problems fs planner args st (problem_file :: rest) = Raise e.
Proof. intros H. simpl. now rewrite H. Qed.

Lemma walk_from_raise (st : Walker.state) (domain_dir : string)
    (rest : list string) (e : exn) :
  Walker.process_domain_dir fs planner args st domain_dir = Raise e ->
  Walker.walk_from fs planner args st (domain_dir :: rest) = Raise e.
Proof. intros H. simpl. now rewrite H. Qed.

Lemma fold_left_invariant (A B : Type) (P : A -> Prop) (f : A -> B -> A)
    (l : list B) (a : A) :
  (forall a b, P a -> P (f a b)) -> P a -> P (fold_left f l a).
Proof.
  intros Hf. revert a. induction l as [|b l IH]; simpl; auto.
Qed.

Lemma run_combination_collected (domain_file problem_file search : string)
    (st : Walker.state) (heuristic : string) :
  collected st ->
  collected (Walker.run_combination planner args domain_file problem_file
                                    search st heuristic).
Proof.
  intros H. unfold Walker.run_combination.
  destruct (_ && _); [exact H|].
  unfold collected. simpl. apply Forall_app. split; [exact H|].
  constructor; [|constructor]. unfold from_runner. eauto 10.
Qed.

Lemma run_combinations_collected (domain_file problem_file : string)
    (st : Walker.state) :
  collected st ->
  collected (Walker.run_combinations planner args domain_file problem_file st).
Proof.
  unfold Walker.run_combinations.
  apply fold_left_invariant. intros a search Ha.
  apply fold_left_invariant; [|exact Ha].
  intros a' h. apply run_combination_collected.
Qed.

Lemma process_problem_collected (st st' : Walker.state)
    (problem_file : string) :
  collected st ->
  Walker.process_problem fs planner args st problem_file = Return st' ->
  collected st'.
Proof.
  intros H. unfold Walker.process_problem.
  destruct (negb (truthy_opt _)).
  - destruct (opt_eqb _ _); [discriminate|].
    intros E. injection E as <-. exact H.
  - unfold Walker.debug_block.
    destruct (Walker.debug args).
    + destruct (fs_read fs problem_file) as [content|]; [|discriminate].
      destruct (Re.search Re.domain_re content); simpl;
        intros E; injection E as <-;
        apply run_combinations_collected; exact H.
    + simpl. intros E. injection E as <-.
      apply run_combinations_collected. exact H.
Qed.

Lemma process_problems_collected (problem_files : list string)
    (st st' : Walker.state) :
  collected st ->
  Walker.process_problems fs planner args st problem_files = Return st' ->
  collected st'.
Proof.
  revert st. induction problem_files as [|p rest IH]; intros st H; simpl.
  - intros E. injection E as <-. exact H.
  - destruct (Walker.process_problem fs planner args st p) as [st1|e] eqn:E;
      [|discriminate].
    simpl. apply IH. eapply process_problem_collected; eauto.
Qed.

Lemma process_domain_dir_collected (st st' : Walker.state)
    (domain_dir : string) :
  collected st ->
  Walker.process_domain_dir fs planner args st domain_dir = Return st' ->
  collected st'.
Proof.
  intros H. unfold Walker.process_domain_dir.
  destruct (find_problem_files fs domain_dir) as [|p l].
  - intros E. injection E as <-. exact H.
  - destruct (Walker.sort_problem_files (p :: l)) as [sorted|e];
      [|discriminate].
    simpl. apply process_problems_collected. exact H.
Qed.

Lemma walk_from_collected (domain_dirs : list string)
    (st st' : Walker.state) :
  collected st ->
  Walker.walk_from fs planner args st domain_dirs = Return st' ->
  collected st'.
Proof.
  revert st. induction domain_dirs as [|d rest IH]; intros st H; simpl.
  - intros E. injection E as <-. exact H.
  - destruct (Walker.process_domain_dir fs planner args st d) as [st1|e] eqn:E;
      [|discriminate].
    simpl. apply IH. eapply process_domain_dir_collected; eauto.
Qed.

End WalkFacts.

(** C1.  The corpus has two domain directories.  The only file of the
    first is a problem that declares [blocksworld], so its domain is not
    resolved; [main] raises [NameError] there: the second directory is
    never visited and no file is written.  With any other declared name
    in the same place the problem is passed over with its diagnostic and
    the walk goes on to the second directory. *)
Theorem C1_unresolved_blocksworld_aborts_walk :
  Walker.domain_dirs_of (Disk.fs lone_problem_disk) default_args "/bench"
  = ["/bench/bw"; "/bench/gripper"]
  /\ find_domain_file_for_problem (Disk.fs lone_problem_disk)
       "/bench/bw/pb1.pddl" = None
  /\ read_domain_name_from_file (Disk.fs lone_problem_disk)
       "/bench/bw/pb1.pddl" = Some "blocksworld"
  /\ Walker.main (Disk.fs lone_problem_disk) quick_planner default_args
     = Raise (NameError "problem_dir")
  /\ (exists st file,
         Walker.main (Disk.fs lone_other_disk) quick_planner default_args
         = Return (st, Some file)
         /\ firstn 4 (Walker.console st)
            = [ Walker.EvProcessing "bw";
                Walker.EvNoDomainFile "pb1.pddl";
                Walker.EvRequiresDomain (Some "blocks");
                Walker.EvProcessing "gripper" ]
         /\ List.length (Walker.results st) = 7%nat
         /\ List.length (Csv.rows file) = 7%nat).
Proof.
  split; [vm_compute; reflexivity|].
  split; [vm_compute; reflexivity|].
  split; [vm_compute; reflexivity|].
  split; [vm_compute; reflexivity|].
  eexists. eexists. split; [vm_compute; reflexivity|].
  repeat split; reflexivity.
Qed.

Section WalkRaises.

Variable fs : FileSystem.
Variable planner : nat -> Exec.
Variable args : Walker.config.

Lemma insert_by_raises (x : Walker.sort_key * string)
    (sorted : list (Walker.sort_key * string)) (e : exn) :
  Walker.insert_by x sorted = Raise e -> e = TypeError.
Proof.
  induction sorted as [|y ys IH]; simpl; [discriminate|].
  destruct (fst x) as [n|n], (fst y) as [m|m]; simpl;
    try (intros H; injection H as <-; reflexivity).
  - destruct (n <? m)%Z; [discriminate|].
    destruct (Walker.insert_by x ys); [discriminate|].
    simpl. intros H. injection H as <-. now apply IH.
  - destruct (PyStr.ltb n m); [discriminate|].
    destruct (Walker.insert_by x ys); [discriminate|].
    simpl. intros H. injection H as <-. now apply IH.
Qed.

Lemma sort_from_raises (todo sorted : list (Walker.sort_key * string))
    (e : exn) :
  Walker.sort_from sorted todo = Raise e -> e = TypeError.
Proof.
  revert sorted. induction todo as [|x rest IH]; intros sorted; simpl;
    [discriminate|].
  destruct (Walker.insert_by x sorted) as [s|e'] eqn:E; simpl.
  - apply IH.
  - intros H. injection H as <-. eapply insert_by_raises; eauto.
Qed.

Lemma sort_problem_files_raises (l : list string) (e : exn) :
  Walker.sort_problem_files l = Raise e -> e = TypeError.
Proof.
  unfold Walker.sort_problem_files.
  destruct (Walker.sort_from _ _) as [s|e'] eqn:E; simpl; [discriminate|].
  intros H. injection H as <-. eapply sort_from_raises; eauto.
Qed.

Lemma process_problem_not_schema (st : Walker.state) (problem_file : string)
    (e : exn) :
  Walker.process_problem fs planner args st problem_file = Raise e ->
  not_schema_error e.
Proof.
  unfold Walker.process_problem.
  destruct (negb (truthy_opt _)).
  - destruct (opt_eqb _ _); [|discriminate].
    intros H. injection H as <-. exact I.
  - unfold Walker.debug_block. destruct (Walker.debug args); simpl.
    + destruct (fs_read fs problem_file) as [content|]; simpl.
      * destruct (Re.search Re.domain_re content); discriminate.
      * intros H. injection H as <-. exact I.
    + discriminate.
Qed.

Lemma process_problems_not_schema (problem_files : list string)
    (st : Walker.state) (e : exn) :
  Walker.process_problems fs planner args st problem_files = Raise e ->
  not_schema_error e.
Proof.
  revert st. induction problem_files as [|p rest IH]; intros st; simpl;
    [discriminate|].
  destruct (Walker.process_problem fs planner args st p) as [st1|e'] eqn:E;
    simpl.
  - apply IH.
  - intros H. injection H as <-. eapply process_problem_not_schema; eauto.
Qed.

Lemma walk_from_not_schema (domain_dirs : list string) (st : Walker.state)
    (e : exn) :
  Walker.walk_from fs planner args st domain_dirs = Raise e ->
  not_schema_error e.
Proof.
  revert st. induction domain_dirs as [|d rest IH]; intros st; simpl;
    [discriminate|].
  destruct (Walker.process_domain_dir fs planner args st d) as [st1|e'] eqn:E;
    simpl; [apply IH|].
  intros H. injection H as <-. revert E. unfold Walker.process_domain_dir.
  destruct (find_problem_files fs d) as [|p l]; [discriminate|].
  destruct (Walker.sort_problem_files (p :: l)) as [sorted|e''] eqn:Es; simpl.
  - apply process_problems_not_schema.
  - intros H. injection H as <-.
    now rewrite (sort_problem_files_raises _ _ Es).
Qed.

(** The records of a walk that came to its end are written whole. *)
Lemma walk_and_write_homogeneous (domain_dirs : list string)
    (st : Walker.state) :
  Walker.walk fs planner args domain_dirs = Return st ->
  Forall (fun r => from_runner r /\ keys r = FIELDS) (Walker.results st)
  /\ Walker.walk_and_write fs planner args domain_dirs
     = Return (st, dataset_of (Walker.results st)).
Proof.
  intros Hwalk.
  assert (Hc : collected st).
  { eapply walk_from_collected; [|exact Hwalk]. constructor. }
  assert (Hk : Forall (fun r => keys r = FIELDS) (Walker.results st)).
  { eapply Forall_impl; [|exact Hc].
    intros r (exec & d & p & s & h & t & ->). apply run_benchmark_keys. }
  split.
  - unfold collected in Hc. rewrite Forall_forall in *. auto.
  - unfold Walker.walk_and_write. rewrite Hwalk. simpl.
    destruct (Walker.results st) as [|first rest]; [reflexivity|].
    inversion Hk as [|? ? Hfirst Hrest]; subst.
    rewrite write_results_homogeneous.
    + unfold dataset_of. now rewrite Hfirst.
    + eapply Forall_impl; [|exact Hrest]. intros r Hr. now rewrite Hr, Hfirst.
Qed.

Lemma walk_and_write_not_schema (domain_dirs : list string) (e : exn) :
  Walker.walk_and_write fs planner args domain_dirs = Raise e ->
  not_schema_error e.
Proof.
  destruct (Walker.walk fs planner args domain_dirs) as [st|e'] eqn:E.
  - destruct (walk_and_write_homogeneous _ _ E) as [_ ->]. discriminate.
  - unfold Walker.walk_and_write. rewrite E. simpl.
    intros H. injection H as <-. eapply walk_from_not_schema. exact E.
Qed.

End WalkRaises.

(** C9.  In each of its three branches [run_benchmark] returns a record
    with the eight fields [domain], [problem], [search], [heuristic],
    [success], [runtime], [expanded_nodes], [plan_length], in this order.
    Every record [main] collects comes from [run_benchmark]; so when
    [main] comes to its end the file it wrote has the eight columns and
    one row per record, and whatever exception leaves [main], it is never
    the schema error of the sink. *)
Theorem C9_runner_records_share_one_schema :
  (forall (exec : Exec) (domain_file problem_file : string)
          (search heuristic : option string) (timeout : Z),
      keys (run_benchmark exec domain_file problem_file search heuristic
                          timeout) = FIELDS)
  /\ (forall (fs : FileSystem) (planner : nat -> Exec)
             (args : Walker.config) (st : Walker.state)
             (written : option Csv.file),
      Walker.main fs planner args = Return (st, written) ->
      Forall (fun r => from_runner r /\ keys r = FIELDS) (Walker.results st)
      /\ written = dataset_of (Walker.results st))
  /\ (forall (fs : FileSystem) (planner : nat -> Exec)
             (args : Walker.config) (wrong : list string),
      Walker.main fs planner args <> Raise (ValueError wrong)).
Proof.
  split; [exact run_benchmark_keys|]. split.
  - intros fs planner args st written. unfold Walker.main.
    destruct (fs_isdir fs (Walker.benchmark_dir args)).
    + destruct (Walker.walk fs planner args
                  (Walker.domain_dirs_of fs args (Walker.benchmark_dir args)))
        as [st'|e] eqn:E.
      * destruct (walk_and_write_homogeneous _ _ _ _ _ E) as [HF ->].
        intros H. injection H as <- <-. auto.
      * unfold Walker.walk_and_write. rewrite E. discriminate.
    + intros H. injection H as <- <-. split; [constructor | reflexivity].
  - intros fs planner args wrong H. unfold Walker.main in H.
    destruct (fs_isdir fs (Walker.benchmark_dir args)); [|discriminate].
    apply walk_and_write_not_schema in H. exact H.
Qed.

(* ================================================================== *)
(** * More facts about the matcher *)

Module ReInv.
Import Re.

Lemma lits_no_capture (p : string) : no_capture (lits p).
Proof.
  induction p as [|c p IH]; intros s g; simpl.
  - intros H. now injection H as <-.
  - destruct s as [|d s]; [discriminate|].
    destruct (Ascii.eqb c d); [apply IH | discriminate].
Qed.

Lemma nil_no_capture : no_capture [].
Proof. exact (lits_no_capture EmptyString). Qed.

(** A match of literal text is a prefix of the subject. *)
Lemma match_lits_inv (p : string) (r : regex) (s g : string) :
  match_here (lits p ++ r) s = Some g ->
  exists s', s = (p ++ s')%string /\ match_here r s' = Some g.
Proof.
  revert s. induction p as [|c p IH]; intros s; simpl.
  - intros H. now exists s.
  - destruct s as [|d s]; [discriminate|].
    destruct (Ascii.eqb c d) eqn:E; [|discriminate].
    apply Ascii.eqb_eq in E. subst d. intros H.
    destruct (IH s H) as [s' [-> Hs']]. now exists s'.
Qed.

(** Behind a [+] the rest of the pattern matches some later part of the
    subject. *)
Lemma match_plus_inv (cls : ascii -> bool) (r : regex) (s g : string) :
  match_here (Plus cls :: r) s = Some g ->
  exists pre s', s = (pre ++ s')%string /\ match_here r s' = Some g.
Proof.
  induction s as [|d s IH]; [discriminate|].
  rewrite ReFacts.match_plus. destruct (cls d); [|discriminate].
  destruct (match_here (Plus cls :: r) s) as [g'|] eqn:E.
  - intros H. injection H as <-.
    destruct (IH eq_refl) as [pre [s' [-> Hs']]].
    now exists (String d pre), s'.
  - intros H. now exists (String d EmptyString), s.
Qed.

(** The group of a match is not empty, lies at the start of the subject,
    holds characters of its class only, and the rest of the pattern
    matches behind it. *)
Lemma match_group_inv (cls : ascii -> bool) (r : regex) (s g : string) :
  no_capture r ->
  match_here (Group cls :: r) s = Some g ->
  g <> EmptyString /\ all_chars cls g = true
  /\ exists rest, s = (g ++ rest)%string
                  /\ match_here r rest = Some EmptyString.
Proof.
  intros Hr. revert g. induction s as [|d s IH]; intros g; [discriminate|].
  rewrite ReFacts.match_group. destruct (cls d) eqn:Hd; [|discriminate].
  destruct (match_here (Group cls :: r) s) as [g'|] eqn:E.
  - intros H. injection H as <-.
    destruct (IH g' eq_refl) as [_ [Hall [rest [-> Hrest]]]].
    split; [discriminate|]. split; [simpl; now rewrite Hd|].
    exists rest. split; [reflexivity | exact Hrest].
  - destruct (match_here r s) as [g'|] eqn:E'; [|discriminate].
    intros H. injection H as <-. assert (Hg := Hr _ _ E'). subst g'.
    split; [discriminate|]. split; [simpl; now rewrite Hd|].
    exists s. split; [reflexivity | exact E'].
Qed.

(** A successful search found its match at some place of the subject. *)
Lemma search_inv (r : regex) (s g : string) :
  search r s = Some g ->
  exists pre s', s = (pre ++ s')%string /\ match_here r s' = Some g.
Proof.
  induction s as [|c s IH]; cbn [search].
  - destruct (match_here r EmptyString) as [g'|] eqn:E; [|discriminate].
    intros H. injection H as <-. now exists EmptyString, EmptyString.
  - destruct (match_here r (String c s)) as [g'|] eqn:E.
    + intros H. injection H as <-. now exists EmptyString, (String c s).
    + intros H. destruct (IH H) as [pre [s' [-> Hs']]].
      now exists (String c pre), s'.
Qed.

(** A search skips a text in which no match can begin. *)
Lemma search_skip (r : regex) (pre s : string) :
  (forall a b, pre = (a ++ b)%string -> b <> EmptyString ->
               match_here r (b ++ s) = None) ->
  search r (pre ++ s) = search r s.
Proof.
  induction pre as [|c pre IH]; intros H; [reflexivity|].
  change ((String c pre ++ s)%string) with (String c (pre ++ s)).
  cbn [search].
  assert (E : match_here r (String c (pre ++ s)) = None).
  { apply (H EmptyString (String c pre)); [reflexivity | discriminate]. }
  rewrite E. apply IH. intros a b -> Hb.
  apply (H (String c a) b); [reflexivity | exact Hb].
Qed.

Lemma search_here (r : regex) (s g : string) :
  match_here r s = Some g -> search r s = Some g.
Proof. intros H. destruct s; cbn [search]; now rewrite H. Qed.

(** The greedy group in front of a text that does not continue its class
    takes the whole run. *)
Lemma group_takes_run (cls : ascii -> bool) (r : regex) (D rest : string) :
  D <> EmptyString -> all_chars cls D = true ->
  match_here (Group cls :: r) rest = None ->
  match_here r rest = Some EmptyString ->
  match_here (Group cls :: r) (D ++ rest) = Some D.
Proof.
  intros Hne HD Hstop Hrest. induction D as [|d D IH]; [contradiction|].
  simpl in HD. apply andb_true_iff in HD as [Hd HD].
  change ((String d D ++ rest)%string) with (String d (D ++ rest)).
  rewrite ReFacts.match_group, Hd.
  destruct D as [|d' D].
  - change (("" ++ rest)%string) with rest. now rewrite Hstop, Hrest.
  - rewrite IH; [reflexivity | discriminate | exact HD].
Qed.

Lemma group_stops (cls : ascii -> bool) (r : regex) (s : string) :
  match s with
  | EmptyString => True
  | String c _ => cls c = false
  end ->
  match_here (Group cls :: r) s = None.
Proof.
  destruct s as [|c s]; [reflexivity|].
  intros H. now rewrite ReFacts.match_group, H.
Qed.

End ReInv.

(* ================================================================== *)
(** * More facts about strings *)

Module StrFacts.

Lemma app_assoc (a b c : string) :
  ((a ++ b) ++ c = a ++ (b ++ c))%string.
Proof. induction a as [|x a IH]; simpl; [reflexivity | now rewrite IH]. Qed.

Lemma app_nil_r (a : string) : (a ++ "")%string = a.
Proof. induction a as [|x a IH]; simpl; [reflexivity | now rewrite IH]. Qed.

(** Two ways of cutting one text: one of the first parts is a prefix of
    the other. *)
Lemma app_eq_app (a b c d : string) :
  (a ++ b = c ++ d)%string ->
  exists e, (a = c ++ e /\ d = e ++ b)%string
            \/ (c = a ++ e /\ b = e ++ d)%string.
Proof.
  revert c. induction a as [|x a IH]; intros c H.
  - exists c. right. simpl in *. auto.
  - destruct c as [|y c].
    + exists (String x a). left. simpl in *. auto.
    + simpl in H. injection H as -> H.
      destruct (IH c H) as [e [[-> ->] | [-> ->]]]; exists e; auto.
Qed.

Lemma all_chars_app (P : ascii -> bool) (a b : string) :
  all_chars P (a ++ b) = all_chars P a && all_chars P b.
Proof.
  induction a as [|x a IH]; simpl; [reflexivity|].
  now rewrite IH, andb_assoc.
Qed.

Lemma occurs_in_app_l (n a b : string) :
  occurs_in n a -> occurs_in n (a ++ b).
Proof.
  intros [pre [post ->]]. exists pre, (post ++ b)%string.
  now rewrite !app_assoc.
Qed.

Lemma occurs_in_app_r (n a b : string) :
  occurs_in n b -> occurs_in n (a ++ b).
Proof.
  intros [pre [post ->]]. exists (a ++ pre)%string, post.
  now rewrite !app_assoc.
Qed.

Lemma contains_false (n s : string) :
  PyStr.contains n s = false <-> ~ occurs_in n s.
Proof.
  rewrite <- contains_iff. destruct (PyStr.contains n s); split; congruence.
Qed.

(** What a prefix of the text contains, the text contains. *)
Lemma contains_take (n : string) (k : nat) (s : string) :
  PyStr.contains n (PyStr.take k s) = true -> PyStr.contains n s = true.
Proof.
  rewrite !contains_iff. intros H.
  destruct (take_prefix k s) as [rest E]. rewrite E.
  now apply occurs_in_app_l.
Qed.

Lemma lstrip_no_leading (s : string) :
  no_leading_space (PyStr.lstrip s) = true.
Proof.
  induction s as [|c s IH]; simpl; [reflexivity|].
  destruct (PyStr.isspace c) eqn:E; [exact IH | simpl; now rewrite E].
Qed.

Lemma lstrip_id (s : string) :
  no_leading_space s = true -> PyStr.lstrip s = s.
Proof.
  destruct s as [|c s]; simpl; [reflexivity|].
  intros H. apply negb_true_iff in H. now rewrite H.
Qed.

Lemma rstrip_no_leading (s : string) :
  no_leading_space s = true -> no_leading_space (PyStr.rstrip s) = true.
Proof.
  destruct s as [|c s]; simpl; [reflexivity|].
  intros H. destruct (PyStr.rstrip s); simpl; [|exact H].
  apply negb_true_iff in H. rewrite H. simpl. now rewrite H.
Qed.

Lemma rstrip_idem (s : string) :
  PyStr.rstrip (PyStr.rstrip s) = PyStr.rstrip s.
Proof.
  induction s as [|c s IH]; simpl; [reflexivity|].
  destruct (PyStr.rstrip s) as [|d r] eqn:E.
  - destruct (PyStr.isspace c) eqn:Ec; simpl; [reflexivity | now rewrite Ec].
  - cbn [PyStr.rstrip]. cbn [PyStr.rstrip] in IH. now rewrite IH.
Qed.

Lemma strip_idem (s : string) :
  PyStr.strip (PyStr.strip s) = PyStr.strip s.
Proof.
  unfold PyStr.strip.
  rewrite (lstrip_id (PyStr.rstrip (PyStr.lstrip s))).
  - apply rstrip_idem.
  - apply rstrip_no_leading, lstrip_no_leading.
Qed.

Lemma all_chars_lstrip (P : ascii -> bool) (s : string) :
  all_chars P s = true -> all_chars P (PyStr.lstrip s) = true.
Proof.
  induction s as [|c s IH]; simpl; [reflexivity|].
  intros H. destruct (PyStr.isspace c); [|exact H].
  apply andb_true_iff in H as [_ H]. now apply IH.
Qed.

Lemma all_chars_rstrip (P : ascii -> bool) (s : string) :
  all_chars P s = true -> all_chars P (PyStr.rstrip s) = true.
Proof.
  induction s as [|c s IH]; simpl; [reflexivity|].
  intros H. apply andb_true_iff in H as [Hc H]. specialize (IH H).
  destruct (PyStr.rstrip s).
  - destruct (PyStr.isspace c); simpl; [reflexivity | now rewrite Hc].
  - cbn [all_chars] in *. now rewrite Hc, IH.
Qed.

(** [int] of a text of digits is not negative. *)
Lemma int_from_nonneg (s : string) (acc : Z) :
  (0 <= acc)%Z -> all_chars PyStr.isdigit s = true ->
  (0 <= PyStr.int_from acc s)%Z.
Proof.
  revert acc. induction s as [|c s IH]; intros acc Hacc;
    cbn [PyStr.int_from all_chars]; [auto|].
  intros H. apply andb_true_iff in H as [Hc H]. apply IH; [|exact H].
  unfold PyStr.isdigit in Hc. apply andb_true_iff in Hc as [Hlo _].
  apply N.leb_le in Hlo. unfold PyStr.digit_value. lia.
Qed.

Lemma int_nonneg (s : string) :
  all_chars PyStr.isdigit s = true -> (0 <= PyStr.int s)%Z.
Proof. apply int_from_nonneg. lia. Qed.

End StrFacts.

(* ================================================================== *)
(** * Domain Resolver and File Classifier: further properties *)

(** X1.  A file whose text reaches the declaration
    [(:domain X)] without an opening parenthesis followed by a colon in
    front of it, with white space between the keyword and a name [X]
    free of white space and closing parentheses, has [X] as its domain
    name. *)
Theorem declared_name_is_read (fs : FileSystem)
    (file_path pre ws X post : string) :
  fs_read fs file_path
  = Some (pre ++ "(:domain" ++ ws ++ X ++ ")" ++ post)%string ->
  no_keyword pre = true ->
  ws <> EmptyString -> all_space ws = true -> is_name X = true ->
  read_domain_name_from_file fs file_path = Some X.
Proof. apply declaration_is_read. Qed.

Lemma declared_name_is_read_witness :
  let fs := Disk.fs numbered_disk in
  let pre := "(define (problem p10) " in
  let post := " (:objects a b) (:init (clear a)) (:goal (on a b)))" in
  fs_read fs "/bench/bw/pb10.pddl"
  = Some (pre ++ "(:domain" ++ " " ++ "bw" ++ ")" ++ post)%string
  /\ no_keyword pre = true
  /\ " " <> EmptyString /\ all_space " " = true /\ is_name "bw" = true
  /\ read_domain_name_from_file fs "/bench/bw/pb10.pddl" = Some "bw".
Proof.
  intros fs pre post.
  assert (H1 : fs_read fs "/bench/bw/pb10.pddl"
               = Some (pre ++ "(:domain" ++ " " ++ "bw" ++ ")" ++ post)%string)
    by reflexivity.
  assert (H2 : no_keyword pre = true) by reflexivity.
  assert (H3 : " " <> EmptyString) by discriminate.
  assert (H4 : all_space " " = true) by reflexivity.
  assert (H5 : is_name "bw" = true) by reflexivity.
  repeat (split; [assumption|]).
  exact (declared_name_is_read fs "/bench/bw/pb10.pddl" pre " " "bw" post
           H1 H2 H3 H4 H5).
Defined.

(** X2.  A name that [read_domain_name_from_file] returns
    comes from a readable file whose text contains [(:domain]; it has no
    closing parenthesis in it and no white space at either end. *)
Theorem read_name_shape (fs : FileSystem) (file_path X : string) :
  read_domain_name_from_file fs file_path = Some X ->
  (exists content, fs_read fs file_path = Some content
                   /\ occurs_in "(:domain" content)
  /\ all_chars Re.not_rparen X = true
  /\ PyStr.strip X = X.
Proof.
  unfold read_domain_name_from_file.
  destruct (fs_read fs file_path) as [content|]; [|discriminate].
  destruct (Re.search Re.domain_re content) as [g|] eqn:E; [|discriminate].
  intros H. injection H as <-.
  destruct (ReInv.search_inv _ _ _ E) as [pre [s' [-> Hm]]].
  unfold Re.domain_re in Hm.
  destruct (ReInv.match_lits_inv _ _ _ _ Hm) as [s1 [-> Hm1]].
  destruct (ReInv.match_plus_inv _ _ _ _ Hm1) as [ws [s2 [-> Hm2]]].
  destruct (ReInv.match_group_inv Re.not_rparen [Re.Lit ")"] s2 g
              (ReInv.lits_no_capture ")") Hm2) as [_ [Hall _]].
  split; [|split].
  - exists (pre ++ "(:domain" ++ ws ++ s2)%string. split; [reflexivity|].
    now exists pre, (ws ++ s2)%string.
  - unfold PyStr.strip.
    now apply StrFacts.all_chars_rstrip, StrFacts.all_chars_lstrip.
  - apply StrFacts.strip_idem.
Qed.

Lemma read_name_shape_witness :
  read_domain_name_from_file (Disk.fs blockworld_disk) "/bench/bw/pb1.pddl"
  = Some "blocksworld"
  /\ (exists content,
         fs_read (Disk.fs blockworld_disk) "/bench/bw/pb1.pddl" = Some content
         /\ occurs_in "(:domain" content)
  /\ all_chars Re.not_rparen "blocksworld" = true
  /\ PyStr.strip "blocksworld" = "blocksworld".
Proof.
  assert (H : read_domain_name_from_file (Disk.fs blockworld_disk)
                "/bench/bw/pb1.pddl" = Some "blocksworld") by reflexivity.
  split; [exact H|].
  exact (read_name_shape (Disk.fs blockworld_disk) "/bench/bw/pb1.pddl"
           "blocksworld" H).
Defined.

(** X3.  A file that the structural scan of the
    resolver returns is one of the files it was given, is not the problem
    file, is a regular file, and is never a file that [is_problem_file]
    accepts. *)
Theorem scan_result_is_no_problem (fs : FileSystem)
    (problem_file : string) (all_pddls : list string) (pddl : string) :
  scan_for_domain fs problem_file all_pddls = Some pddl ->
  In pddl all_pddls /\ pddl <> problem_file
  /\ fs_isfile fs pddl = true /\ is_problem_file fs pddl = false.
Proof.
  induction all_pddls as [|q l IH]; simpl; [discriminate|].
  destruct (negb (String.eqb q problem_file) && fs_isfile fs q
            && looks_like_domain fs q) eqn:E.
  - intros H. injection H as <-.
    apply andb_true_iff in E as [E Hlook].
    apply andb_true_iff in E as [Hne Hfile].
    split; [now left|].
    split; [apply String.eqb_neq; now apply negb_true_iff|].
    split; [exact Hfile|].
    unfold looks_like_domain in Hlook.
    unfold is_problem_file.
    destruct (fs_read fs q) as [content|] eqn:Eread; [|discriminate].
    rewrite (@fs_read_n_whole fs q 2000 content Eread).
    apply andb_true_iff in Hlook as [_ Hgoal].
    apply negb_true_iff in Hgoal.
    destruct (PyStr.contains "(:goal" (PyStr.take 2000 content)) eqn:Ep;
      [|reflexivity].
    apply StrFacts.contains_take in Ep. congruence.
  - intros H. destruct (IH H) as [Hin Hrest]. split; [now right | exact Hrest].
Qed.

Lemma scan_result_is_no_problem_witness :
  let fs := Disk.fs numbered_disk in
  scan_for_domain fs "/bench/bw/pb1.pddl" (fs_glob fs "/bench/bw/*.pddl")
  = Some "/bench/bw/domain.pddl"
  /\ In "/bench/bw/domain.pddl" (fs_glob fs "/bench/bw/*.pddl")
  /\ "/bench/bw/domain.pddl" <> "/bench/bw/pb1.pddl"
  /\ fs_isfile fs "/bench/bw/domain.pddl" = true
  /\ is_problem_file fs "/bench/bw/domain.pddl" = false.
Proof.
  intros fs.
  assert (H : scan_for_domain fs "/bench/bw/pb1.pddl"
                (fs_glob fs "/bench/bw/*.pddl")
              = Some "/bench/bw/domain.pddl") by reflexivity.
  split; [exact H|].
  exact (scan_result_is_no_problem fs "/bench/bw/pb1.pddl"
           (fs_glob fs "/bench/bw/*.pddl") "/bench/bw/domain.pddl" H).
Defined.

(* ================================================================== *)
(** * Benchmark Runner: further properties *)

(** The two metrics and the verdict of a run that completed and whose
    record is returned by the [try] block. *)
Lemma completed_metrics (exec : Exec) (domain_file problem_file : string)
    (search heuristic : option string) (timeout : Z)
    (stdout stderr : string) :
  let obs :=
    exec (command_line domain_file problem_file search heuristic) timeout in
  obs_outcome obs = Completed stdout stderr ->
  raised_after_run obs stdout = None ->
  let r :=
    run_benchmark exec domain_file problem_file search heuristic timeout in
  dict_get r "expanded_nodes"
  = Some (VInt (figure (Re.search Re.nodes_re stdout)))
  /\ dict_get r "plan_length"
     = Some (VInt (figure (Re.search Re.length_re stdout)))
  /\ dict_get r "success"
     = Some (VBool (PyStr.contains "Goal reached" stdout)).
Proof.
  intros obs H Hrun r. subst r. rewrite run_benchmark_eq. fold obs.
  rewrite H, Hrun. repeat split; reflexivity.
Qed.

(** A record outside the normal class has no success and no number. *)
Lemma not_normal_metrics (exec : Exec) (domain_file problem_file : string)
    (search heuristic : option string) (timeout : Z) :
  let obs :=
    exec (command_line domain_file problem_file search heuristic) timeout in
  class_of_observation obs <> Normal ->
  let r :=
    run_benchmark exec domain_file problem_file search heuristic timeout in
  dict_get r "success" = Some (VBool false)
  /\ (exists s, dict_get r "expanded_nodes" = Some (VStr s))
  /\ (exists s, dict_get r "plan_length" = Some (VStr s)).
Proof.
  intros obs H r. subst r. rewrite run_benchmark_eq. fold obs.
  unfold class_of_observation in H.
  destruct (obs_outcome obs) as [stdout stderr| |msg];
    [destruct (raised_after_run obs stdout) as [msg|]; [|now elim H] | |];
    repeat split; eexists; reflexivity.
Qed.

(** What a call observes is of one of two kinds. *)
Lemma observation_cases (obs : observation) :
  (exists stdout stderr,
      obs_outcome obs = Completed stdout stderr
      /\ raised_after_run obs stdout = None)
  \/ class_of_observation obs <> Normal.
Proof.
  unfold class_of_observation.
  destruct (obs_outcome obs) as [stdout stderr| |msg];
    [destruct (raised_after_run obs stdout) as [msg|] eqn:E | |];
    try (right; discriminate).
  left. now exists stdout, stderr.
Qed.

Lemma nodes_group (s g : string) :
  Re.search Re.nodes_re s = Some g ->
  g <> EmptyString /\ all_chars PyStr.isdigit g = true
  /\ occurs_in (g ++ " Nodes expanded") s.
Proof.
  intros H. destruct (ReInv.search_inv _ _ _ H) as [pre [s' [-> Hm]]].
  unfold Re.nodes_re in Hm.
  destruct (ReInv.match_group_inv _ _ _ _
              (ReInv.lits_no_capture " Nodes expanded") Hm)
    as [Hne [Hall [rest [-> Hrest]]]].
  rewrite <- (app_nil_r (Re.lits " Nodes expanded")) in Hrest.
  destruct (ReInv.match_lits_inv _ _ _ _ Hrest) as [s2 [-> _]].
  split; [exact Hne|]. split; [exact Hall|].
  exists pre, s2. now rewrite StrFacts.app_assoc.
Qed.

Lemma length_group (s g : string) :
  Re.search Re.length_re s = Some g ->
  g <> EmptyString /\ all_chars PyStr.isdigit g = true
  /\ occurs_in ("Plan length: " ++ g) s.
Proof.
  intros H. destruct (ReInv.search_inv _ _ _ H) as [pre [s' [-> Hm]]].
  unfold Re.length_re in Hm.
  destruct (ReInv.match_lits_inv _ _ _ _ Hm) as [s1 [-> Hm1]].
  destruct (ReInv.match_group_inv _ _ _ _ ReInv.nil_no_capture Hm1)
    as [Hne [Hall [rest [-> _]]]].
  split; [exact Hne|]. split; [exact Hall|].
  exists pre, rest. now rewrite StrFacts.app_assoc.
Qed.

(** X4.  The record reports success exactly when
    the planner process completed, the text [Goal reached] occurs in its
    standard output, and no later statement of the [try] block raises: a
    timeout or a failed invocation never reports success, whatever was
    printed, and neither does a run whose figures [int] refuses or whose
    standard error cannot be printed. *)
Theorem success_iff_goal_reached (exec : Exec)
    (domain_file problem_file : string) (search heuristic : option string)
    (timeout : Z) :
  let obs :=
    exec (command_line domain_file problem_file search heuristic) timeout in
  let r :=
    run_benchmark exec domain_file problem_file search heuristic timeout in
  (dict_get r "success" = Some (VBool true)
   <-> exists stdout stderr,
         obs_outcome obs = Completed stdout stderr
         /\ occurs_in "Goal reached" stdout
         /\ raised_after_run obs stdout = None)
  /\ (let long :=
        run_benchmark (long_figure_planner 0) domain_file problem_file
                      search heuristic timeout in
      dict_get long "success" = Some (VBool false)
      /\ dict_get long "plan_length"
         = Some (VStr "error: Exceeds the limit (4300 digits) for integer string conversion: value has 4301 digits; use sys.set_int_max_str_digits() to increase the limit"))
  /\ (let unprinted :=
        run_benchmark (unprintable_planner 0) domain_file problem_file
                      search heuristic timeout in
      dict_get unprinted "success" = Some (VBool false)
      /\ dict_get unprinted "plan_length"
         = Some (VStr "error: [Errno 32] Broken pipe")).
Proof.
  intros obs r. split; [|split].
  - destruct (observation_cases obs) as [[stdout [stderr [E Hrun]]] | Hc].
    + destruct (completed_metrics exec domain_file problem_file search
                  heuristic timeout stdout stderr E Hrun) as [_ [_ Hs]].
      fold r in Hs. rewrite Hs. split.
      * intros H. injection H as H. exists stdout, stderr.
        split; [exact E|]. split; [now apply contains_iff | exact Hrun].
      * intros [stdout' [stderr' [E' [Hg _]]]].
        rewrite E in E'. injection E' as <- <-.
        apply contains_iff in Hg. now rewrite Hg.
    + destruct (not_normal_metrics exec domain_file problem_file search
                  heuristic timeout Hc) as [Hs _].
      fold r in Hs. rewrite Hs. split; [discriminate|].
      intros [stdout [stderr [E [_ Hrun]]]]. exfalso. apply Hc.
      unfold class_of_observation. now rewrite E, Hrun.
  - assert (Hr : raised_after_run
                   (long_figure_planner 0
                      (command_line domain_file problem_file search heuristic)
                      timeout)
                   ("Goal reached. 42 Nodes expanded
Plan length: " ++ PyStr.replicate 4301 "1")
                 = Some "Exceeds the limit (4300 digits) for integer string conversion: value has 4301 digits; use sys.set_int_max_str_digits() to increase the limit")
      by (vm_compute; reflexivity).
    cbv zeta. rewrite run_benchmark_eq.
    change (obs_outcome (long_figure_planner 0 _ timeout))
      with (Completed ("Goal reached. 42 Nodes expanded
Plan length: " ++ PyStr.replicate 4301 "1") "").
    cbv iota beta. rewrite Hr. split; reflexivity.
  - split; reflexivity.
Qed.

(** X5.  An integer that the runner writes into
    [expanded_nodes] or [plan_length] is never negative. *)
Theorem metrics_never_negative (exec : Exec)
    (domain_file problem_file : string) (search heuristic : option string)
    (timeout : Z) (n : Z) :
  let r :=
    run_benchmark exec domain_file problem_file search heuristic timeout in
  dict_get r "expanded_nodes" = Some (VInt n)
  \/ dict_get r "plan_length" = Some (VInt n) ->
  (0 <= n)%Z.
Proof.
  intros r H.
  destruct (observation_cases
              (exec (command_line domain_file problem_file search heuristic)
                    timeout)) as [[stdout [stderr [E Hrun]]] | Hc].
  - destruct (completed_metrics exec domain_file problem_file search
                heuristic timeout stdout stderr E Hrun) as [Hn [Hl _]].
    fold r in Hn, Hl. unfold figure in Hn, Hl. destruct H as [H|H].
    + rewrite Hn in H. injection H as <-.
      destruct (Re.search Re.nodes_re stdout) as [g|] eqn:Eg; [|lia].
      apply StrFacts.int_nonneg. now apply (nodes_group stdout g).
    + rewrite Hl in H. injection H as <-.
      destruct (Re.search Re.length_re stdout) as [g|] eqn:Eg; [|lia].
      apply StrFacts.int_nonneg. now apply (length_group stdout g).
  - destruct (not_normal_metrics exec domain_file problem_file search
                heuristic timeout Hc) as [_ [[s Hn] [s' Hl]]].
    fold r in Hn, Hl. destruct H; congruence.
Qed.

Lemma metrics_never_negative_witness :
  let r := run_benchmark (quick_planner 0) "/bench/bw/domain.pddl"
             "/bench/bw/pb1.pddl" (Some "astar") (Some "hmax") 5 in
  (dict_get r "expanded_nodes" = Some (VInt 42)
   \/ dict_get r "plan_length" = Some (VInt 42))
  /\ (0 <= 42)%Z.
Proof.
  intros r.
  assert (H : dict_get r "expanded_nodes" = Some (VInt 42)
              \/ dict_get r "plan_length" = Some (VInt 42))
    by (left; reflexivity).
  split; [exact H|].
  exact (metrics_never_negative (quick_planner 0) "/bench/bw/domain.pddl"
           "/bench/bw/pb1.pddl" (Some "astar") (Some "hmax") 5%Z 42%Z H).
Defined.

(** X6.  When the planner completed, no later
    statement of the [try] block raises and the output does not contain
    [ Nodes expanded], the record has [expanded_nodes] zero; when the
    output does not contain [Plan length: ], the record has [plan_length]
    zero. *)
Theorem absent_marker_leaves_zero (exec : Exec)
    (domain_file problem_file : string) (search heuristic : option string)
    (timeout : Z) (stdout stderr : string) :
  let obs :=
    exec (command_line domain_file problem_file search heuristic) timeout in
  let r :=
    run_benchmark exec domain_file problem_file search heuristic timeout in
  obs_outcome obs = Completed stdout stderr ->
  raised_after_run obs stdout = None ->
  (PyStr.contains " Nodes expanded" stdout = false ->
   dict_get r "expanded_nodes" = Some (VInt 0))
  /\ (PyStr.contains "Plan length: " stdout = false ->
      dict_get r "plan_length" = Some (VInt 0)).
Proof.
  intros obs r E Hrun.
  destruct (completed_metrics exec domain_file problem_file search
              heuristic timeout stdout stderr E Hrun) as [Hn [Hl _]].
  fold r in Hn, Hl. unfold figure in Hn, Hl.
  split; intros Hc; apply StrFacts.contains_false in Hc.
  - rewrite Hn. destruct (Re.search Re.nodes_re stdout) as [g|] eqn:Eg;
      [|reflexivity].
    exfalso. apply Hc. destruct (nodes_group stdout g Eg) as [_ [_ Ho]].
    destruct Ho as [pre [post ->]].
    exists (pre ++ g)%string, post. now rewrite !StrFacts.app_assoc.
  - rewrite Hl. destruct (Re.search Re.length_re stdout) as [g|] eqn:Eg;
      [|reflexivity].
    exfalso. apply Hc. destruct (length_group stdout g Eg) as [_ [_ Ho]].
    destruct Ho as [pre [post ->]].
    exists pre, (g ++ post)%string. now rewrite !StrFacts.app_assoc.
Qed.

Lemma absent_marker_leaves_zero_witness :
  let exec := silent_planner 0 in
  let obs := exec (command_line "/bench/bw/domain.pddl" "/bench/bw/pb1.pddl"
                                (Some "gbf") (Some "hff")) 5%Z in
  let r := run_benchmark exec "/bench/bw/domain.pddl" "/bench/bw/pb1.pddl"
                         (Some "gbf") (Some "hff") 5 in
  obs_outcome obs = Completed "No solution could be found" ""
  /\ raised_after_run obs "No solution could be found" = None
  /\ dict_get r "expanded_nodes" = Some (VInt 0)
  /\ dict_get r "plan_length" = Some (VInt 0).
Proof.
  intros exec obs r.
  assert (H : obs_outcome obs = Completed "No solution could be found" "")
    by reflexivity.
  assert (Hrun : raised_after_run obs "No solution could be found" = None)
    by reflexivity.
  split; [exact H|]. split; [exact Hrun|].
  destruct (absent_marker_leaves_zero exec "/bench/bw/domain.pddl"
              "/bench/bw/pb1.pddl" (Some "gbf") (Some "hff") 5%Z
              "No solution could be found" "" H Hrun) as [Hn Hl].
  split; [apply Hn | apply Hl]; reflexivity.
Defined.

(* ================================================================== *)
(** * Benchmark Runner: what is read from names and from the output *)

Module PathFacts.
Import PosixPath.

(** Appending a text without a slash changes only the last component. *)
Lemma cut_app (p f : string) :
  all_chars not_slash f = true ->
  cut (p ++ f) = (fst (cut p), (snd (cut p) ++ f)%string).
Proof.
  intros Hf. induction p as [|c p IH].
  - simpl. induction f as [|d f IHf]; [reflexivity|].
    simpl in Hf. apply andb_true_iff in Hf as [Hd Hf].
    cbn [cut]. rewrite (IHf Hf). cbn [PyStr.truthy fst snd].
    unfold not_slash in Hd. apply negb_true_iff in Hd. now rewrite Hd.
  - change ((String c p ++ f)%string) with (String c (p ++ f)).
    cbn [cut]. rewrite IH. destruct (cut p) as [h t]. cbn [fst snd].
    destruct (PyStr.truthy h); [reflexivity|].
    destruct (Ascii.eqb c "/"); reflexivity.
Qed.

Lemma cut_slash (p : string) :
  cut (p ++ "/") = ((p ++ "/")%string, EmptyString).
Proof.
  induction p as [|c p IH]; [reflexivity|].
  change ((String c p ++ "/")%string) with (String c (p ++ "/")).
  cbn [cut]. rewrite IH. destruct p; reflexivity.
Qed.

Lemma endswith_slash_inv (d : string) :
  endswith_slash d = true -> exists d', d = (d' ++ "/")%string.
Proof.
  induction d as [|c d IH]; [discriminate|].
  destruct d as [|c' d].
  - cbn [endswith_slash]. intros H. apply Ascii.eqb_eq in H. subst c.
    now exists EmptyString.
  - intros H. destruct (IH H) as [d' E]. exists (String c d').
    simpl. now rewrite <- E.
Qed.

Lemma basename_after_slash (p f : string) :
  all_chars not_slash f = true -> basename ((p ++ "/") ++ f) = f.
Proof.
  intros Hf. unfold basename. now rewrite (cut_app _ _ Hf), cut_slash.
Qed.

Lemma basename_plain (f : string) :
  all_chars not_slash f = true -> basename f = f.
Proof.
  intros Hf. unfold basename.
  change f with (("" ++ f)%string) at 1. now rewrite (cut_app _ _ Hf).
Qed.

(** The last component of a joined path is the name that was joined. *)
Lemma basename_join (d f : string) :
  all_chars not_slash f = true -> basename (join d f) = f.
Proof.
  intros Hf. unfold join.
  assert (Hs : PyStr.startswith "/" f = false).
  { destruct f as [|c f]; [reflexivity|].
    cbn [all_chars] in Hf. cbn [PyStr.startswith].
    apply andb_true_iff in Hf as [Hc _]. unfold not_slash in Hc.
    apply negb_true_iff in Hc. rewrite Ascii.eqb_sym in Hc.
    now rewrite Hc. }
  rewrite Hs. destruct d as [|c d].
  - cbn [PyStr.truthy negb orb]. now apply basename_plain.
  - cbn [PyStr.truthy negb orb].
    destruct (endswith_slash (String c d)) eqn:E.
    + destruct (endswith_slash_inv _ E) as [d' ->].
      now apply basename_after_slash.
    + rewrite <- StrFacts.app_assoc. now apply basename_after_slash.
Qed.

End PathFacts.

(** Removing the extension from a name without a dot gives the name. *)
Lemma remove_extension (name : string) :
  all_chars not_dot name = true ->
  PyStr.remove_all ".pddl" (name ++ ".pddl") = name.
Proof.
  unfold PyStr.remove_all. induction name as [|c name IH]; [reflexivity|].
  intros H. cbn [all_chars] in H. apply andb_true_iff in H as [Hc H].
  change ((String c name ++ ".pddl")%string) with (String c (name ++ ".pddl")).
  cbn [PyStr.remove_from PyStr.startswith].
  unfold not_dot in Hc. apply negb_true_iff in Hc.
  rewrite Ascii.eqb_sym in Hc. rewrite Hc. cbn [andb].
  now rewrite (IH H).
Qed.

Lemma stem_of_joined (d name : string) :
  all_chars not_slash name = true -> all_chars not_dot name = true ->
  stem (PosixPath.join d (name ++ ".pddl")) = name.
Proof.
  intros Hs Hd. unfold stem. rewrite PathFacts.basename_join.
  - now apply remove_extension.
  - rewrite StrFacts.all_chars_app, Hs. reflexivity.
Qed.

Lemma record_names (exec : Exec) (domain_file problem_file : string)
    (search heuristic : option string) (timeout : Z) :
  let r :=
    run_benchmark exec domain_file problem_file search heuristic timeout in
  dict_get r "domain" = Some (VStr (stem domain_file))
  /\ dict_get r "problem" = Some (VStr (stem problem_file)).
Proof.
  intros r. subst r. rewrite run_benchmark_eq.
  destruct (obs_outcome _) as [stdout stderr| |msg];
    [|split; reflexivity|split; reflexivity].
  destruct (raised_after_run _ stdout); split; reflexivity.
Qed.

(** X7.  For a domain file [<dir>/<d>.pddl]
    and a problem file [<dir'>/<p>.pddl] whose names [d] and [p] hold
    neither a slash nor a dot, the record carries [d] in [domain] and [p]
    in [problem], whatever the directories and whatever the planner
    did. *)
Theorem record_names_are_file_stems (exec : Exec)
    (dir dir' d p : string) (search heuristic : option string)
    (timeout : Z) :
  all_chars not_slash d = true -> all_chars not_dot d = true ->
  all_chars not_slash p = true -> all_chars not_dot p = true ->
  let r := run_benchmark exec (PosixPath.join dir (d ++ ".pddl"))
                         (PosixPath.join dir' (p ++ ".pddl"))
                         search heuristic timeout in
  dict_get r "domain" = Some (VStr d)
  /\ dict_get r "problem" = Some (VStr p).
Proof.
  intros H1 H2 H3 H4 r.
  destruct (record_names exec (PosixPath.join dir (d ++ ".pddl"))
              (PosixPath.join dir' (p ++ ".pddl")) search heuristic timeout)
    as [Hd Hp].
  fold r in Hd, Hp.
  now rewrite Hd, Hp, (stem_of_joined dir d H1 H2),
    (stem_of_joined dir' p H3 H4).
Qed.

Lemma record_names_are_file_stems_witness :
  all_chars not_slash "gripper-strips" = true
  /\ all_chars not_dot "gripper-strips" = true
  /\ all_chars not_slash "pb1" = true /\ all_chars not_dot "pb1" = true
  /\ let r := run_benchmark (slow_planner 0)
                (PosixPath.join "/bench/gripper" ("gripper-strips" ++ ".pddl"))
                (PosixPath.join "/bench/gripper/" ("pb1" ++ ".pddl"))
                (Some "astar") None 5 in
     dict_get r "domain" = Some (VStr "gripper-strips")
     /\ dict_get r "problem" = Some (VStr "pb1").
Proof.
  assert (H1 : all_chars not_slash "gripper-strips" = true) by reflexivity.
  assert (H2 : all_chars not_dot "gripper-strips" = true) by reflexivity.
  assert (H3 : all_chars not_slash "pb1" = true) by reflexivity.
  assert (H4 : all_chars not_dot "pb1" = true) by reflexivity.
  repeat (split; [assumption|]).
  exact (record_names_are_file_stems (slow_planner 0) "/bench/gripper"
           "/bench/gripper/" "gripper-strips" "pb1" (Some "astar") None 5%Z
           H1 H2 H3 H4).
Defined.

(* ================================================================== *)
(** * Benchmark Runner: the figures are read whole *)

Module CountFacts.
Import Re.

Lemma ends_with_digit_app (a b : string) :
  b <> EmptyString -> ends_with_digit (a ++ b) = ends_with_digit b.
Proof.
  intros Hb. induction a as [|c a IH]; [reflexivity|].
  change ((String c a ++ b)%string) with (String c (a ++ b)).
  cbn [ends_with_digit]. rewrite IH.
  destruct (a ++ b)%string eqn:E; [|reflexivity].
  destruct a, b; try discriminate. contradiction.
Qed.

Lemma digits_end_with_digit (b : string) :
  b <> EmptyString -> all_chars PyStr.isdigit b = true ->
  ends_with_digit b = true.
Proof.
  induction b as [|c b IH]; [contradiction|].
  intros _ H. cbn [all_chars] in H. apply andb_true_iff in H as [Hc H].
  cbn [ends_with_digit]. destruct b as [|c' b]; [exact Hc|].
  apply IH; [discriminate | exact H].
Qed.

(** The first character of a non-empty text that passes a test passes
    it. *)
Lemma first_char (P : ascii -> bool) (x : ascii) (s : string) :
  all_chars P (String x s) = true -> P x = true.
Proof. cbn [all_chars]. intros H. now apply andb_true_iff in H. Qed.

(** No match of [(\d+) Nodes expanded] begins in a text that neither
    contains [ Nodes expanded] nor ends with a digit. *)
Lemma nodes_no_match_inside (a b D post : string) :
  PyStr.contains " Nodes expanded" (a ++ b) = false ->
  ends_with_digit (a ++ b) = false ->
  b <> EmptyString -> D <> EmptyString ->
  all_chars PyStr.isdigit D = true ->
  match_here nodes_re (b ++ D ++ " Nodes expanded" ++ post) = None.
Proof.
  intros Hc He Hb HD Hdig.
  destruct (match_here nodes_re (b ++ D ++ " Nodes expanded" ++ post))
    as [g|] eqn:E; [exfalso|reflexivity].
  apply StrFacts.contains_false in Hc.
  unfold nodes_re in E.
  destruct (ReInv.match_group_inv _ _ _ _
              (ReInv.lits_no_capture " Nodes expanded") E)
    as [Hg [Hgd [rest [Eq Hrest]]]].
  rewrite <- (app_nil_r (lits " Nodes expanded")) in Hrest.
  destruct (ReInv.match_lits_inv _ _ _ _ Hrest) as [s2 [-> _]].
  destruct (StrFacts.app_eq_app _ _ _ _ Eq) as [e [[-> E2] | [-> E2]]].
  - (* the group ends inside [b] *)
    symmetry in E2.
    destruct (StrFacts.app_eq_app _ _ _ _ E2) as [e' [[-> E3] | [E3 E4]]].
    + apply Hc. exists (a ++ g)%string, e'.
      now rewrite !StrFacts.app_assoc.
    + destruct e' as [|x e'].
      * rewrite StrFacts.app_nil_r in E3. subst e.
        apply Hc. exists (a ++ g)%string, EmptyString.
        now rewrite !StrFacts.app_assoc.
      * destruct D as [|d D]; [contradiction|].
        simpl in E4. injection E4 as <- _.
        assert (Hx : all_chars not_digit (e ++ String d e') = true)
          by (rewrite <- E3; reflexivity).
        rewrite StrFacts.all_chars_app in Hx.
        apply andb_true_iff in Hx as [_ Hx].
        apply first_char in Hx. apply first_char in Hdig.
        unfold not_digit in Hx. now rewrite Hdig in Hx.
  - (* the group covers [b] *)
    rewrite StrFacts.all_chars_app in Hgd.
    apply andb_true_iff in Hgd as [Hbd _].
    rewrite (ends_with_digit_app a b Hb) in He.
    now rewrite (digits_end_with_digit b Hb Hbd) in He.
Qed.

(** The search finds the run of digits in front of [ Nodes expanded],
    the whole of it. *)
Lemma search_nodes (pre D post : string) :
  PyStr.contains " Nodes expanded" pre = false ->
  ends_with_digit pre = false ->
  D <> EmptyString -> all_chars PyStr.isdigit D = true ->
  search nodes_re (pre ++ D ++ " Nodes expanded" ++ post) = Some D.
Proof.
  intros Hc He HD Hdig. rewrite ReInv.search_skip.
  - apply ReInv.search_here. unfold nodes_re.
    now apply ReInv.group_takes_run.
  - intros a b -> Hb. now apply (nodes_no_match_inside a).
Qed.

(** No match of [Plan length: (\d+)] begins in a text that does not
    contain [Plan length: ]. *)
Lemma length_no_match_inside (a b rest : string) :
  PyStr.contains "Plan length: " (a ++ b) = false ->
  b <> EmptyString ->
  match_here length_re (b ++ "Plan length: " ++ rest) = None.
Proof.
  intros Hc Hb.
  destruct (match_here length_re (b ++ "Plan length: " ++ rest))
    as [g|] eqn:E; [exfalso|reflexivity].
  apply StrFacts.contains_false in Hc.
  unfold length_re in E.
  destruct (ReInv.match_lits_inv _ _ _ _ E) as [s1 [Eq _]].
  destruct (StrFacts.app_eq_app _ _ _ _ Eq) as [e [[-> E2] | [E2 E3]]].
  - apply Hc. exists a, e. reflexivity.
  - destruct b as [|x b]; [contradiction|].
    simpl in E2. injection E2 as <- E2.
    destruct e as [|y e].
    + rewrite StrFacts.app_nil_r in E2. subst b.
      apply Hc. exists a, EmptyString. now rewrite StrFacts.app_nil_r.
    + simpl in E3. injection E3 as <- _.
      assert (Hx : all_chars not_P (b ++ String "P" e) = true)
        by (rewrite <- E2; reflexivity).
      rewrite StrFacts.all_chars_app in Hx.
      apply andb_true_iff in Hx as [_ Hx]. apply first_char in Hx.
      discriminate.
Qed.

Lemma search_length (pre D post : string) :
  PyStr.contains "Plan length: " pre = false ->
  D <> EmptyString -> all_chars PyStr.isdigit D = true ->
  no_digit_ahead post = true ->
  search length_re (pre ++ "Plan length: " ++ D ++ post) = Some D.
Proof.
  intros Hc HD Hdig Hpost. rewrite ReInv.search_skip.
  - apply ReInv.search_here. unfold length_re.
    rewrite ReFacts.match_lits_prefix.
    apply ReInv.group_takes_run; auto.
    apply ReInv.group_stops. destruct post as [|c post]; [exact I|].
    simpl in Hpost. now apply negb_true_iff.
  - intros a b -> Hb. now apply (length_no_match_inside a).
Qed.

End CountFacts.

(** X8.  When the planner completed, no later
    statement of the [try] block raises, and the output is some text that
    neither contains [ Nodes expanded] nor ends with a digit, then a run
    of digits, then [ Nodes expanded], the record has the number written
    by the whole run in [expanded_nodes]: other numbers in front of it,
    such as time stamps, are passed over. *)
Theorem node_count_is_read_whole (exec : Exec)
    (domain_file problem_file : string) (search heuristic : option string)
    (timeout : Z) (pre D post stderr : string) :
  let obs :=
    exec (command_line domain_file problem_file search heuristic) timeout in
  let r :=
    run_benchmark exec domain_file problem_file search heuristic timeout in
  obs_outcome obs
  = Completed (pre ++ D ++ " Nodes expanded" ++ post) stderr ->
  raised_after_run obs (pre ++ D ++ " Nodes expanded" ++ post) = None ->
  PyStr.contains " Nodes expanded" pre = false ->
  ends_with_digit pre = false ->
  D <> EmptyString -> all_chars PyStr.isdigit D = true ->
  dict_get r "expanded_nodes" = Some (VInt (PyStr.int D)).
Proof.
  intros obs r E Hrun Hc He HD Hdig.
  destruct (completed_metrics exec domain_file problem_file search
              heuristic timeout _ _ E Hrun) as [Hn _].
  fold r in Hn. now rewrite Hn, CountFacts.search_nodes.
Qed.

(** X9.  When the planner completed, no later
    statement of the [try] block raises, and the output is some text
    without [Plan length: ], then [Plan length: ], then a run of digits
    that ends there, the record has the number written by the whole run
    in [plan_length]. *)
Theorem plan_length_is_read_whole (exec : Exec)
    (domain_file problem_file : string) (search heuristic : option string)
    (timeout : Z) (pre D post stderr : string) :
  let obs :=
    exec (command_line domain_file problem_file search heuristic) timeout in
  let r :=
    run_benchmark exec domain_file problem_file search heuristic timeout in
  obs_outcome obs
  = Completed (pre ++ "Plan length: " ++ D ++ post) stderr ->
  raised_after_run obs (pre ++ "Plan length: " ++ D ++ post) = None ->
  PyStr.contains "Plan length: " pre = false ->
  D <> EmptyString -> all_chars PyStr.isdigit D = true ->
  no_digit_ahead post = true ->
  dict_get r "plan_length" = Some (VInt (PyStr.int D)).
Proof.
  intros obs r E Hrun Hc HD Hdig Hpost.
  destruct (completed_metrics exec domain_file problem_file search
              heuristic timeout _ _ E Hrun) as [_ [Hl _]].
  fold r in Hl. now rewrite Hl, CountFacts.search_length.
Qed.

Lemma node_count_is_read_whole_witness :
  let pre := "2024-05-01 10:00:01,123 INFO     Goal reached. Start extraction of solution.
2024-05-01 10:00:01,124 INFO     " in
  let post := "
2024-05-01 10:00:01,125 INFO     Plan length: 17
" in
  let obs := logging_planner 0
               (command_line "/bench/bw/domain.pddl" "/bench/bw/pb1.pddl"
                             (Some "astar") (Some "hmax")) 5%Z in
  let r := run_benchmark (logging_planner 0) "/bench/bw/domain.pddl"
             "/bench/bw/pb1.pddl" (Some "astar") (Some "hmax") 5 in
  obs_outcome obs
  = Completed (pre ++ "1042" ++ " Nodes expanded" ++ post) ""
  /\ raised_after_run obs (pre ++ "1042" ++ " Nodes expanded" ++ post) = None
  /\ PyStr.contains " Nodes expanded" pre = false
  /\ ends_with_digit pre = false
  /\ "1042" <> EmptyString /\ all_chars PyStr.isdigit "1042" = true
  /\ dict_get r "expanded_nodes" = Some (VInt 1042).
Proof.
  intros pre post obs r.
  assert (H1 : obs_outcome obs
               = Completed (pre ++ "1042" ++ " Nodes expanded" ++ post) "")
    by reflexivity.
  assert (H0 : raised_after_run obs
                 (pre ++ "1042" ++ " Nodes expanded" ++ post) = None)
    by reflexivity.
  assert (H2 : PyStr.contains " Nodes expanded" pre = false) by reflexivity.
  assert (H3 : ends_with_digit pre = false) by reflexivity.
  assert (H4 : "1042" <> EmptyString) by discriminate.
  assert (H5 : all_chars PyStr.isdigit "1042" = true) by reflexivity.
  repeat (split; [assumption|]).
  exact (node_count_is_read_whole (logging_planner 0) "/bench/bw/domain.pddl"
           "/bench/bw/pb1.pddl" (Some "astar") (Some "hmax") 5%Z
           pre "1042" post "" H1 H0 H2 H3 H4 H5).
Defined.

Lemma plan_length_is_read_whole_witness :
  let pre := "2024-05-01 10:00:01,123 INFO     Goal reached. Start extraction of solution.
2024-05-01 10:00:01,124 INFO     1042 Nodes expanded
2024-05-01 10:00:01,125 INFO     " in
  let post := "
" in
  let obs := logging_planner 0
               (command_line "/bench/bw/domain.pddl" "/bench/bw/pb1.pddl"
                             (Some "astar") (Some "hmax")) 5%Z in
  let r := run_benchmark (logging_planner 0) "/bench/bw/domain.pddl"
             "/bench/bw/pb1.pddl" (Some "astar") (Some "hmax") 5 in
  obs_outcome obs
  = Completed (pre ++ "Plan length: " ++ "17" ++ post) ""
  /\ raised_after_run obs (pre ++ "Plan length: " ++ "17" ++ post) = None
  /\ PyStr.contains "Plan length: " pre = false
  /\ "17" <> EmptyString /\ all_chars PyStr.isdigit "17" = true
  /\ no_digit_ahead post = true
  /\ dict_get r "plan_length" = Some (VInt 17).
Proof.
  intros pre post obs r.
  assert (H1 : obs_outcome obs
               = Completed (pre ++ "Plan length: " ++ "17" ++ post) "")
    by reflexivity.
  assert (H0 : raised_after_run obs
                 (pre ++ "Plan length: " ++ "17" ++ post) = None)
    by reflexivity.
  assert (H2 : PyStr.contains "Plan length: " pre = false) by reflexivity.
  assert (H3 : "17" <> EmptyString) by discriminate.
  assert (H4 : all_chars PyStr.isdigit "17" = true) by reflexivity.
  assert (H5 : no_digit_ahead post = true) by reflexivity.
  repeat (split; [assumption|]).
  exact (plan_length_is_read_whole (logging_planner 0) "/bench/bw/domain.pddl"
           "/bench/bw/pb1.pddl" (Some "astar") (Some "hmax") 5%Z
           pre "17" post "" H1 H0 H2 H3 H4 H5).
Defined.

(* ================================================================== *)
(** * Corpus Walker: the combinations that are run *)

Lemma record_labels (exec : Exec) (domain_file problem_file : string)
    (search heuristic : option string) (timeout : Z) :
  labels_of (run_benchmark exec domain_file problem_file search heuristic
                           timeout)
  = (Some (VStr (or_default search "breadth_first_search")),
     Some (VStr (or_default heuristic "None"))).
Proof.
  rewrite run_benchmark_eq. unfold labels_of.
  destruct (obs_outcome _) as [stdout stderr| |msg]; try reflexivity.
  destruct (raised_after_run _ stdout); reflexivity.
Qed.

Lemma fold_left_mapped (A B C : Type) (f : A -> B -> A) (g : C -> B)
    (l : list C) (a : A) :
  fold_left f (map g l) a = fold_left (fun a x => f a (g x)) l a.
Proof. revert a. induction l as [|x l IH]; simpl; auto. Qed.

Section Combinations.

Variable planner : nat -> Exec.
Variable args : Walker.config.
Variables domain_file problem_file : string.

Lemma run_combinations_as_pairs (st : Walker.state) :
  Walker.run_combinations planner args domain_file problem_file st
  = fold_left (run_pair planner args domain_file problem_file)
              (list_prod (Walker.searches args) (Walker.heuristics args)) st.
Proof.
  unfold Walker.run_combinations. revert st.
  induction (Walker.searches args) as [|s ss IH]; intros st; [reflexivity|].
  cbn [fold_left list_prod]. rewrite fold_left_app, fold_left_mapped, IH.
  reflexivity.
Qed.

Lemma run_pair_valid (st : Walker.state) (p : string * string) :
  valid_combination args (fst p) (snd p) = true ->
  Walker.results (run_pair planner args domain_file problem_file st p)
  = Walker.results st
    ++ [run_benchmark (planner (Walker.calls st)) domain_file problem_file
                      (Some (fst p)) (Some (snd p)) (Walker.timeout args)].
Proof.
  unfold valid_combination, run_pair, Walker.run_combination.
  intros H. destruct (Walker.test_invalid args); simpl in *.
  - reflexivity.
  - apply negb_true_iff in H. now rewrite H.
Qed.

Lemma run_pair_invalid (st : Walker.state) (p : string * string) :
  valid_combination args (fst p) (snd p) = false ->
  run_pair planner args domain_file problem_file st p = st.
Proof.
  unfold valid_combination, run_pair, Walker.run_combination.
  intros H. apply orb_false_iff in H as [H1 H2].
  apply negb_false_iff in H2. now rewrite H1, H2.
Qed.

Lemma fold_pairs (pairs : list (string * string)) (st : Walker.state) :
  exists recs,
    Walker.results
      (fold_left (run_pair planner args domain_file problem_file) pairs st)
    = Walker.results st ++ recs
    /\ map labels_of recs
       = map label_pair
             (filter (fun p => valid_combination args (fst p) (snd p)) pairs)
    /\ Forall (ran_with planner args domain_file problem_file) recs.
Proof.
  revert st. induction pairs as [|p pairs IH]; intros st.
  - exists []. simpl. now rewrite app_nil_r.
  - cbn [fold_left filter].
    destruct (valid_combination args (fst p) (snd p)) eqn:E.
    + destruct (IH (run_pair planner args domain_file problem_file st p))
        as [recs [Hres [Hlab Hran]]].
      rewrite (run_pair_valid st p E) in Hres.
      eexists (_ :: recs). split; [|split].
      * rewrite Hres, <- app_assoc. reflexivity.
      * cbn [map]. rewrite Hlab, record_labels. reflexivity.
      * constructor; [|exact Hran].
        exists (Walker.calls st), (fst p), (snd p). auto.
    + rewrite (run_pair_invalid st p E). apply IH.
Qed.

End Combinations.

Lemma combinations_in_order_aux (planner : nat -> Exec)
    (args : Walker.config) (domain_file problem_file : string)
    (st : Walker.state) :
  exists recs,
    Walker.results
      (Walker.run_combinations planner args domain_file problem_file st)
    = Walker.results st ++ recs
    /\ map labels_of recs = map label_pair (combinations args)
    /\ Forall (ran_with planner args domain_file problem_file) recs.
Proof.
  rewrite run_combinations_as_pairs. apply fold_pairs.
Qed.

(** X10.  For a resolved problem the loops over
    the searches and the heuristics append one record per valid
    combination, in the order search after search and, within a search,
    heuristic after heuristic; nothing is appended for [blind] with a
    search other than [astar] unless [--test-invalid] is given, and the
    records collected before are left as they were. *)
Theorem combinations_run_in_order (planner : nat -> Exec)
    (args : Walker.config) (domain_file problem_file : string)
    (st : Walker.state) :
  exists recs,
    Walker.results
      (Walker.run_combinations planner args domain_file problem_file st)
    = Walker.results st ++ recs
    /\ map labels_of recs = map label_pair (combinations args)
    /\ Forall (ran_with planner args domain_file problem_file) recs.
Proof. apply combinations_in_order_aux. Qed.

Lemma combinations_count (planner : nat -> Exec) (args : Walker.config)
    (domain_file problem_file : string) (st : Walker.state) :
  List.length
    (Walker.results
       (Walker.run_combinations planner args domain_file problem_file st))
  = (List.length (Walker.results st) + List.length (combinations args))%nat.
Proof.
  destruct (combinations_in_order_aux planner args domain_file problem_file st)
    as [recs [-> [Hlab _]]].
  rewrite length_app. f_equal.
  rewrite <- (length_map labels_of), Hlab. apply length_map.
Qed.

(* ================================================================== *)
(** * Corpus Walker: what a walk collects *)

Section WalkCollects.

Variable fs : FileSystem.
Variable planner : nat -> Exec.
Variable args : Walker.config.

Lemma debug_block_results (problem_file : string) (st st' : Walker.state) :
  Walker.debug_block fs args problem_file st = Return st' ->
  Walker.results st' = Walker.results st.
Proof.
  unfold Walker.debug_block. destruct (Walker.debug args).
  - destruct (fs_read fs problem_file) as [content|]; [|discriminate].
    destruct (Re.search Re.domain_re content); intros H; injection H as <-;
      reflexivity.
  - intros H. now injection H as <-.
Qed.

(** One problem adds nothing, or the records of its combinations. *)
Lemma process_problem_adds (st st' : Walker.state) (problem_file : string) :
  Walker.process_problem fs planner args st problem_file = Return st' ->
  exists recs,
    Walker.results st' = Walker.results st ++ recs
    /\ (List.length recs <= List.length (combinations args))%nat
    /\ Forall (ran planner args) recs.
Proof.
  unfold Walker.process_problem.
  destruct (negb (truthy_opt _)).
  - destruct (opt_eqb _ _); [discriminate|].
    intros H. injection H as <-. exists []. simpl.
    rewrite app_nil_r. repeat split; [lia | constructor].
  - match goal with
    | |- bind (Walker.debug_block _ _ _ ?s) _ = _ -> _ =>
        destruct (Walker.debug_block fs args problem_file s) as [st1|e] eqn:E
    end; [|discriminate].
    cbn [bind]. intros H. injection H as <-.
    apply debug_block_results in E. cbn [Walker.print Walker.results] in E.
    match goal with
    | |- context [Walker.run_combinations _ _ ?df _ _] =>
        destruct (combinations_in_order_aux planner args df problem_file st1)
          as [recs [Hres [Hlab Hran]]]; exists recs
    end.
    split; [now rewrite Hres, E|]. split.
    + rewrite <- (length_map labels_of), Hlab, length_map. lia.
    + eapply Forall_impl; [|exact Hran]. intros r Hr.
      unfold ran. eauto.
Qed.

Lemma process_problems_adds (problem_files : list string)
    (st st' : Walker.state) :
  Walker.process_problems fs planner args st problem_files = Return st' ->
  exists recs,
    Walker.results st' = Walker.results st ++ recs
    /\ (List.length recs
        <= List.length problem_files * List.length (combinations args))%nat
    /\ Forall (ran planner args) recs.
Proof.
  revert st. induction problem_files as [|p rest IH]; intros st; simpl.
  - intros H. injection H as <-. exists []. rewrite app_nil_r.
    repeat split; [simpl; lia | constructor].
  - destruct (Walker.process_problem fs planner args st p) as [st1|e] eqn:E;
      [|discriminate].
    cbn [bind]. intros H.
    destruct (process_problem_adds _ _ _ E) as [r1 [H1 [L1 F1]]].
    destruct (IH _ H) as [r2 [H2 [L2 F2]]].
    exists (r1 ++ r2). split; [|split].
    + now rewrite H2, H1, app_assoc.
    + rewrite length_app. lia.
    + apply Forall_app. auto.
Qed.

Lemma slice_to_length (A : Type) (n : Z) (l : list A) :
  (0 <= n)%Z -> (List.length (Walker.slice_to n l) <= Z.to_nat n)%nat.
Proof.
  intros H. unfold Walker.slice_to.
  destruct (Z.leb_spec 0 n); [apply firstn_le_length | lia].
Qed.

Lemma process_domain_dir_adds (st st' : Walker.state) (domain_dir : string) :
  Walker.process_domain_dir fs planner args st domain_dir = Return st' ->
  exists recs,
    Walker.results st' = Walker.results st ++ recs
    /\ ((0 <= Walker.max_problems args)%Z ->
        (List.length recs
         <= Z.to_nat (Walker.max_problems args)
            * List.length (combinations args))%nat)
    /\ Forall (ran planner args) recs.
Proof.
  unfold Walker.process_domain_dir.
  destruct (find_problem_files fs domain_dir) as [|p l].
  - intros H. injection H as <-. exists []. simpl. rewrite app_nil_r.
    repeat split; [lia | constructor].
  - destruct (Walker.sort_problem_files (p :: l)) as [sorted|e];
      [|discriminate].
    cbn [bind]. intros H.
    destruct (process_problems_adds _ _ _ H) as [recs [Hres [Hlen Hran]]].
    exists recs. cbn [Walker.print Walker.set_domain_name Walker.results]
      in Hres.
    split; [exact Hres|]. split; [|exact Hran]. intros Hmax.
    pose proof (slice_to_length _ (Walker.max_problems args) sorted Hmax).
    nia.
Qed.

Lemma walk_from_adds (domain_dirs : list string) (st st' : Walker.state) :
  Walker.walk_from fs planner args st domain_dirs = Return st' ->
  exists recs,
    Walker.results st' = Walker.results st ++ recs
    /\ ((0 <= Walker.max_problems args)%Z ->
        (List.length recs
         <= List.length domain_dirs
            * (Z.to_nat (Walker.max_problems args)
               * List.length (combinations args)))%nat)
    /\ Forall (ran planner args) recs.
Proof.
  revert st.
  induction domain_dirs as [|d rest IH]; intros st; simpl.
  - intros H. injection H as <-. exists []. rewrite app_nil_r.
    repeat split; [simpl; lia | constructor].
  - destruct (Walker.process_domain_dir fs planner args st d) as [st1|e] eqn:E;
      [|discriminate].
    cbn [bind]. intros H.
    destruct (process_domain_dir_adds _ _ _ E) as [r1 [H1 [L1 F1]]].
    destruct (IH _ H) as [r2 [H2 [L2 F2]]].
    exists (r1 ++ r2). split; [|split].
    + now rewrite H2, H1, app_assoc.
    + intros Hmax. specialize (L1 Hmax). specialize (L2 Hmax).
      rewrite length_app. lia.
    + apply Forall_app. auto.
Qed.

(** The state [main] returns holds the records of the walk over the
    chosen directories, or none when the argument is no directory. *)
Lemma main_returns (st : Walker.state) (written : option Csv.file) :
  Walker.main fs planner args = Return (st, written) ->
  Walker.results st = []
  \/ Walker.walk fs planner args
       (Walker.domain_dirs_of fs args (Walker.benchmark_dir args))
     = Return st.
Proof.
  unfold Walker.main, Walker.walk_and_write.
  destruct (fs_isdir fs (Walker.benchmark_dir args)).
  - destruct (Walker.walk fs planner args _) as [st1|e]; [|discriminate].
    cbn [bind].
    destruct (Csv.write_results (Walker.results st1)) as [[f [e|]]|];
      try discriminate; intros H; injection H as <- _; now right.
  - intros H. injection H as <- _. now left.
Qed.

End WalkCollects.


Lemma combinations_length (args : Walker.config) :
  (List.length (combinations args)
   <= List.length (Walker.searches args)
      * List.length (Walker.heuristics args))%nat.
Proof.
  unfold combinations. rewrite <- length_prod. apply filter_length_le.
Qed.

(** X11.  With a [--max-problems] that is
    not negative, a run of [main] that comes to its end has collected at
    most (number of domain directories) x (max problems) x (number of
    searches) x (number of heuristics) records. *)
Theorem results_capped_by_max_problems (fs : FileSystem)
    (planner : nat -> Exec) (args : Walker.config) (st : Walker.state)
    (written : option Csv.file) :
  (0 <= Walker.max_problems args)%Z ->
  Walker.main fs planner args = Return (st, written) ->
  (List.length (Walker.results st)
   <= List.length (Walker.domain_dirs_of fs args (Walker.benchmark_dir args))
      * (Z.to_nat (Walker.max_problems args)
         * (List.length (Walker.searches args)
            * List.length (Walker.heuristics args))))%nat.
Proof.
  intros Hmax Hmain.
  destruct (main_returns fs planner args st written Hmain) as [H|H].
  - rewrite H. apply Nat.le_0_l.
  - destruct (walk_from_adds fs planner args _ _ _ H) as [recs [Hres [Hlen _]]].
    cbn in Hres. rewrite Hres. specialize (Hlen Hmax).
    etransitivity; [exact Hlen|].
    apply Nat.mul_le_mono_l, Nat.mul_le_mono_l, combinations_length.
Qed.

Lemma results_capped_by_max_problems_witness :
  exists st written,
    (0 <= Walker.max_problems default_args)%Z
    /\ Walker.main (Disk.fs numbered_disk) quick_planner default_args
       = Return (st, written)
    /\ (List.length (Walker.results st)
        <= List.length (Walker.domain_dirs_of (Disk.fs numbered_disk)
                          default_args (Walker.benchmark_dir default_args))
           * (Z.to_nat (Walker.max_problems default_args)
              * (List.length (Walker.searches default_args)
                 * List.length (Walker.heuristics default_args))))%nat.
Proof.
  assert (Hmax : (0 <= Walker.max_problems default_args)%Z)
    by (vm_compute; discriminate).
  destruct (Walker.main (Disk.fs numbered_disk) quick_planner default_args)
    as [[st written]|e] eqn:E; [|vm_compute in E; discriminate].
  exists st, written. split; [exact Hmax|]. split; [reflexivity|].
  exact (results_capped_by_max_problems (Disk.fs numbered_disk) quick_planner
           default_args st written Hmax E).
Defined.

Lemma ran_blind_with_astar (planner : nat -> Exec) (args : Walker.config)
    (r : pydict) :
  Walker.test_invalid args = false -> ran planner args r ->
  blind_with_astar r.
Proof.
  intros Ht (df & pf & n & s & h & Hv & ->). unfold blind_with_astar.
  pose proof (record_labels (planner n) df pf (Some s) (Some h)
                (Walker.timeout args)) as Hl.
  unfold labels_of in Hl. injection Hl as Hs Hh. rewrite Hs, Hh.
  unfold valid_combination in Hv. rewrite Ht in Hv. cbn [orb] in Hv.
  apply negb_true_iff in Hv. intros Hb. injection Hb as Hb.
  assert (Eh : h = "blind").
  { unfold or_default in Hb. destruct (PyStr.truthy h); [exact Hb|].
    discriminate. }
  subst h. cbn in Hv. apply negb_false_iff in Hv.
  apply String.eqb_eq in Hv. subst s. reflexivity.
Qed.

(** X12.  Without [--test-invalid], no record that
    [main] collects has the heuristic [blind] with a search other than
    [astar]. *)
Theorem blind_only_with_astar (fs : FileSystem) (planner : nat -> Exec)
    (args : Walker.config) (st : Walker.state)
    (written : option Csv.file) :
  Walker.test_invalid args = false ->
  Walker.main fs planner args = Return (st, written) ->
  Forall blind_with_astar (Walker.results st).
Proof.
  intros Ht Hmain.
  destruct (main_returns fs planner args st written Hmain) as [H|H].
  - rewrite H. constructor.
  - destruct (walk_from_adds fs planner args _ _ _ H) as [recs [Hres [_ Hran]]].
    cbn in Hres. rewrite Hres.
    eapply Forall_impl; [|exact Hran].
    intros r. now apply ran_blind_with_astar.
Qed.

Lemma blind_only_with_astar_witness :
  exists st written,
    Walker.test_invalid default_args = false
    /\ Walker.main (Disk.fs numbered_disk) quick_planner default_args
       = Return (st, written)
    /\ Forall blind_with_astar (Walker.results st).
Proof.
  destruct (Walker.main (Disk.fs numbered_disk) quick_planner default_args)
    as [[st written]|e] eqn:E; [|vm_compute in E; discriminate].
  exists st, written. split; [reflexivity|]. split; [reflexivity|].
  exact (blind_only_with_astar (Disk.fs numbered_disk) quick_planner
           default_args st written eq_refl E).
Defined.

(** X13.  A run of problems none of which
    resolves to a domain file, and none of which declares [blocksworld],
    is passed over: no record is added, the planner is not invoked, and
    the console gets the two diagnostic lines of each problem, in
    order. *)
Theorem unresolved_problems_add_nothing (fs : FileSystem)
    (planner : nat -> Exec) (args : Walker.config)
    (problem_files : list string) (st : Walker.state) :
  Forall (fun p => find_domain_file_for_problem fs p = None
                   /\ read_domain_name_from_file fs p <> Some "blocksworld")
         problem_files ->
  exists st',
    Walker.process_problems fs planner args st problem_files = Return st'
    /\ Walker.results st' = Walker.results st
    /\ Walker.calls st' = Walker.calls st
    /\ Walker.console st'
       = Walker.console st ++ flat_map (diagnostic fs) problem_files.
Proof.
  intros H. revert st. induction H as [|p l [Hf Hn] _ IH]; intros st.
  - exists st. simpl. now rewrite app_nil_r.
  - cbn [Walker.process_problems].
    rewrite (process_problem_skips fs planner args st p Hf Hn).
    cbn [bind]. destruct (IH {|
        Walker.results := Walker.results st;
        Walker.domain_name := read_domain_name_from_file fs p;
        Walker.console :=
          Walker.console st
          ++ [Walker.EvNoDomainFile (PosixPath.basename p)]
          ++ [Walker.EvRequiresDomain (read_domain_name_from_file fs p)];
        Walker.calls := Walker.calls st |}) as [st' [-> [Hr [Hc Hcon]]]].
    exists st'. split; [reflexivity|]. split; [exact Hr|].
    split; [exact Hc|]. rewrite Hcon. cbn [Walker.console flat_map].
    unfold diagnostic at 2. now rewrite <- !app_assoc.
Qed.

Lemma unresolved_problems_add_nothing_witness :
  let fs := Disk.fs lone_other_disk in
  Forall (fun p => find_domain_file_for_problem fs p = None
                   /\ read_domain_name_from_file fs p <> Some "blocksworld")
         ["/bench/bw/pb1.pddl"]
  /\ exists st',
       Walker.process_problems fs quick_planner default_args Walker.init
         ["/bench/bw/pb1.pddl"] = Return st'
       /\ Walker.results st' = Walker.results Walker.init
       /\ Walker.calls st' = Walker.calls Walker.init
       /\ Walker.console st'
          = Walker.console Walker.init
            ++ flat_map (diagnostic fs) ["/bench/bw/pb1.pddl"].
Proof.
  intros fs.
  assert (H : Forall (fun p => find_domain_file_for_problem fs p = None
                     /\ read_domain_name_from_file fs p <> Some "blocksworld")
                ["/bench/bw/pb1.pddl"]).
  { constructor; [|constructor]. split; [reflexivity|].
    vm_compute. discriminate. }
  split; [exact H|].
  exact (unresolved_problems_add_nothing fs quick_planner default_args
           ["/bench/bw/pb1.pddl"] Walker.init H).
Defined.

(* ================================================================== *)
(** * Corpus Walker: sort keys and the order of the problems *)

Module KeyFacts.
Import Re.

Lemma findall_no_digit (s : string) (skip : nat) :
  all_chars not_digit s = true -> findall_from digits_re skip s = [].
Proof.
  revert skip. induction s as [|c s IH]; intros skip; [reflexivity|].
  cbn [all_chars]. intros H. apply andb_true_iff in H as [Hc H].
  cbn [findall_from]. destruct skip as [|k]; [|now apply IH].
  unfold digits_re. rewrite ReInv.group_stops; [now apply IH|].
  unfold not_digit in Hc. now apply negb_true_iff.
Qed.

(** The first element of [findall] is the first run of digits. *)
Lemma findall_first_run (pre D post : string) :
  all_chars not_digit pre = true ->
  D <> EmptyString -> all_chars PyStr.isdigit D = true ->
  no_digit_ahead post = true ->
  exists rest, findall digits_re (pre ++ D ++ post) = D :: rest.
Proof.
  intros Hpre HD Hdig Hpost. unfold findall.
  induction pre as [|c pre IH].
  - destruct D as [|d D]; [contradiction|].
    change (("" ++ String d D ++ post)%string)
      with (String d (D ++ post)).
    cbn [findall_from].
    change (String d (D ++ post)) with ((String d D ++ post)%string).
    unfold digits_re. rewrite ReInv.group_takes_run; eauto.
    apply ReInv.group_stops. destruct post as [|x post]; [exact I|].
    simpl in Hpost. now apply negb_true_iff.
  - cbn [all_chars] in Hpre. apply andb_true_iff in Hpre as [Hc Hpre].
    change ((String c pre ++ D ++ post)%string)
      with (String c (pre ++ D ++ post)).
    cbn [findall_from]. unfold digits_re at 1.
    rewrite ReInv.group_stops; [now apply IH|].
    unfold not_digit in Hc. now apply negb_true_iff.
Qed.

End KeyFacts.

(** X14.  The sort key of a problem file depends on its
    name only, not on its directory.  For a name without a slash: when
    the name is some text without digits, then a run of digits that ends
    there, the key is the number the run writes; when the name has no
    digit at all, the key is the name itself. *)
Theorem sort_key_of_a_name (dir name : string) :
  all_chars not_slash name = true ->
  (forall pre D post,
      name = (pre ++ D ++ post)%string ->
      all_chars not_digit pre = true ->
      D <> EmptyString -> all_chars PyStr.isdigit D = true ->
      no_digit_ahead post = true ->
      Walker.problem_sort_key (PosixPath.join dir name)
      = Walker.KInt (PyStr.int D))
  /\ (all_chars not_digit name = true ->
      Walker.problem_sort_key (PosixPath.join dir name) = Walker.KStr name).
Proof.
  intros Hs. unfold Walker.problem_sort_key.
  rewrite (PathFacts.basename_join dir name Hs). split.
  - intros pre D post -> Hpre HD Hdig Hpost.
    destruct (KeyFacts.findall_first_run pre D post Hpre HD Hdig Hpost)
      as [rest ->].
    reflexivity.
  - intros Hn. unfold Re.findall.
    now rewrite (KeyFacts.findall_no_digit name 0 Hn).
Qed.

Lemma sort_key_of_a_name_witness :
  all_chars not_slash "pb010-v2.pddl" = true
  /\ Walker.problem_sort_key (PosixPath.join "/bench/set3" "pb010-v2.pddl")
     = Walker.KInt 10
  /\ Walker.problem_sort_key (PosixPath.join "/bench/set3" "prob.pddl")
     = Walker.KStr "prob.pddl".
Proof.
  assert (H : all_chars not_slash "pb010-v2.pddl" = true) by reflexivity.
  split; [exact H|]. split.
  - destruct (sort_key_of_a_name "/bench/set3" "pb010-v2.pddl" H) as [Hk _].
    exact (Hk "pb" "010" "-v2.pddl" eq_refl eq_refl
              ltac:(discriminate) eq_refl eq_refl).
  - destruct (sort_key_of_a_name "/bench/set3" "prob.pddl" eq_refl)
      as [_ Hk].
    exact (Hk eq_refl).
Defined.

(** X15.  When every problem file of a
    directory has a number in its name, or none has, the sort succeeds:
    it returns the same files, rearranged so that no file has a key
    smaller than the key of the file in front of it. *)
Theorem same_kind_names_are_sorted (b : bool) (problem_files : list string) :
  Forall (fun p => key_is_int (Walker.problem_sort_key p) = b) problem_files ->
  exists sorted,
    Walker.sort_problem_files problem_files = Return sorted
    /\ Permutation problem_files sorted
    /\ Sorted key_le (map with_key sorted).
Proof. apply sort_problem_files_same_kind. Qed.

Lemma same_kind_names_are_sorted_witness :
  let files := ["/bench/bw/pb2.pddl"; "/bench/bw/pb10.pddl";
                "/bench/bw/pb1.pddl"] in
  Forall (fun p => key_is_int (Walker.problem_sort_key p) = true) files
  /\ exists sorted,
       Walker.sort_problem_files files = Return sorted
       /\ Permutation files sorted
       /\ Sorted key_le (map with_key sorted).
Proof.
  intros files.
  assert (H : Forall (fun p => key_is_int (Walker.problem_sort_key p) = true)
                     files)
    by (repeat constructor).
  split; [exact H|].
  exact (same_kind_names_are_sorted true files H).
Defined.

(** X16.  When one problem file of a directory has a
    number in its name and another has none, sorting them raises
    [TypeError], whatever else the directory holds and in whatever
    order. *)
Theorem mixed_names_raise (problem_files : list string) (a b : string) :
  In a problem_files -> In b problem_files ->
  key_is_int (Walker.problem_sort_key a) = true ->
  key_is_int (Walker.problem_sort_key b) = false ->
  Walker.sort_problem_files problem_files = Raise TypeError.
Proof. apply sort_problem_files_mixed. Qed.

Lemma mixed_names_raise_witness :
  let files := ["/bench/bw/readme.pddl"; "/bench/bw/pb2.pddl";
                "/bench/bw/pb1.pddl"] in
  In "/bench/bw/pb1.pddl" files /\ In "/bench/bw/readme.pddl" files
  /\ key_is_int (Walker.problem_sort_key "/bench/bw/pb1.pddl") = true
  /\ key_is_int (Walker.problem_sort_key "/bench/bw/readme.pddl") = false
  /\ Walker.sort_problem_files files = Raise TypeError.
Proof.
  intros files.
  assert (H1 : In "/bench/bw/pb1.pddl" files) by (simpl; auto).
  assert (H2 : In "/bench/bw/readme.pddl" files) by (simpl; auto).
  assert (H3 : key_is_int (Walker.problem_sort_key "/bench/bw/pb1.pddl")
               = true) by reflexivity.
  assert (H4 : key_is_int (Walker.problem_sort_key "/bench/bw/readme.pddl")
               = false) by reflexivity.
  repeat (split; [assumption|]).
  exact (mixed_names_raise files "/bench/bw/pb1.pddl"
           "/bench/bw/readme.pddl" H1 H2 H3 H4).
Defined.

(* ================================================================== *)
(** * Corpus Walker: files with the same number keep their order *)

Module StableFacts.
Import Walker.

Lemma filter_map_swap (A B : Type) (f : B -> bool) (g : A -> B)
    (l : list A) :
  filter f (map g l) = map g (filter (fun x => f (g x)) l).
Proof.
  induction l as [|x l IH]; simpl; [reflexivity|].
  destruct (f (g x)); simpl; now rewrite IH.
Qed.

Lemma filter_ext_Forall (A : Type) (f g : A -> bool) (l : list A) :
  Forall (fun x => f x = g x) l -> filter f l = filter g l.
Proof.
  induction 1 as [|x l Hx _ IH]; simpl; [reflexivity|].
  now rewrite Hx, IH.
Qed.

Lemma filter_head (A : Type) (f : A -> bool) (x : A) (l : list A) :
  filter f (x :: l) = filter f [x] ++ filter f l.
Proof. simpl. destruct (f x); reflexivity. Qed.

(** In a sorted list of numbers no key is below the first. *)
Lemma sorted_lower_bound (y : sort_key * string)
    (ys : list (sort_key * string)) (b : Z) :
  kind true (y :: ys) -> Sorted key_le (y :: ys) -> fst y = KInt b ->
  Forall (fun z => exists c, fst z = KInt c /\ (b <= c)%Z) (y :: ys).
Proof.
  revert y b. induction ys as [|y' ys IH]; intros y b Hk Hs Hy.
  - constructor; [|constructor]. exists b. split; [exact Hy | lia].
  - inversion Hk as [|? ? _ Hk']; subst.
    inversion Hs as [|? ? Hs' Hhd]; subst.
    inversion Hhd as [|? ? Hle]; subst.
    inversion Hk' as [|? ? Hy' _]; subst.
    destruct (fst y') as [b'|] eqn:E; [|discriminate].
    unfold key_le in Hle. rewrite E, Hy in Hle. simpl in Hle.
    injection Hle as Hle. apply Z.ltb_ge in Hle.
    constructor; [exists b; split; [exact Hy | lia]|].
    eapply Forall_impl; [|exact (IH y' b' Hk' Hs' E)].
    intros z [c [Hz Hc]]. exists c. split; [exact Hz | lia].
Qed.

Lemma insert_stable (n : Z) (x : sort_key * string)
    (sorted s : list (sort_key * string)) :
  key_is_int (fst x) = true -> kind true sorted -> Sorted key_le sorted ->
  insert_by x sorted = Return s ->
  filter (key_has_number n) s
  = filter (key_has_number n) sorted ++ filter (key_has_number n) [x].
Proof.
  intros Hx. revert s. induction sorted as [|y ys IH]; intros s Hk Hs.
  - simpl. intros H. now injection H as <-.
  - inversion Hk as [|? ? Hy Hk']; subst.
    inversion Hs as [|? ? Hs' Hhd]; subst.
    destruct (fst x) as [a|] eqn:Ex; [|discriminate].
    destruct (fst y) as [b|] eqn:Ey; [|discriminate].
    cbn [insert_by]. rewrite Ex, Ey. cbn [key_lt bind].
    destruct (Z.ltb_spec a b) as [Hab|Hab].
    + intros H. injection H as <-.
      rewrite (filter_head _ (key_has_number n) x (y :: ys)).
      destruct (key_has_number n x) eqn:Hxn.
      * assert (E : filter (key_has_number n) (y :: ys) = []).
        { unfold key_has_number in Hxn. rewrite Ex in Hxn.
          apply Z.eqb_eq in Hxn. subst a.
          pose proof (sorted_lower_bound y ys b Hk Hs Ey) as Hlow.
          clear - Hlow Hab. induction Hlow as [|z l [c [Hz Hc]] _ IHl];
            [reflexivity|].
          cbn [filter]. unfold key_has_number at 1. rewrite Hz.
          destruct (Z.eqb_spec c n); [lia | exact IHl]. }
        rewrite E. cbn [filter]. rewrite Hxn. reflexivity.
      * cbn [filter]. rewrite Hxn. cbn [app]. now rewrite app_nil_r.
    + destruct (insert_by x ys) as [s'|e] eqn:Ei; [|discriminate].
      cbn [bind]. intros H. injection H as <-.
      cbn [filter]. rewrite (IH s' Hk' Hs' eq_refl).
      destruct (key_has_number n y); reflexivity.
Qed.

Lemma sort_from_stable (n : Z) (todo sorted s : list (sort_key * string)) :
  kind true sorted -> Sorted key_le sorted -> kind true todo ->
  sort_from sorted todo = Return s ->
  filter (key_has_number n) s
  = filter (key_has_number n) sorted ++ filter (key_has_number n) todo.
Proof.
  revert sorted. induction todo as [|x rest IH]; intros sorted Hk Hs Ht.
  - simpl. intros H. injection H as <-. now rewrite app_nil_r.
  - inversion Ht as [|? ? Hx Hrest]; subst. cbn [sort_from].
    destruct (SortFacts.insert_by_same_kind true x sorted Hx Hk Hs)
      as [s1 [E1 [Hk1 [_ [Hs1 _]]]]].
    rewrite E1. cbn [bind]. intros H.
    rewrite (IH s1 Hk1 Hs1 Hrest H), (insert_stable n x sorted s1 Hx Hk Hs E1).
    rewrite <- app_assoc. now rewrite <- filter_head.
Qed.

End StableFacts.

(** X17.  When every problem file has a
    number in its name, the files that share a number come out of the
    sort in the order in which the directory listing gave them. *)
Theorem equal_numbers_keep_their_order (problem_files sorted : list string)
    (n : Z) :
  Forall (fun p => key_is_int (Walker.problem_sort_key p) = true)
         problem_files ->
  Walker.sort_problem_files problem_files = Return sorted ->
  filter (has_number n) sorted = filter (has_number n) problem_files.
Proof.
  intros Hk. unfold Walker.sort_problem_files.
  destruct (Walker.sort_from [] _) as [s|e] eqn:E; [|discriminate].
  cbn [bind]. intros H. injection H as <-.
  assert (Hkind : kind true
            (map (fun p => (Walker.problem_sort_key p, p)) problem_files)).
  { unfold kind. rewrite Forall_map. exact Hk. }
  pose proof (StableFacts.sort_from_stable n _ [] s
                (Forall_nil _) (Sorted_nil _) Hkind E) as Hst.
  destruct (SortFacts.sort_from_same_kind true _ []
              (Forall_nil _) (Sorted_nil _) Hkind) as [s' [E' [Hp _]]].
  rewrite E in E'. injection E' as <-.
  assert (HF : Forall (fun q => has_number n (snd q) = key_has_number n q) s).
  { eapply Permutation_Forall; [exact Hp|]. cbn [app].
    rewrite Forall_map. apply Forall_forall. reflexivity. }
  rewrite StableFacts.filter_map_swap,
    (StableFacts.filter_ext_Forall _ _ _ _ HF), Hst.
  cbn [filter app]. rewrite StableFacts.filter_map_swap, map_map.
  cbn [snd]. now rewrite map_id.
Qed.

Lemma equal_numbers_keep_their_order_witness :
  let files := ["/bench/bw/pb2.pddl"; "/bench/bw/pb01.pddl";
                "/bench/bw/pb1.pddl"; "/bench/bw/p1-b.pddl"] in
  let sorted := ["/bench/bw/pb01.pddl"; "/bench/bw/pb1.pddl";
                 "/bench/bw/p1-b.pddl"; "/bench/bw/pb2.pddl"] in
  Forall (fun p => key_is_int (Walker.problem_sort_key p) = true) files
  /\ Walker.sort_problem_files files = Return sorted
  /\ filter (has_number 1) sorted = filter (has_number 1) files.
Proof.
  intros files sorted.
  assert (H1 : Forall (fun p => key_is_int (Walker.problem_sort_key p) = true)
                      files) by (repeat constructor).
  assert (H2 : Walker.sort_problem_files files = Return sorted)
    by reflexivity.
  split; [exact H1|]. split; [exact H2|].
  exact (equal_numbers_keep_their_order files sorted 1%Z H1 H2).
Defined.

(* ================================================================== *)
(** * Corpus Walker: the choice of the domain directories *)

(** X18.  When the benchmark directory holds a
    [.pddl] file itself, it is the only domain directory, whatever
    [--domains] says.  Otherwise the domain directories are exactly the
    entries of the benchmark directory that are directories, whose name
    does not begin with a dot and, when [--domains] is given, whose name
    contains one of the given names, capitals and small letters being
    the same. *)
Theorem domain_directories_chosen (fs : FileSystem) (args : Walker.config)
    (dir : string) :
  (Walker.has_pddl_file fs dir = true ->
   Walker.domain_dirs_of fs args dir = [dir])
  /\ (Walker.has_pddl_file fs dir = false ->
      forall d,
        In d (Walker.domain_dirs_of fs args dir)
        <-> exists name,
              d = PosixPath.join dir name
              /\ In name (fs_listdir fs dir)
              /\ fs_isdir fs d = true
              /\ PyStr.startswith "." name = false
              /\ (Walker.domains args = []
                  \/ exists domain,
                       In domain (Walker.domains args)
                       /\ occurs_in (PyStr.lower domain)
                            (PyStr.lower (PosixPath.basename d)))).
Proof.
  unfold Walker.domain_dirs_of. split; intros H; rewrite H; [reflexivity|].
  intros d.
  assert (Hbase : In d (map (PosixPath.join dir)
                    (filter (fun d0 => fs_isdir fs (PosixPath.join dir d0)
                                       && negb (PyStr.startswith "." d0))
                            (fs_listdir fs dir)))
                  <-> exists name,
                        d = PosixPath.join dir name
                        /\ In name (fs_listdir fs dir)
                        /\ fs_isdir fs d = true
                        /\ PyStr.startswith "." name = false).
  { rewrite in_map_iff. split.
    - intros [name [<- Hin]]. apply filter_In in Hin as [Hin Hc].
      apply andb_true_iff in Hc as [Hd Hh]. apply negb_true_iff in Hh.
      exists name. auto.
    - intros [name [-> [Hin [Hd Hh]]]]. exists name. split; [reflexivity|].
      apply filter_In. split; [exact Hin|]. now rewrite Hd, Hh. }
  destruct (Walker.domains args) as [|dom doms] eqn:Ed.
  - rewrite Hbase. split.
    + intros [name [H1 [H2 [H3 H4]]]]. exists name. auto 6.
    + intros [name [H1 [H2 [H3 [H4 _]]]]]. exists name. auto.
  - rewrite filter_In, Hbase. unfold Walker.matches_filter.
    rewrite Ed, existsb_exists. split.
    + intros [[name [H1 [H2 [H3 H4]]]] [domain [Hin Hc]]].
      exists name. repeat (split; [assumption|]). right.
      exists domain. split; [exact Hin | now apply contains_iff].
    + intros [name [H1 [H2 [H3 [H4 [Hn | [domain [Hin Hc]]]]]]]];
        [discriminate|].
      split; [exists name; auto|].
      exists domain. split; [exact Hin | now apply contains_iff].
Qed.

(** The filter at work: the hidden directory and the plain file are left
    out, and [GRIP] selects [Gripper]. *)
Example domain_directories_sample :
  Walker.domain_dirs_of (Disk.fs tree_disk) default_args "/bench"
  = ["/bench/Gripper"; "/bench/bw"]
  /\ Walker.domain_dirs_of (Disk.fs tree_disk) filtered_args "/bench"
     = ["/bench/Gripper"]
  /\ Walker.domain_dirs_of (Disk.fs tree_disk) filtered_args "/bench/bw"
     = ["/bench/bw"].
Proof. repeat split; reflexivity. Qed.

(* ================================================================== *)
(** * Result Sink: the rows are the records *)

Lemma cell_other (k k' : string) (v : pyval) (r : pydict) :
  k <> k' -> Csv.cell ((k, v) :: r) k' = Csv.cell r k'.
Proof.
  intros H. unfold Csv.cell. cbn [dict_get].
  apply String.eqb_neq in H. now rewrite H.
Qed.

(** Under its own keys a record gives the row of its values. *)
Lemma row_of_own_keys (r : pydict) :
  NoDup (keys r) -> row_of (keys r) r = map snd r.
Proof.
  unfold row_of, keys. induction r as [|[k v] r IH]; [reflexivity|].
  cbn [map fst snd]. intros H. inversion H as [|? ? Hnotin Hnd]; subst.
  f_equal.
  - unfold Csv.cell. cbn [dict_get]. now rewrite String.eqb_refl.
  - rewrite <- (IH Hnd). apply map_ext_in. intros k' Hk'.
    apply cell_other. intros ->. contradiction.
Qed.

(** X19.  When the keys of the first record
    are distinct and every record has exactly these keys, in this order,
    the writing raises nothing: the header is the list of the keys and
    the rows are the lists of the values of the records, record after
    record. *)
Theorem written_rows_are_the_values (first : pydict) (rest : list pydict) :
  NoDup (keys first) ->
  Forall (fun r => keys r = keys first) rest ->
  Csv.write_results (first :: rest)
  = Some ({| Csv.header := keys first;
             Csv.rows := map (map snd) (first :: rest) |}, None).
Proof.
  intros Hnd Hk. rewrite (write_results_homogeneous first rest Hk).
  do 3 f_equal. apply map_ext_in. intros r [<-|Hin].
  - now apply row_of_own_keys.
  - rewrite Forall_forall in Hk. rewrite <- (Hk r Hin).
    apply row_of_own_keys. now rewrite (Hk r Hin).
Qed.

Lemma written_rows_are_the_values_witness :
  let second := dict_set (dict_set full_record "problem" (VStr "pb2"))
                         "success" (VBool false) in
  NoDup (keys full_record)
  /\ Forall (fun r => keys r = keys full_record) [second]
  /\ Csv.write_results [full_record; second]
     = Some ({| Csv.header := keys full_record;
                Csv.rows := map (map snd) [full_record; second] |}, None).
Proof.
  intros second.
  assert (H1 : NoDup (keys full_record)).
  { repeat (constructor; [simpl; intuition discriminate|]). constructor. }
  assert (H2 : Forall (fun r => keys r = keys full_record) [second])
    by (repeat constructor).
  split; [exact H1|]. split; [exact H2|].
  exact (written_rows_are_the_values full_record [second] H1 H2).
Defined.

(* ================================================================== *)
(** * The summary of [main] *)

Module SummaryFacts.
Import Summary.

Lemma key_eqb_eq (a b : string * string) : key_eqb a b = true <-> a = b.
Proof.
  destruct a as [a1 a2], b as [b1 b2]. unfold key_eqb. cbn [fst snd].
  rewrite andb_true_iff, !String.eqb_eq. split.
  - intros [-> ->]. reflexivity.
  - intros H. injection H as -> ->. auto.
Qed.

Lemma key_eqb_refl (a : string * string) : key_eqb a a = true.
Proof. now apply key_eqb_eq. Qed.

Lemma key_eqb_sym (a b : string * string) : key_eqb a b = key_eqb b a.
Proof.
  destruct (key_eqb a b) eqn:E, (key_eqb b a) eqn:E'; auto.
  - apply key_eqb_eq in E. subst. now rewrite key_eqb_refl in E'.
  - apply key_eqb_eq in E'. subst. now rewrite key_eqb_refl in E.
Qed.

Lemma firsts_snoc (l : list (string * string)) (k : string * string) :
  firsts (l ++ [k]) = if key_in k l then firsts l else firsts l ++ [k].
Proof.
  induction l as [|a l IH]; [reflexivity|].
  cbn [app firsts key_in existsb]. fold (key_in k l). rewrite IH.
  destruct (key_in k l); [now rewrite orb_true_r|].
  rewrite orb_false_r, filter_app. cbn [filter].
  rewrite (key_eqb_sym k a).
  destruct (key_eqb a k); cbn [negb]; [now rewrite app_nil_r | reflexivity].
Qed.

Lemma key_in_firsts (k : string * string) (l : list (string * string)) :
  key_in k (firsts l) = key_in k l.
Proof.
  induction l as [|a l IH]; [reflexivity|].
  cbn [firsts key_in existsb]. fold (key_in k l).
  destruct (key_eqb k a) eqn:E; [reflexivity|]. cbn [orb].
  rewrite <- IH. unfold key_in. clear IH.
  induction (firsts l) as [|b f IHf]; [reflexivity|].
  cbn [filter existsb]. destruct (key_eqb a b) eqn:Eab; cbn [negb].
  - apply key_eqb_eq in Eab. subst b. rewrite E. exact IHf.
  - cbn [existsb]. now rewrite IHf.
Qed.

Lemma key_in_true (k : string * string) (l : list (string * string)) :
  key_in k l = true <-> In k l.
Proof.
  unfold key_in. rewrite existsb_exists. split.
  - intros [x [Hx E]]. apply key_eqb_eq in E. now subst.
  - intros H. exists k. split; [exact H | apply key_eqb_refl].
Qed.

Lemma firsts_NoDup (l : list (string * string)) : NoDup (firsts l).
Proof.
  induction l as [|k l IH]; [constructor|].
  cbn [firsts]. constructor.
  - intros H. apply filter_In in H as [_ H]. now rewrite key_eqb_refl in H.
  - now apply NoDup_filter.
Qed.

Lemma filter_none (k : string * string) (rs : list run) :
  key_in k (map key rs) = false -> filter (has_key k) rs = [].
Proof.
  induction rs as [|r rs IH]; [reflexivity|].
  cbn [map key_in existsb filter]. fold (key_in k (map key rs)).
  intros H. apply orb_false_iff in H as [H1 H2].
  unfold has_key at 1. rewrite key_eqb_sym, H1. now apply IH.
Qed.

(** A record whose key has no group yet opens a group at the end. *)
Lemma append_to_new (F : string * string -> list run)
    (ks : list (string * string)) (r : run) :
  key_in (key r) ks = false ->
  append_to (key r) r (map (fun k => (k, F k)) ks)
  = map (fun k => (k, F k)) ks ++ [(key r, [r])].
Proof.
  induction ks as [|k ks IH]; [reflexivity|].
  cbn [key_in existsb map append_to app]. fold (key_in (key r) ks).
  intros H. apply orb_false_iff in H as [H1 H2].
  rewrite key_eqb_sym, H1. now rewrite (IH H2).
Qed.

(** A record whose key has a group goes to the end of that group. *)
Lemma append_to_old (F : string * string -> list run)
    (ks : list (string * string)) (r : run) :
  NoDup ks -> key_in (key r) ks = true ->
  append_to (key r) r (map (fun k => (k, F k)) ks)
  = map (fun k => (k, F k ++ filter (has_key k) [r])) ks.
Proof.
  induction 1 as [|k ks Hk Hnd IH]; [discriminate|].
  cbn [key_in existsb map append_to]. fold (key_in (key r) ks).
  assert (Hk_r : has_key k r = key_eqb k (key r))
    by (unfold has_key; apply key_eqb_sym).
  cbn [filter]. rewrite Hk_r, (key_eqb_sym (key r) k).
  destruct (key_eqb k (key r)) eqn:E.
  - intros _. f_equal.
    apply map_ext_in. intros k' Hk'. f_equal.
    destruct (has_key k' r) eqn:E'; [|now rewrite app_nil_r].
    unfold has_key in E'. apply key_eqb_eq in E, E'. subst. contradiction.
  - cbn [orb]. intros H. rewrite (IH H), app_nil_r. reflexivity.
Qed.

Lemma groups_step (rs : list run) (r : run) :
  append_to (key r) r (map (group_of rs) (firsts (map key rs)))
  = map (group_of (rs ++ [r])) (firsts (map key (rs ++ [r]))).
Proof.
  rewrite map_app. cbn [map]. rewrite firsts_snoc.
  unfold group_of.
  destruct (key_in (key r) (map key rs)) eqn:E.
  - rewrite (append_to_old (fun k => filter (has_key k) rs)).
    + apply map_ext. intros k. now rewrite filter_app.
    + apply firsts_NoDup.
    + now rewrite key_in_firsts.
  - rewrite (append_to_new (fun k => filter (has_key k) rs));
      [|now rewrite key_in_firsts].
    rewrite map_app. cbn [map]. f_equal.
    + apply map_ext_in. intros k Hk. rewrite filter_app. cbn [filter].
      destruct (has_key k r) eqn:Ek.
      * unfold has_key in Ek. apply key_eqb_eq in Ek. subst k.
        apply key_in_true in Hk. rewrite key_in_firsts in Hk. congruence.
      * now rewrite app_nil_r.
    + rewrite filter_app, (filter_none _ _ E). cbn [filter app].
      unfold has_key. now rewrite key_eqb_refl.
Qed.

Lemma groups_spec (rs : list run) :
  by_search_heuristic rs = map (group_of rs) (firsts (map key rs)).
Proof.
  unfold by_search_heuristic.
  induction rs as [|r rs IH] using rev_ind; [reflexivity|].
  rewrite fold_left_app. cbn [fold_left]. rewrite IH. apply groups_step.
Qed.

Lemma filter_some (k : string * string) (rs : list run) :
  key_in k (map key rs) = true -> filter (has_key k) rs <> [].
Proof.
  induction rs as [|r rs IH]; [discriminate|].
  cbn [map key_in existsb filter]. fold (key_in k (map key rs)).
  unfold has_key at 1. rewrite (key_eqb_sym k (key r)).
  destruct (key_eqb (key r) k); [discriminate | exact IH].
Qed.

Lemma groups_nonempty (rs : list run) :
  Forall (fun g => snd g <> []) (by_search_heuristic rs).
Proof.
  rewrite groups_spec, Forall_map. apply Forall_forall. intros k Hk.
  cbn [group_of snd]. apply filter_some.
  rewrite <- key_in_firsts. now apply key_in_true.
Qed.

Lemma append_to_count (k : string * string) (r : run)
    (groups : list ((string * string) * list run)) :
  List.length (List.concat (map snd (append_to k r groups)))
  = S (List.length (List.concat (map snd groups))).
Proof.
  induction groups as [|[k' runs] groups IH]; [reflexivity|].
  cbn [append_to]. destruct (key_eqb k' k); cbn [map snd List.concat].
  - rewrite !length_app. cbn [List.length]. lia.
  - rewrite !length_app, IH. lia.
Qed.

Lemma groups_count (rs : list run) :
  List.length (List.concat (map snd (by_search_heuristic rs))) = List.length rs.
Proof.
  unfold by_search_heuristic.
  induction rs as [|r rs IH] using rev_ind; [reflexivity|].
  rewrite fold_left_app. cbn [fold_left].
  rewrite append_to_count, IH, length_app. cbn [List.length]. lia.
Qed.

(** Facts about the quotient of two counts. *)
Lemma ratio_bounds (c n : nat) :
  (c <= S n)%nat -> 0 <= of_nat c / of_nat (S n) /\ of_nat c / of_nat (S n) <= 1.
Proof.
  intros H. unfold of_nat.
  assert (Hpos : 0 < inject_Z (Z.of_nat (S n))).
  { rewrite <- (Zlt_Qlt 0). lia. }
  split.
  - apply Qle_shift_div_l; [exact Hpos|].
    rewrite Qmult_0_l. rewrite <- (Zle_Qle 0). lia.
  - apply Qle_shift_div_r; [exact Hpos|].
    rewrite Qmult_1_l. rewrite <- Zle_Qle. lia.
Qed.

Lemma ratio_zero (c n : nat) :
  of_nat c / of_nat (S n) == 0 <-> c = O.
Proof.
  unfold of_nat, Qeq, Qdiv, Qmult, Qinv, inject_Z.
  cbn [Qnum Qden Z.of_nat]. lia.
Qed.

Lemma int_lengths_nil (runs : list run) :
  Forall success_has_length runs ->
  (int_lengths (filter success runs) = [] <-> filter success runs = []).
Proof.
  induction 1 as [|r runs Hr _ IH]; [tauto|].
  cbn [filter]. destruct (success r) eqn:E; [|exact IH].
  destruct (Hr E) as [n Hn]. unfold int_lengths. cbn [flat_map].
  rewrite Hn. split; discriminate.
Qed.

Lemma line_facts (g : (string * string) * list run) (l : line) :
  snd g <> [] -> Forall success_has_length (snd g) ->
  line_of g = Some l -> line_is_sound l.
Proof.
  destruct g as [k runs]. cbn [snd]. intros Hne Hlen.
  unfold line_of. cbn [snd fst].
  destruct runs as [|r0 runs0] eqn:Eruns; [contradiction|].
  rewrite <- Eruns in *. clear Hne.
  assert (Hn : List.length runs = S (List.length runs0))
    by (rewrite Eruns; reflexivity).
  pose proof (filter_length_le success runs) as Hc. rewrite Hn in Hc.
  pose proof (int_lengths_nil runs Hlen) as Hi.
  destruct (match int_lengths (filter success runs) with
            | [] => Some None
            | _ :: _ =>
                if overflows
                     (inject_Z (sumZ (int_lengths (filter success runs)))
                      / of_nat (List.length
                                  (int_lengths (filter success runs))))
                then None
                else Some
                       (Some
                          (inject_Z (sumZ (int_lengths (filter success runs)))
                           / of_nat (List.length
                                       (int_lengths (filter success runs)))))
            end) as [avg|] eqn:Eavg; [|discriminate].
  intros H. injection H as <-.
  unfold line_is_sound. cbn [l_success_rate l_avg_runtime l_avg_plan_length].
  rewrite Eruns at 1. rewrite <- Eruns. rewrite Hn.
  split; [now apply ratio_bounds|]. split.
  - rewrite ratio_zero.
    destruct (filter success runs) as [|s ss]; split; try reflexivity;
      discriminate.
  - destruct (filter success runs) as [|s ss] eqn:Es.
    + cbn [int_lengths flat_map] in Eavg. injection Eavg as <-. tauto.
    + destruct (int_lengths (s :: ss)) as [|z zs] eqn:Ez.
      * destruct Hi as [Hi _]. now specialize (Hi eq_refl).
      * destruct (overflows _); [discriminate|]. injection Eavg as <-.
        split; discriminate.
Qed.

Lemma printed_sound (groups : list ((string * string) * list run)) :
  Forall (fun g => snd g <> [] /\ Forall success_has_length (snd g)) groups ->
  Forall line_is_sound (fst (print_lines groups)).
Proof.
  induction 1 as [|g groups [Hne Hlen] _ IH]; [constructor|].
  cbn [print_lines]. destruct (line_of g) as [l|] eqn:E; [|constructor].
  destruct (print_lines groups) as [ls raised]. cbn [fst] in *.
  constructor; [|exact IH]. now apply (line_facts g).
Qed.

Lemma summary_sound (rs : list run) :
  Forall success_has_length rs -> Forall line_is_sound (fst (summary rs)).
Proof.
  intros H. unfold summary. apply printed_sound.
  pose proof (groups_nonempty rs) as Hne. rewrite groups_spec in *.
  rewrite Forall_map in *. rewrite Forall_forall in *. intros k Hk.
  split; [now apply Hne|].
  cbn [group_of snd]. apply Forall_forall. intros r Hr.
  apply filter_In in Hr as [Hr _]. now apply H.
Qed.

(** The sum of numbers that lie strictly between [- L] and [L]. *)
Lemma sumZ_shift (l : list Z) (a : Z) :
  fold_left Z.add l a = (a + sumZ l)%Z.
Proof.
  unfold sumZ. revert a. induction l as [|x l IH]; intros a; cbn [fold_left].
  - lia.
  - rewrite (IH (a + x)%Z), (IH (0 + x)%Z). lia.
Qed.

Lemma sumZ_bounds (L : Z) (l : list Z) :
  Forall (fun n => (- L < n < L)%Z) l -> l <> [] ->
  (- L * Z.of_nat (List.length l) < sumZ l
   < L * Z.of_nat (List.length l))%Z.
Proof.
  induction 1 as [|x l Hx Hl IH]; [contradiction|]. intros _.
  unfold sumZ. cbn [fold_left]. rewrite sumZ_shift.
  cbn [List.length]. rewrite Nat2Z.inj_succ.
  destruct l as [|y l'].
  - unfold sumZ. cbn [fold_left List.length Z.of_nat]. lia.
  - assert (Hne : y :: l' <> []) by discriminate.
    specialize (IH Hne). nia.
Qed.

Lemma int_lengths_in_range (runs : list run) :
  Forall length_in_float_range runs ->
  Forall (fun n => (- float_limit < n < float_limit)%Z) (int_lengths runs).
Proof.
  induction 1 as [|r runs Hr _ IH]; [constructor|].
  unfold int_lengths. cbn [flat_map]. fold (int_lengths runs).
  destruct (plan_length r) as [n|t] eqn:E; [|exact IH].
  constructor; [now apply Hr | exact IH].
Qed.

Lemma no_overflow (L S : Z) (k : nat) :
  (- L * Z.of_nat (Datatypes.S k) < S < L * Z.of_nat (Datatypes.S k))%Z ->
  Qle_bool (inject_Z L) (inject_Z S / of_nat (Datatypes.S k))
  || Qle_bool (inject_Z S / of_nat (Datatypes.S k)) (inject_Z (- L))
  = false.
Proof.
  intros [Hlo Hhi]. unfold of_nat.
  assert (Hpos : 0 < inject_Z (Z.of_nat (Datatypes.S k))).
  { rewrite <- (Zlt_Qlt 0). lia. }
  apply orb_false_iff. split.
  - destruct (Qle_bool _ _) eqn:E; [|reflexivity]. exfalso.
    apply Qle_bool_iff in E. apply (Qle_not_lt _ _ E).
    apply Qlt_shift_div_r; [exact Hpos|].
    rewrite <- inject_Z_mult, <- Zlt_Qlt. exact Hhi.
  - destruct (Qle_bool _ _) eqn:E; [|reflexivity]. exfalso.
    apply Qle_bool_iff in E. apply (Qle_not_lt _ _ E).
    apply Qlt_shift_div_l; [exact Hpos|].
    rewrite <- inject_Z_mult, <- Zlt_Qlt. lia.
Qed.

Lemma line_defined (g : (string * string) * list run) :
  Forall length_in_float_range (snd g) -> exists l, line_of g = Some l.
Proof.
  intros H. unfold line_of.
  assert (Hf : Forall length_in_float_range (filter success (snd g))).
  { apply Forall_forall. intros r Hr. apply filter_In in Hr as [Hr _].
    rewrite Forall_forall in H. now apply H. }
  apply int_lengths_in_range in Hf.
  destruct (int_lengths (filter success (snd g))) as [|z zs] eqn:E.
  - eexists. reflexivity.
  - assert (Hne : z :: zs <> []) by discriminate.
    pose proof (sumZ_bounds float_limit (z :: zs) Hf Hne) as Hb.
    cbn [List.length] in Hb |- *. unfold overflows.
    rewrite (no_overflow float_limit (sumZ (z :: zs)) (List.length zs) Hb).
    eexists. reflexivity.
Qed.

Lemma printed_all (groups : list ((string * string) * list run)) :
  Forall (fun g => Forall length_in_float_range (snd g)) groups ->
  snd (print_lines groups) = false
  /\ List.length (fst (print_lines groups)) = List.length groups.
Proof.
  induction 1 as [|g groups Hg _ [IH1 IH2]]; [split; reflexivity|].
  cbn [print_lines]. destruct (line_defined g Hg) as [l ->].
  destruct (print_lines groups) as [ls raised]. cbn [fst snd] in *.
  split; [exact IH1|]. cbn [List.length]. now rewrite IH2.
Qed.

Lemma summary_complete (rs : list run) :
  Forall length_in_float_range rs ->
  snd (summary rs) = false
  /\ List.length (fst (summary rs)) = List.length (by_search_heuristic rs).
Proof.
  intros H. unfold summary. apply printed_all.
  rewrite groups_spec, Forall_map. apply Forall_forall. intros k _.
  cbn [group_of snd]. apply Forall_forall. intros r Hr.
  apply filter_In in Hr as [Hr _]. rewrite Forall_forall in H. now apply H.
Qed.

End SummaryFacts.

(** A record of the runner is of the shape the summary reads, and when
    it reports success its plan length is an [int]. *)
Lemma runner_view (r : pydict) :
  from_runner r ->
  exists v, Summary.view r = Some v /\ Summary.success_has_length v.
Proof.
  intros (exec & d & p & s & h & t & ->). rewrite run_benchmark_eq.
  destruct (obs_outcome _) as [stdout stderr| |msg];
    [destruct (raised_after_run _ stdout) as [msg|] | |].
  - eexists. split; [reflexivity|]. intros H. discriminate.
  - eexists. split; [reflexivity|]. intros _. eexists. reflexivity.
  - eexists. split; [reflexivity|]. intros H. discriminate.
  - eexists. split; [reflexivity|]. intros H. discriminate.
Qed.

Lemma runner_views (results : list pydict) :
  Forall from_runner results ->
  exists runs, Summary.views results = Some runs
               /\ Forall Summary.success_has_length runs
               /\ List.length runs = List.length results.
Proof.
  induction 1 as [|r results Hr _ [runs [E [Hl Hn]]]].
  - exists []. repeat split; constructor.
  - destruct (runner_view r Hr) as [v [Ev Hv]].
    exists (v :: runs). cbn [Summary.views]. rewrite Ev, E.
    split; [reflexivity|]. split; [now constructor|].
    cbn [List.length]. now rewrite Hn.
Qed.

(** X20.  The summary has one group per pair of
    search and heuristic that occurs in the records, in the order in
    which the pairs first occur; a group holds the records of its pair
    in their order; no group is empty, no pair has two groups, and the
    groups hold as many records as there are. *)
Theorem summary_groups_records (results : list Summary.run) :
  let groups := Summary.by_search_heuristic results in
  groups = map (Summary.group_of results)
               (Summary.firsts (map Summary.key results))
  /\ NoDup (map fst groups)
  /\ Forall (fun g => snd g <> []) groups
  /\ List.length (List.concat (map snd groups)) = List.length results.
Proof.
  intros groups. subst groups. split; [apply SummaryFacts.groups_spec|].
  split; [|split].
  - rewrite SummaryFacts.groups_spec, map_map. cbn [Summary.group_of fst].
    rewrite map_id. apply SummaryFacts.firsts_NoDup.
  - apply SummaryFacts.groups_nonempty.
  - apply SummaryFacts.groups_count.
Qed.

(** X21.  The records that the runner returns
    are of the shape the summary reads.  In each line the summary prints
    the success rate lies between 0 and 1, the average runtime is [inf]
    exactly when the success rate is 0, and the average plan length is
    ['N/A'] exactly when the average runtime is [inf].  When every plan
    length lies within the range of [float] the summary prints one line
    for each group; a plan length beyond it can make the division of the
    average raise [OverflowError], which ends the summary. *)
Theorem summary_lines_are_sound (results : list pydict) :
  Forall from_runner results ->
  exists runs,
    Summary.views results = Some runs
    /\ Forall line_is_sound (fst (Summary.summary runs))
    /\ (Forall Summary.length_in_float_range runs ->
        snd (Summary.summary runs) = false
        /\ List.length (fst (Summary.summary runs))
           = List.length (Summary.by_search_heuristic runs))
    /\ Summary.summary
         [ {| Summary.search := "astar"; Summary.heuristic := "hmax";
              Summary.success := true; Summary.runtime := 1;
              Summary.plan_length := inl (2 ^ 1024)%Z |} ]
       = ([], true).
Proof.
  intros H. destruct (runner_views results H) as [runs [E [Hl _]]].
  exists runs. split; [exact E|].
  split; [now apply SummaryFacts.summary_sound|].
  split; [apply SummaryFacts.summary_complete|].
  vm_compute. reflexivity.
Qed.


Lemma summary_lines_are_sound_witness :
  let results :=
    [ run_benchmark (quick_planner 0) "/bench/bw/domain.pddl"
        "/bench/bw/pb1.pddl" (Some "astar") (Some "hmax") 5;
      run_benchmark (slow_planner 1) "/bench/bw/domain.pddl"
        "/bench/bw/pb2.pddl" (Some "astar") (Some "hmax") 5;
      run_benchmark (missing_planner 2) "/bench/bw/domain.pddl"
        "/bench/bw/pb1.pddl" (Some "gbf") (Some "hff") 5 ] in
  Forall from_runner results
  /\ exists runs,
       Summary.views results = Some runs
       /\ Forall line_is_sound (fst (Summary.summary runs))
       /\ (Forall Summary.length_in_float_range runs ->
           snd (Summary.summary runs) = false
           /\ List.length (fst (Summary.summary runs))
              = List.length (Summary.by_search_heuristic runs))
       /\ Summary.summary
            [ {| Summary.search := "astar"; Summary.heuristic := "hmax";
                 Summary.success := true; Summary.runtime := 1;
                 Summary.plan_length := inl (2 ^ 1024)%Z |} ]
          = ([], true).
Proof.
  intros results.
  assert (H : Forall from_runner results).
  { repeat constructor; unfold from_runner; eauto 10. }
  split; [exact H|].
  exact (summary_lines_are_sound results H).
Defined.

(** The groups and the counts of a small batch. *)
Example summary_sample :
  let run_of s h ok :=
    {| Summary.search := s; Summary.heuristic := h; Summary.success := ok;
       Summary.runtime := 1;
       Summary.plan_length := if ok then inl 7%Z else inr "timeout" |} in
  let results := [ run_of "astar" "hmax" true; run_of "gbf" "hmax" false;
                   run_of "astar" "hmax" false; run_of "gbf" "hmax" false ] in
  map (fun g => (fst g, List.length (snd g)))
      (Summary.by_search_heuristic results)
  = [ (("astar", "hmax"), 2%nat); (("gbf", "hmax"), 2%nat) ]
  /\ map Summary.l_avg_plan_length (fst (Summary.summary results))
     = [ Some (7 / 1); None ]
  /\ snd (Summary.summary results) = false.
Proof. repeat split; reflexivity. Qed.

(* ================================================================== *)
(** * The colours of the runtime plot *)

(** X22.  In the runtime plot every combination
    whose text begins with [astar] gets one of the four red tones and
    every other combination one of the four blue tones; no tone is both,
    so two combinations of the same colour are both A* combinations or
    both not. *)
Theorem colour_tells_the_family (a b : string) :
  (PyStr.startswith "astar" a = true ->
   In (Visualizer.colour_of a) Visualizer.red_tones)
  /\ (PyStr.startswith "astar" a = false ->
      In (Visualizer.colour_of a) Visualizer.blue_tones)
  /\ (Visualizer.colour_of a = Visualizer.colour_of b ->
      PyStr.startswith "astar" a = PyStr.startswith "astar" b).
Proof.
  unfold Visualizer.colour_of.
  destruct (PyStr.startswith "astar" a), (PyStr.contains "hmax" a),
    (PyStr.contains "hadd" a), (PyStr.contains "hff" a),
    (PyStr.startswith "astar" b), (PyStr.contains "hmax" b),
    (PyStr.contains "hadd" b), (PyStr.contains "hff" b);
    (split; [|split]); intros H; try reflexivity; try discriminate;
    simpl; auto 6.
Qed.

(* ================================================================== *)
(** * Corpus Walker: the exceptions that leave [main] *)

Section MainRaises.

Variable fs : FileSystem.
Variable planner : nat -> Exec.
Variable args : Walker.config.









End MainRaises.



(** The same corpus without [--debug]: the problem whose later bytes do
    not decode is benchmarked like any other, and the sort error and the
    name error are reached on the corpora of C4 and C1. *)
Example main_on_a_garbled_problem :
  (exists st file,
      Walker.main (Disk.fs garbled_disk) quick_planner default_args
      = Return (st, Some file)
      /\ List.length (Walker.results st) = 7%nat)
  /\ Walker.main (Disk.fs mixed_names_disk) quick_planner debug_args
     = Raise TypeError
  /\ Walker.main (Disk.fs lone_problem_disk) quick_planner debug_args
     = Raise (NameError "problem_dir").
Proof.
  split; [|split].
  - destruct (Walker.main (Disk.fs garbled_disk) quick_planner default_args)
      as [[st [file|]]|e] eqn:E; try (vm_compute in E; discriminate).
    exists st, file. split; [reflexivity|].
    vm_compute in E. injection E as <- _. reflexivity.
  - vm_compute. reflexivity.
  - vm_compute. reflexivity.
Qed.

(* ================================================================== *)
(** * Benchmark Runner: when the [try] block runs through *)

Lemma string_length_app (a b : string) :
  String.length (a ++ b) = (String.length a + String.length b)%nat.
Proof. induction a as [|c a IH]; simpl; [reflexivity | now rewrite IH]. Qed.

Lemma occurs_in_length (n s : string) :
  occurs_in n s -> (String.length n <= String.length s)%nat.
Proof. intros [pre [post ->]]. rewrite !string_length_app. lia. Qed.

(** [int] accepts a string of at most 640 digits, any string when the
    limit is switched off, and any string within the limit. *)
Lemma int_checked_accepts (max_str_digits : nat) (g : string) :
  max_str_digits = 0%nat
  \/ (String.length g <= Nat.max 640 max_str_digits)%nat ->
  PyStr.int_checked max_str_digits g = inr (PyStr.int g).
Proof.
  intros H. unfold PyStr.int_checked.
  destruct ((0 <? max_str_digits)%nat && (max_str_digits <? String.length g)%nat
            && (640 <? String.length g)%nat) eqn:E; [exfalso|reflexivity].
  apply andb_true_iff in E as [E E3]. apply andb_true_iff in E as [E1 E2].
  apply Nat.ltb_lt in E1, E2, E3. lia.
Qed.

(** X24.  When the [print] of the planner's
    standard error succeeds and the interpreter has no limit on the
    digits of an [int], or the standard output has at most as many
    characters as that limit allows digits (at most 640 where the limit
    is smaller), no statement of the [try] block raises after
    [subprocess.run] has returned: the record of the call is a normal
    one. *)
Theorem short_output_raises_nothing (exec : Exec)
    (domain_file problem_file : string) (search heuristic : option string)
    (timeout : Z) (stdout stderr : string) :
  let obs :=
    exec (command_line domain_file problem_file search heuristic) timeout in
  let r :=
    run_benchmark exec domain_file problem_file search heuristic timeout in
  obs_outcome obs = Completed stdout stderr ->
  obs_print obs = None ->
  obs_max_str_digits obs = 0%nat
  \/ (String.length stdout <= Nat.max 640 (obs_max_str_digits obs))%nat ->
  raised_after_run obs stdout = None /\ classes_of r = [Normal].
Proof.
  intros obs r E Hprint Hshort.
  assert (Hrun : raised_after_run obs stdout = None).
  { unfold raised_after_run, int_failure.
    destruct (Re.search Re.nodes_re stdout) as [g1|] eqn:E1.
    - rewrite int_checked_accepts.
      + destruct (Re.search Re.length_re stdout) as [g2|] eqn:E2;
          [|exact Hprint].
        rewrite int_checked_accepts; [exact Hprint|].
        destruct Hshort as [H|H]; [now left | right].
        destruct (length_group stdout g2 E2) as [_ [_ Ho]].
        apply occurs_in_length in Ho. rewrite string_length_app in Ho. lia.
      + destruct Hshort as [H|H]; [now left | right].
        destruct (nodes_group stdout g1 E1) as [_ [_ Ho]].
        apply occurs_in_length in Ho. rewrite string_length_app in Ho. lia.
    - destruct (Re.search Re.length_re stdout) as [g2|] eqn:E2;
        [|exact Hprint].
      rewrite int_checked_accepts; [exact Hprint|].
      destruct Hshort as [H|H]; [now left | right].
      destruct (length_group stdout g2 E2) as [_ [_ Ho]].
      apply occurs_in_length in Ho. rewrite string_length_app in Ho. lia. }
  split; [exact Hrun|].
  destruct (run_benchmark_class exec domain_file problem_file search
              heuristic timeout) as [Hc _].
  fold obs r in Hc. rewrite Hc. unfold class_of_observation.
  now rewrite E, Hrun.
Qed.

Lemma short_output_raises_nothing_witness :
  let exec := quick_planner 0 in
  let obs := exec (command_line "/bench/bw/domain.pddl" "/bench/bw/pb1.pddl"
                                (Some "astar") (Some "hmax")) 5%Z in
  let r := run_benchmark exec "/bench/bw/domain.pddl" "/bench/bw/pb1.pddl"
                         (Some "astar") (Some "hmax") 5 in
  let stdout := "Goal reached. 42 Nodes expanded
Plan length: 7" in
  obs_outcome obs = Completed stdout ""
  /\ obs_print obs = None
  /\ (obs_max_str_digits obs = 0%nat
      \/ (String.length stdout <= Nat.max 640 (obs_max_str_digits obs))%nat)
  /\ raised_after_run obs stdout = None /\ classes_of r = [Normal].
Proof.
  intros exec obs r stdout.
  assert (H1 : obs_outcome obs = Completed stdout "") by reflexivity.
  assert (H2 : obs_print obs = None) by reflexivity.
  assert (H3 : obs_max_str_digits obs = 0%nat
               \/ (String.length stdout
                   <= Nat.max 640 (obs_max_str_digits obs))%nat)
    by (right; apply Nat.leb_le; reflexivity).
  split; [exact H1|]. split; [exact H2|]. split; [exact H3|].
  exact (short_output_raises_nothing exec "/bench/bw/domain.pddl"
           "/bench/bw/pb1.pddl" (Some "astar") (Some "hmax") 5%Z stdout ""
           H1 H2 H3).
Defined.
